(** * AI-usage governance layer of the CALIPAR backend

    A shallow embedding of

    - [backend/services/ai_cache.py]   (class [AICache], the response cache),
    - [backend/services/rate_limiter.py] (class [RateLimiterService]),
    - [backend/models/ai_usage.py]     (tables and [DEFAULT_RATE_LIMITS]),
    - [backend/models/user.py]         (enum [UserRole]),

    followed by the properties of the governance layer that hold of this
    code, and by evaluations of the code at the inputs where it departs
    from its own documentation.

    Conventions of the embedding.

    - Python [int] is [Z].  A [datetime] is [Z] too, the number of
      microseconds since the epoch, in which its arithmetic is exact.  A
      reading of [time.time()] is a [float] of seconds; it is taken in [Z]
      as well, a time-to-live being counted in the same unit, so that the
      comparisons and sums of the cache are those of an ordered group.
      Every clock reading a method performs is an explicit argument of its
      model.
    - A Python [dict] whose order matters ([OrderedDict], and the payload
      handed to [json.dumps]) is an association list in insertion order.
    - A method that mutates [self] returns the new object next to its
      result.  The methods of [AICache] run under [self._lock]; a method
      is therefore one atomic step of the model.
    - A Python exception is a constructor of the result type. *)

From Stdlib Require Import ZArith List String Ascii Bool Lia.
From Stdlib Require Import Permutation Sorted RelationClasses.
From Stdlib Require Import OrdersEx DecimalString.
Import ListNotations.

Local Open Scope string_scope.
Local Open Scope Z_scope.
Local Open Scope list_scope.

(** ** Library functions the code calls

    [hashlib.sha256(...).hexdigest()] and the string quoting of the [json]
    encoder are not code of the repository: they are taken as an
    interface.  Nothing is assumed about them. *)

Class PyLib : Type := {
  (** [hashlib.sha256(s.encode()).hexdigest()] *)
  sha256_hexdigest : string -> string;
  (** [json.encoder.encode_basestring_ascii]: a string literal, quoted and
      escaped *)
  encode_basestring_ascii : string -> string
}.

(** ** Python values that reach the cache *)

Module Py.

(** The request payloads and the cached responses are JSON-like trees.
    [VObject s] is any other object, whose [str()] is [s]
    ([json.dumps] is called with [default=str]).  [VFloat r] is a float
    whose [repr] is [r]. *)
#[local] Set Warnings "-register-all".
Inductive value : Type :=
| VNone
| VBool (b : bool)
| VInt (n : Z)
| VFloat (repr : string)
| VStr (s : string)
| VObject (str : string)
| VList (l : list value)
| VDict (items : list (string * value)).

(** [d.get(k)] on a [dict]: the value bound to [k], if any. *)
Fixpoint dict_lookup {V : Type} (k : string) (d : list (string * V)) : option V :=
  match d with
  | [] => None
  | (k', v) :: d' => if String.eqb k' k then Some v else dict_lookup k d'
  end.

(** [d.get(k, default)] *)
Definition dict_get {V : Type} (d : list (string * V)) (k : string) (default : V) : V :=
  match dict_lookup k d with
  | Some v => v
  | None => default
  end.

(** [str(n)] for an [int] *)
Definition str_of_int (n : Z) : string := NilZero.string_of_int (Z.to_int n).

(** [", ".join(parts)] *)
Fixpoint join (sep : string) (parts : list string) : string :=
  match parts with
  | [] => ""
  | [p] => p
  | p :: ps => (p ++ sep ++ join sep ps)%string
  end.

(** The order of [str]: lexicographic on the characters. *)
Definition key_le (a b : string) : bool :=
  match String_as_OT.compare a b with
  | Gt => false
  | _ => true
  end.

(** [sorted(dct.items())], as the encoder does under [sort_keys=True].
    The keys of a [dict] are distinct, so the comparison of two items
    is decided by their keys.  The sort is stable. *)
Fixpoint insert_item {V : Type} (x : string * V) (l : list (string * V)) : list (string * V) :=
  match l with
  | [] => [x]
  | y :: l' => if key_le (fst x) (fst y) then x :: y :: l' else y :: insert_item x l'
  end.

Fixpoint sorted_items {V : Type} (l : list (string * V)) : list (string * V) :=
  match l with
  | [] => []
  | x :: l' => insert_item x (sorted_items l')
  end.

Section Dumps.
Context {lib : PyLib}.

(** [json.dumps(v, sort_keys=True, default=str)], with the default
    separators [", "] and [": "].  The members of a [dict] are rendered
    and then ordered by key; the encoder orders them and then renders
    them, which gives the same text since the order only reads the
    keys. *)
Fixpoint dumps (v : value) : string :=
  match v with
  | VNone => "null"
  | VBool true => "true"
  | VBool false => "false"
  | VInt n => str_of_int n
  | VFloat r => r
  | VStr s => encode_basestring_ascii s
  | VObject s => encode_basestring_ascii s
  | VList l => ("[" ++ join ", " (map dumps l) ++ "]")%string
  | VDict items =>
      ("{" ++ join ", "
                (map (fun kv => encode_basestring_ascii (fst kv) ++ ": " ++ snd kv)
                     (sorted_items (map (fun kv => (fst kv, dumps (snd kv))) items)))
           ++ "}")%string
  end.
End Dumps.

(** Induction on a value, with the hypothesis for every member of a
    [list] and of a [dict]. *)
Section ValueInd.
Variable P : value -> Prop.
Hypothesis HNone : P VNone.
Hypothesis HBool : forall b, P (VBool b).
Hypothesis HInt : forall n, P (VInt n).
Hypothesis HFloat : forall r, P (VFloat r).
Hypothesis HStr : forall s, P (VStr s).
Hypothesis HObject : forall s, P (VObject s).
Hypothesis HList : forall l, Forall P l -> P (VList l).
Hypothesis HDict : forall items, Forall (fun kv => P (snd kv)) items -> P (VDict items).

Fixpoint value_rect' (v : value) : P v :=
  match v with
  | VNone => HNone
  | VBool b => HBool b
  | VInt n => HInt n
  | VFloat r => HFloat r
  | VStr s => HStr s
  | VObject s => HObject s
  | VList l =>
      HList l
        ((fix members (l : list value) : Forall P l :=
            match l with
            | [] => Forall_nil P
            | x :: l' => Forall_cons x (value_rect' x) (members l')
            end) l)
  | VDict items =>
      HDict items
        ((fix members (l : list (string * value)) : Forall (fun kv => P (snd kv)) l :=
            match l with
            | [] => Forall_nil _
            | kv :: l' => Forall_cons kv (value_rect' (snd kv)) (members l')
            end) items)
  end.
End ValueInd.

(** A value is well formed when the keys of each of its [dict]s are
    distinct, as they are in every Python [dict]. *)
Inductive wf_value : value -> Prop :=
| wf_VNone : wf_value VNone
| wf_VBool b : wf_value (VBool b)
| wf_VInt n : wf_value (VInt n)
| wf_VFloat r : wf_value (VFloat r)
| wf_VStr s : wf_value (VStr s)
| wf_VObject s : wf_value (VObject s)
| wf_VList l : Forall wf_value l -> wf_value (VList l)
| wf_VDict items :
    NoDup (map fst items) ->
    Forall (fun kv => wf_value (snd kv)) items ->
    wf_value (VDict items).

(** Two values are equal as unordered structures: the same value up to
    the order of the members of the [dict]s, at any depth. *)
Inductive value_equiv : value -> value -> Prop :=
| equiv_same v : value_equiv v v
| equiv_list l1 l2 :
    Forall2 value_equiv l1 l2 -> value_equiv (VList l1) (VList l2)
| equiv_dict items1 items1' items2 :
    Permutation items1 items1' ->
    Forall2 (fun a b => fst a = fst b /\ value_equiv (snd a) (snd b)) items1' items2 ->
    value_equiv (VDict items1) (VDict items2).
#[local] Set Warnings "register-all".

(** The truth value of a value, as [if v:], [not v] and [v or w] take it.
    An object of another class is true, as objects are unless their class
    says otherwise; a float is false when it is a zero. *)
Definition truthy (v : value) : bool :=
  match v with
  | VNone => false
  | VBool b => b
  | VInt n => negb (n =? 0)
  | VFloat r => negb (String.eqb r "0.0" || String.eqb r "-0.0")
  | VStr s => negb (String.eqb s "")
  | VObject _ => true
  | VList l => match l with [] => false | _ :: _ => true end
  | VDict items => match items with [] => false | _ :: _ => true end
  end.

(** [v or w] *)
Definition or_ (v w : value) : value := if truthy v then v else w.

(** [v is None] *)
Definition is_none (v : value) : bool :=
  match v with
  | VNone => true
  | _ => false
  end.

(** [x or 0] for an [Optional[int]] *)
Definition or_zero (x : option Z) : Z :=
  match x with
  | Some n => n
  | None => 0
  end.

End Py.

(** ** [collections.OrderedDict] with [str] keys

    The items in insertion order; the front of the list is the oldest
    position, the back the newest. *)

Module OrderedDict.
Section Ops.
Context {V : Type}.

Definition t : Type := list (string * V).

(** [len(d)] *)
Definition len (d : t) : Z := Z.of_nat (List.length d).

(** [d.keys()] *)
Definition keys (d : t) : list string := map fst d.

(** [k in d] *)
Definition contains (k : string) (d : t) : bool :=
  match Py.dict_lookup k d with
  | Some _ => true
  | None => false
  end.

(** [d[k]], for a key that is present *)
Definition getitem (k : string) (d : t) : option V := Py.dict_lookup k d.

(** [del d[k]], for a key that is present (the code deletes no other) *)
Fixpoint delitem (k : string) (d : t) : t :=
  match d with
  | [] => []
  | (k', v) :: d' => if String.eqb k' k then d' else (k', v) :: delitem k d'
  end.

(** [d[k] = v] for a key that is present: the item keeps its position *)
Fixpoint replace (k : string) (v : V) (d : t) : t :=
  match d with
  | [] => []
  | (k', v') :: d' => if String.eqb k' k then (k', v) :: d' else (k', v') :: replace k v d'
  end.

(** [d[k] = v]: a new key goes to the back *)
Definition setitem (k : string) (v : V) (d : t) : t :=
  if contains k d then replace k v d else d ++ [(k, v)].

(** [d.move_to_end(k)], for a key that is present *)
Definition move_to_end (k : string) (d : t) : t :=
  match getitem k d with
  | Some v => delitem k d ++ [(k, v)]
  | None => d
  end.

(** [d.popitem(last=False)], for a [dict] that is not empty: the front
    item leaves *)
Definition popitem_first (d : t) : t := tl d.

End Ops.
Arguments t : clear implicits.
End OrderedDict.

(** ** [services/ai_cache.py] *)

(** [class CacheStats]: the counters.  [hit_rate] and
    [estimated_cost_savings] are floating-point views of [hits] and
    [misses] and are not part of the state. *)
Module CacheStats.
Record t : Type := mk {
  hits : Z;
  misses : Z;
  evictions : Z;
  current_size : Z;
  max_size : Z
}.
Definition with_hits (x : Z) (s : t) : t :=
  mk x (misses s) (evictions s) (current_size s) (max_size s).
Definition with_misses (x : Z) (s : t) : t :=
  mk (hits s) x (evictions s) (current_size s) (max_size s).
Definition with_evictions (x : Z) (s : t) : t :=
  mk (hits s) (misses s) x (current_size s) (max_size s).
Definition with_current_size (x : Z) (s : t) : t :=
  mk (hits s) (misses s) (evictions s) x (max_size s).
End CacheStats.

(** [class CacheEntry] *)
Module CacheEntry.
Record t : Type := mk {
  value : Py.value;
  created_at : Z;
  expires_at : Z;
  hit_count : Z;
  last_accessed : Z
}.

(** [is_expired]: [time.time() > self.expires_at], at the reading [now] *)
Definition is_expired (now : Z) (self : t) : bool := expires_at self <? now.
End CacheEntry.

(** What a method that can raise gives back. *)
Inductive outcome (A : Type) : Type :=
| Returns (a : A)
| Raises (exception : string).
Arguments Returns {A} a.
Arguments Raises {A} exception.

(** [d[k]] on a [dict] *)
Definition dict_getitem {V : Type} (d : list (string * V)) (k : string) : outcome V :=
  match Py.dict_lookup k d with
  | Some v => Returns v
  | None => Raises "KeyError"
  end.

Module AICache.
Import OrderedDict.

(** The object: [self.max_size], [self._cache], [self._stats]. *)
Record t : Type := mk {
  max_size : Z;
  _cache : OrderedDict.t CacheEntry.t;
  _stats : CacheStats.t
}.

Definition with_cache (d : OrderedDict.t CacheEntry.t) (self : t) : t :=
  mk (max_size self) d (_stats self).
Definition with_stats (s : CacheStats.t) (self : t) : t :=
  mk (max_size self) (_cache self) s.

Definition DEFAULT_TTLS : list (string * Z) :=
  [ ("analyze", 3600); ("expand", 1800); ("equity_check", 3600);
    ("chat", 300); ("socratic", 600); ("default", 1800) ].

(** [if ttl is None: ttl = self.DEFAULT_TTLS.get(endpoint,
    self.DEFAULT_TTLS["default"])].  The key "default" is in the table. *)
Definition ttl_or_default (endpoint : string) (ttl : option Z) : Z :=
  match ttl with
  | Some ttl => ttl
  | None => Py.dict_get DEFAULT_TTLS endpoint (Py.dict_get DEFAULT_TTLS "default" 0)
  end.

(** [__init__] *)
Definition init (max_size : Z) : t :=
  mk max_size [] (CacheStats.mk 0 0 0 0 max_size).

Section Methods.
Context {lib : PyLib}.

(** [_generate_key].  [if user_id:] is false for [None] and for the empty
    string. *)
Definition _generate_key (endpoint : string) (prompt_data : Py.value)
    (user_id : option string) : string :=
  let key_parts := [("endpoint", Py.VStr endpoint); ("data", prompt_data)] in
  let key_parts :=
    match user_id with
    | Some u => if String.eqb u "" then key_parts
                else setitem "user_id" (Py.VStr u) key_parts
    | None => key_parts
    end in
  let serialized := Py.dumps (Py.VDict key_parts) in
  sha256_hexdigest serialized.

(** [get].  [t_expiry] is the clock reading of [entry.is_expired()],
    [t_access] the one stored in [last_accessed]. *)
Definition get (self : t) (endpoint : string) (prompt_data : Py.value)
    (user_id : option string) (t_expiry t_access : Z) : option Py.value * t :=
  let key := _generate_key endpoint prompt_data user_id in
  if negb (contains key (_cache self)) then
    (None, with_stats (CacheStats.with_misses (CacheStats.misses (_stats self) + 1) (_stats self)) self)
  else
    match getitem key (_cache self) with
    | None => (None, self)
    | Some entry =>
        if CacheEntry.is_expired t_expiry entry then
          let self := with_cache (delitem key (_cache self)) self in
          let self := with_stats (CacheStats.with_current_size (CacheStats.current_size (_stats self) - 1) (_stats self)) self in
          let self := with_stats (CacheStats.with_misses (CacheStats.misses (_stats self) + 1) (_stats self)) self in
          (None, self)
        else
          let entry :=
            CacheEntry.mk (CacheEntry.value entry) (CacheEntry.created_at entry)
              (CacheEntry.expires_at entry) (CacheEntry.hit_count entry + 1) t_access in
          let self := with_cache (replace key entry (_cache self)) self in
          let self := with_cache (move_to_end key (_cache self)) self in
          let self := with_stats (CacheStats.with_hits (CacheStats.hits (_stats self) + 1) (_stats self)) self in
          (Some (CacheEntry.value entry), self)
    end.

(** [_evict_oldest] *)
Definition _evict_oldest (self : t) : t :=
  match _cache self with
  | [] => self
  | _ :: _ =>
      let self := with_cache (popitem_first (_cache self)) self in
      let self := with_stats (CacheStats.with_evictions (CacheStats.evictions (_stats self) + 1) (_stats self)) self in
      with_stats (CacheStats.with_current_size (len (_cache self)) (_stats self)) self
  end.

(** [while len(self._cache) >= self.max_size: self._evict_oldest()].
    [None] when the loop has not come to its end within [fuel] rounds. *)
Fixpoint evict_while_full (fuel : nat) (self : t) : option t :=
  if max_size self <=? len (_cache self) then
    match fuel with
    | O => None
    | S fuel' => evict_while_full fuel' (_evict_oldest self)
    end
  else Some self.

(** [set], at the clock reading [now].  The loop is given one round more
    than there are entries: a round on a cache that is not empty removes
    an entry, and a round on an empty cache changes nothing, so that from
    there on the loop condition has the same value for ever.  [None]
    therefore stands for a call that does not return. *)
Definition set (self : t) (endpoint : string) (prompt_data : Py.value)
    (value : Py.value) (ttl : option Z) (user_id : option string) (now : Z)
    : option (string * t) :=
  let key := _generate_key endpoint prompt_data user_id in
  let ttl := ttl_or_default endpoint ttl in
  let entry := CacheEntry.mk value now (now + ttl) 0 now in
  if contains key (_cache self) then
    let self := with_cache (replace key entry (_cache self)) self in
    let self := with_cache (move_to_end key (_cache self)) self in
    Some (key, self)
  else
    match evict_while_full (S (List.length (_cache self))) self with
    | None => None
    | Some self =>
        let self := with_cache (setitem key entry (_cache self)) self in
        let self := with_stats (CacheStats.with_current_size (len (_cache self)) (_stats self)) self in
        Some (key, self)
    end.

(** [invalidate] *)
Definition invalidate (self : t) (endpoint : string) (prompt_data : Py.value)
    (user_id : option string) : bool * t :=
  let key := _generate_key endpoint prompt_data user_id in
  if contains key (_cache self) then
    let self := with_cache (delitem key (_cache self)) self in
    let self := with_stats (CacheStats.with_current_size (len (_cache self)) (_stats self)) self in
    (true, self)
  else (false, self).

(** [entry.value.get("_endpoint") == endpoint].  Only a [dict] has a
    method [get]; on any other value the attribute lookup raises. *)
Definition value_endpoint_is (endpoint : string) (v : Py.value) : outcome bool :=
  match v with
  | Py.VDict items =>
      match Py.dict_get items "_endpoint" Py.VNone with
      | Py.VStr s => Returns (String.eqb s endpoint)
      | _ => Returns false
      end
  | _ => Raises "AttributeError"
  end.

(** [[key for key, entry in self._cache.items()
      if entry.value.get("_endpoint") == endpoint]] *)
Fixpoint keys_of_endpoint (endpoint : string) (items : OrderedDict.t CacheEntry.t)
    : outcome (list string) :=
  match items with
  | [] => Returns []
  | (key, entry) :: items' =>
      match value_endpoint_is endpoint (CacheEntry.value entry) with
      | Raises e => Raises e
      | Returns b =>
          match keys_of_endpoint endpoint items' with
          | Raises e => Raises e
          | Returns ks => Returns (if b then key :: ks else ks)
          end
      end
  end.

(** [for key in keys: del self._cache[key]; count += 1] *)
Fixpoint delete_keys (ks : list string) (d : OrderedDict.t CacheEntry.t) (count : Z)
    : OrderedDict.t CacheEntry.t * Z :=
  match ks with
  | [] => (d, count)
  | key :: ks' => delete_keys ks' (delitem key d) (count + 1)
  end.

(** [invalidate_by_endpoint].  An exception of the comprehension leaves
    the object as it was. *)
Definition invalidate_by_endpoint (self : t) (endpoint : string) : outcome Z * t :=
  match keys_of_endpoint endpoint (_cache self) with
  | Raises e => (Raises e, self)
  | Returns keys_to_remove =>
      let '(d, count) := delete_keys keys_to_remove (_cache self) 0 in
      let self := with_cache d self in
      let self := with_stats (CacheStats.with_current_size (len (_cache self)) (_stats self)) self in
      (Returns count, self)
  end.

(** [clear] *)
Definition clear (self : t) : Z * t :=
  let count := len (_cache self) in
  let self := with_cache [] self in
  let self := with_stats (CacheStats.with_current_size 0 (_stats self)) self in
  (count, self).

(** [cleanup_expired], at the clock reading [now] *)
Definition cleanup_expired (self : t) (now : Z) : Z * t :=
  let expired_keys :=
    map fst (filter (fun kv => CacheEntry.expires_at (snd kv) <? now) (_cache self)) in
  let '(d, count) := delete_keys expired_keys (_cache self) 0 in
  let self := with_cache d self in
  let self := with_stats (CacheStats.with_current_size (len (_cache self)) (_stats self)) self in
  (count, self).

(** [reset_stats] *)
Definition reset_stats (self : t) : t :=
  with_stats (CacheStats.mk 0 0 0 (len (_cache self)) (max_size self)) self.

(** The wrapper of [cached_ai_response]: the [user_id] it hands to [get]
    and [set] is
    [kwargs.get("user_id") if include_user else None]. *)
Definition cached_ai_response_user_id (include_user : bool)
    (kwargs_user_id : option string) : option string :=
  if include_user then kwargs_user_id else None.

(** *** Runs of the cache

    A call of a public method that changes the object, with the clock
    readings it makes. *)
Inductive op : Type :=
| OpGet (endpoint : string) (prompt_data : Py.value) (user_id : option string)
        (t_expiry t_access : Z)
| OpSet (endpoint : string) (prompt_data : Py.value) (value : Py.value)
        (ttl : option Z) (user_id : option string) (now : Z)
| OpInvalidate (endpoint : string) (prompt_data : Py.value) (user_id : option string)
| OpInvalidateByEndpoint (endpoint : string)
| OpClear
| OpCleanupExpired (now : Z)
| OpResetStats.

(** The object after the call; [None] if the call does not return. *)
Definition step (o : op) (self : t) : option t :=
  match o with
  | OpGet e p u t1 t2 => Some (snd (get self e p u t1 t2))
  | OpSet e p v ttl u now => option_map snd (set self e p v ttl u now)
  | OpInvalidate e p u => Some (snd (invalidate self e p u))
  | OpInvalidateByEndpoint e => Some (snd (invalidate_by_endpoint self e))
  | OpClear => Some (snd (clear self))
  | OpCleanupExpired now => Some (snd (cleanup_expired self now))
  | OpResetStats => Some (reset_stats self)
  end.

Fixpoint run (ops : list op) (self : t) : option t :=
  match ops with
  | [] => Some self
  | o :: ops' =>
      match step o self with
      | Some self' => run ops' self'
      | None => None
      end
  end.

(** The readings of a clock that does not go back: [clock_ok t ops] when
    the readings of [ops], in the order they are made, never decrease
    and start at or after [t]. *)
Definition op_clock_end (t : Z) (o : op) : Z :=
  match o with
  | OpGet _ _ _ _ t2 => t2
  | OpSet _ _ _ _ _ now => now
  | OpCleanupExpired now => now
  | _ => t
  end.

Definition op_clock_ok (t : Z) (o : op) : bool :=
  match o with
  | OpGet _ _ _ t1 t2 => (t <=? t1) && (t1 <=? t2)
  | OpSet _ _ _ _ _ now => t <=? now
  | OpCleanupExpired now => t <=? now
  | _ => true
  end.

Fixpoint clock_ok (t : Z) (ops : list op) : bool :=
  match ops with
  | [] => true
  | o :: ops' => op_clock_ok t o && clock_ok (op_clock_end t o) ops'
  end.

(** [get_stats]: [current_size] is refreshed, and the counters are handed
    out.  The two floats [to_dict] derives from them, [hit_rate] and
    [estimated_cost_savings_usd], are left out. *)
Definition get_stats (self : t) : CacheStats.t * t :=
  let self := with_stats (CacheStats.with_current_size (len (_cache self)) (_stats self)) self in
  (_stats self, self).

(** *** The decorator [cached_ai_response]

    The keyword arguments the wrapper reads.  A keyword that is not
    passed reads as [None] under [kwargs.get], and [bypass_cache] as
    [False] under [kwargs.pop("bypass_cache", False)]; [user_id] is a
    string, as [get] and [set] annotate it. *)
Record kwargs : Type := mk_kwargs {
  kw_data : Py.value;
  kw_prompt : Py.value;
  kw_user_id : option string;
  kw_bypass_cache : Py.value
}.

(** [kwargs.get("data") or kwargs.get("prompt") or args[0] if args else
    None]: a conditional expression, whose condition is [args]. *)
Definition wrapper_prompt_data (args : list Py.value) (kw : kwargs) : Py.value :=
  match args with
  | [] => Py.VNone
  | arg0 :: _ => Py.or_ (Py.or_ (kw_data kw) (kw_prompt kw)) arg0
  end.

(** One call of [wrapper], for the decorator arguments [endpoint], [ttl]
    and [include_user].  [result] is what the wrapped function returns if
    it is awaited; the wrapper awaits it at most once.  The outcome is the
    value returned, whether the wrapped function was called, and the
    cache.  [t_expiry] and [t_access] are the clock readings of [get],
    [now] the one of [set]. *)
Definition wrapper (endpoint : string) (ttl : option Z) (include_user : bool)
    (self : t) (args : list Py.value) (kw : kwargs) (result : Py.value)
    (t_expiry t_access now : Z) : option (Py.value * bool * t) :=
  let prompt_data := wrapper_prompt_data args kw in
  let user_id := cached_ai_response_user_id include_user (kw_user_id kw) in
  let bypass_cache := kw_bypass_cache kw in
  let call_and_store (self : t) :=
    match set self endpoint prompt_data result ttl user_id now with
    | Some (_, self) => Some (result, true, self)
    | None => None
    end in
  if negb (Py.truthy bypass_cache) then
    let '(cached, self) := get self endpoint prompt_data user_id t_expiry t_access in
    match cached with
    | Some v => if negb (Py.is_none v) then Some (v, false, self) else call_and_store self
    | None => call_and_store self
    end
  else Some (result, true, self).

End Methods.
End AICache.

(** ** [models/user.py] and [models/ai_usage.py] *)

(** [class UserRole(str, Enum)] and its [.value] *)
Inductive UserRole : Type := FACULTY | CHAIR | DEAN | ADMIN | PROC.

Definition UserRole_value (r : UserRole) : string :=
  match r with
  | FACULTY => "faculty"
  | CHAIR => "chair"
  | DEAN => "dean"
  | ADMIN => "admin"
  | PROC => "proc"
  end.

(** [class AIEndpoint(str, Enum)] *)
Inductive AIEndpoint : Type :=
  ANALYZE | EXPAND | EQUITY_CHECK | CHAT | CHAT_STREAM | SOCRATIC.

(** A row of [users]: the columns the rate limiter reads.  A [UUID] is
    its canonical text. *)
Module User.
Record t : Type := mk {
  id : string;
  role : UserRole
}.
End User.

(** A row of [ai_usage]: the columns the rate limiter reads and writes
    conditions on.  The token, cost and latency columns are carried by no
    query of the limiter and are left out. *)
Module AIUsage.
Record t : Type := mk {
  user_id : string;
  endpoint : AIEndpoint;
  request_timestamp : Z;
  success : bool
}.
End AIUsage.

(** A row of [rate_limit_config] *)
Module RateLimitConfig.
Record t : Type := mk {
  target_type : string;
  target_value : string;
  requests_per_minute : Z;
  requests_per_hour : Z;
  requests_per_day : Z;
  is_active : bool
}.
End RateLimitConfig.

(** The database behind a [Session]: the two tables, rows in the order
    the database returns them. *)
Module Session.
Record t : Type := mk {
  ai_usage : list AIUsage.t;
  rate_limit_config : list RateLimitConfig.t
}.
End Session.

(** The [.value] of an [AIEndpoint] *)
Definition AIEndpoint_value (e : AIEndpoint) : string :=
  match e with
  | ANALYZE => "analyze"
  | EXPAND => "expand"
  | EQUITY_CHECK => "equity_check"
  | CHAT => "chat"
  | CHAT_STREAM => "chat_stream"
  | SOCRATIC => "socratic"
  end.

(** A row of [ai_usage] with the columns the usage report reads. *)
Module AIUsageRow.
Record t : Type := mk {
  user_id : string;
  endpoint : AIEndpoint;
  request_timestamp : Z;
  success : bool;
  total_tokens : option Z;
  response_time_ms : option Z;
  estimated_cost_microdollars : option Z
}.
End AIUsageRow.

(** [DEFAULT_RATE_LIMITS] *)
Definition DEFAULT_RATE_LIMITS : list (string * list (string * Z)) :=
  [ ("Faculty", [ ("requests_per_minute", 5); ("requests_per_hour", 50);
                  ("requests_per_day", 200) ]);
    ("Chair",   [ ("requests_per_minute", 10); ("requests_per_hour", 100);
                  ("requests_per_day", 500) ]);
    ("Dean",    [ ("requests_per_minute", 15); ("requests_per_hour", 150);
                  ("requests_per_day", 750) ]);
    ("Admin",   [ ("requests_per_minute", 30); ("requests_per_hour", 300);
                  ("requests_per_day", 1500) ]);
    ("PROC",    [ ("requests_per_minute", 10); ("requests_per_hour", 100);
                  ("requests_per_day", 500) ]) ].

(** ** [services/rate_limiter.py] *)

(** [timedelta(minutes=1)], [timedelta(hours=1)], [timedelta(days=1)], in
    microseconds *)
Definition timedelta_minutes (n : Z) : Z := n * 60 * 1000000.
Definition timedelta_hours (n : Z) : Z := n * 3600 * 1000000.
Definition timedelta_days (n : Z) : Z := n * 86400 * 1000000.

(** [class RateLimitExceeded(Exception)] *)
Module RateLimitExceeded.
Record t : Type := mk {
  message : string;
  limit_type : string;
  current_count : Z;
  limit : Z;
  reset_time : Z
}.
End RateLimitExceeded.

Module RateLimiterService.

(** What [check_rate_limit] does: it returns the pair [(True, None)] or
    raises [RateLimitExceeded]. *)
Inductive check_result : Type :=
| CheckReturns (is_allowed : bool) (error_message : option string)
| CheckRaises (e : RateLimitExceeded.t).

(** [select(RateLimitConfig).where(target_type == ty)
      .where(target_value == v).where(is_active == True)] then [.first()] *)
Definition selects (ty v : string) (c : RateLimitConfig.t) : bool :=
  String.eqb (RateLimitConfig.target_type c) ty
  && String.eqb (RateLimitConfig.target_value c) v
  && Bool.eqb (RateLimitConfig.is_active c) true.

Definition first_active_config (session : Session.t) (ty v : string)
    : option RateLimitConfig.t :=
  find (selects ty v) (Session.rate_limit_config session).

(** The [dict] built from a row of [rate_limit_config] *)
Definition limits_of_config (c : RateLimitConfig.t) : list (string * Z) :=
  [ ("requests_per_minute", RateLimitConfig.requests_per_minute c);
    ("requests_per_hour", RateLimitConfig.requests_per_hour c);
    ("requests_per_day", RateLimitConfig.requests_per_day c) ].

(** [_get_rate_limits] *)
Definition _get_rate_limits (session : Session.t) (user : User.t) : list (string * Z) :=
  match first_active_config session "user" (User.id user) with
  | Some user_config => limits_of_config user_config
  | None =>
      match first_active_config session "role" (UserRole_value (User.role user)) with
      | Some role_config => limits_of_config role_config
      | None =>
          Py.dict_get DEFAULT_RATE_LIMITS (UserRole_value (User.role user))
            [ ("requests_per_minute", 10); ("requests_per_hour", 100);
              ("requests_per_day", 500) ]
      end
  end.

(** [_count_requests]:
    [select(func.count(AIUsage.id)).where(AIUsage.user_id == user_id)
      .where(AIUsage.request_timestamp >= since)].
    The argument [endpoint] ([None] in [get_user_remaining_quota]) takes
    no part in the query. *)
Definition counted (user_id : string) (since : Z) (u : AIUsage.t) : bool :=
  String.eqb (AIUsage.user_id u) user_id && (since <=? AIUsage.request_timestamp u).

Definition _count_requests (session : Session.t) (user_id : string)
    (endpoint : option AIEndpoint) (since : Z) : Z :=
  Z.of_nat (List.length (filter (counted user_id since) (Session.ai_usage session))).

(** The list the loop of [check_rate_limit] walks: the name of the
    window, its duration and the key of its limit. *)
Definition windows : list (string * (Z * string)) :=
  [ ("minute", (timedelta_minutes 1, "requests_per_minute"));
    ("hour", (timedelta_hours 1, "requests_per_hour"));
    ("day", (timedelta_days 1, "requests_per_day")) ].

(** The loop of [check_rate_limit] over the windows that are left.
    [queried] lists the windows whose count has been asked of the
    database so far. *)
Fixpoint check_windows (session : Session.t) (user : User.t) (endpoint : AIEndpoint)
    (now : Z) (limits : list (string * Z)) (ws : list (string * (Z * string)))
    (queried : list string) : list string * check_result :=
  match ws with
  | [] => (queried, CheckReturns true None)
  | (window_name, (duration, limit_key)) :: ws' =>
      let limit := Py.dict_get limits limit_key 100 in
      let window_start := now - duration in
      let count := _count_requests session (User.id user) (Some endpoint) window_start in
      let queried := queried ++ [window_name] in
      if limit <=? count then
        let reset_time := window_start + duration in
        (queried,
         CheckRaises
           (RateLimitExceeded.mk
              ("Rate limit exceeded: " ++ Py.str_of_int count ++ "/" ++ Py.str_of_int limit
                 ++ " requests per " ++ window_name)%string
              window_name count limit reset_time))
      else check_windows session user endpoint now limits ws' queried
  end.

(** [check_rate_limit], at the reading [now] of [datetime.utcnow()],
    together with the windows it has queried. *)
Definition check_rate_limit_traced (session : Session.t) (user : User.t)
    (endpoint : AIEndpoint) (now : Z) : list string * check_result :=
  let limits := _get_rate_limits session user in
  check_windows session user endpoint now limits windows [].

Definition check_rate_limit (session : Session.t) (user : User.t)
    (endpoint : AIEndpoint) (now : Z) : check_result :=
  snd (check_rate_limit_traced session user endpoint now).

(** [record_usage]: one row is added, stamped with the reading [now] of
    [datetime.utcnow()] that its default factory makes. *)
Definition record_usage (session : Session.t) (user : User.t) (endpoint : AIEndpoint)
    (success : bool) (now : Z) : Session.t :=
  let usage := AIUsage.mk (User.id user) endpoint now success in
  Session.mk (Session.ai_usage session ++ [usage]) (Session.rate_limit_config session).

(** A request as the routes of [routers/ai.py] serve it: the check, and
    when it passes the upstream call followed by [record_usage].
    [t_check] and [t_record] are the two clock readings. *)
Definition request (session : Session.t) (user : User.t) (endpoint : AIEndpoint)
    (success : bool) (t_check t_record : Z) : check_result * Session.t :=
  match check_rate_limit session user endpoint t_check with
  | CheckRaises e => (CheckRaises e, session)
  | r => (r, record_usage session user endpoint success t_record)
  end.

(** A user sends requests one after the other; the results of the checks,
    in order, and the database at the end. *)
Fixpoint requests (session : Session.t) (user : User.t) (endpoint : AIEndpoint)
    (times : list (Z * Z)) : list check_result * Session.t :=
  match times with
  | [] => ([], session)
  | (t_check, t_record) :: times' =>
      let '(r, session) := request session user endpoint true t_check t_record in
      let '(rs, session) := requests session user endpoint times' in
      (r :: rs, session)
  end.

(** *** [get_user_remaining_quota] *)

(** The [dict] reported for one window.  [resets_at] is the [datetime]
    whose [isoformat()] is reported. *)
Module WindowQuota.
Record t : Type := mk {
  used : Z;
  limit : Z;
  remaining : Z;
  resets_at : Z
}.
End WindowQuota.

Module Quota.
Record t : Type := mk {
  minute : WindowQuota.t;
  hour : WindowQuota.t;
  day : WindowQuota.t
}.
End Quota.

(** [get_user_remaining_quota], at the reading [now] of
    [datetime.utcnow()].  The limits are read with [limits[...]], which
    raises on a key that is missing. *)
Definition get_user_remaining_quota (session : Session.t) (user : User.t) (now : Z)
    : outcome Quota.t :=
  let limits := _get_rate_limits session user in
  let minute_count := _count_requests session (User.id user) None (now - timedelta_minutes 1) in
  let hour_count := _count_requests session (User.id user) None (now - timedelta_hours 1) in
  let day_count := _count_requests session (User.id user) None (now - timedelta_days 1) in
  match dict_getitem limits "requests_per_minute" with
  | Raises e => Raises e
  | Returns limit_minute =>
      match dict_getitem limits "requests_per_hour" with
      | Raises e => Raises e
      | Returns limit_hour =>
          match dict_getitem limits "requests_per_day" with
          | Raises e => Raises e
          | Returns limit_day =>
              Returns
                (Quota.mk
                   (WindowQuota.mk minute_count limit_minute
                      (Z.max 0 (limit_minute - minute_count)) (now + timedelta_minutes 1))
                   (WindowQuota.mk hour_count limit_hour
                      (Z.max 0 (limit_hour - hour_count)) (now + timedelta_hours 1))
                   (WindowQuota.mk day_count limit_day
                      (Z.max 0 (limit_day - day_count)) (now + timedelta_days 1)))
          end
      end
  end.

(** *** [get_usage_stats] *)

(** An entry of [by_endpoint] *)
Module EndpointStats.
Record t : Type := mk {
  count : Z;
  tokens : Z;
  cost_microdollars : Z
}.
End EndpointStats.

(** The integers of the report.  Its three floats are quotients of
    them and are left out: [success_rate] is
    [successful_requests / total_requests], [total_cost_dollars] is
    [total_cost_microdollars / 1_000_000] and [avg_response_time_ms] is
    [response_time_sum / total_requests], each taken as 0 when there is
    no request. *)
Module UsageStats.
Record t : Type := mk {
  total_requests : Z;
  successful_requests : Z;
  failed_requests : Z;
  total_tokens : Z;
  total_cost_microdollars : Z;
  response_time_sum : Z;
  by_endpoint : list (string * EndpointStats.t)
}.
End UsageStats.

(** The rows the query of [get_usage_stats] selects.  A [UUID] and a
    [datetime] are true values, so that a filter applies exactly when its
    argument is not [None]. *)
Definition usage_selected (user_id : option string) (start_date end_date : option Z)
    (u : AIUsageRow.t) : bool :=
  match user_id with
  | Some uid => String.eqb (AIUsageRow.user_id u) uid
  | None => true
  end
  && match start_date with
     | Some d => d <=? AIUsageRow.request_timestamp u
     | None => true
     end
  && match end_date with
     | Some d => AIUsageRow.request_timestamp u <=? d
     | None => true
     end.

(** [sum(f(u) for u in usages)] *)
Definition sum_of {A : Type} (f : A -> Z) (l : list A) : Z :=
  fold_left (fun acc u => acc + f u) l 0.

(** One round of the loop that groups by endpoint *)
Definition group_usage (by_endpoint : list (string * EndpointStats.t)) (usage : AIUsageRow.t)
    : list (string * EndpointStats.t) :=
  let endpoint := AIEndpoint_value (AIUsageRow.endpoint usage) in
  let by_endpoint :=
    if negb (OrderedDict.contains endpoint by_endpoint)
    then OrderedDict.setitem endpoint (EndpointStats.mk 0 0 0) by_endpoint
    else by_endpoint in
  match OrderedDict.getitem endpoint by_endpoint with
  | Some st =>
      OrderedDict.replace endpoint
        (EndpointStats.mk (EndpointStats.count st + 1)
           (EndpointStats.tokens st + Py.or_zero (AIUsageRow.total_tokens usage))
           (EndpointStats.cost_microdollars st
            + Py.or_zero (AIUsageRow.estimated_cost_microdollars usage)))
        by_endpoint
  | None => by_endpoint
  end.

(** [get_usage_stats] over the table [ai_usage] *)
Definition get_usage_stats (ai_usage : list AIUsageRow.t) (user_id : option string)
    (start_date end_date : option Z) : UsageStats.t :=
  let usages := filter (usage_selected user_id start_date end_date) ai_usage in
  let total_requests := Z.of_nat (List.length usages) in
  let successful_requests := sum_of (fun u => if AIUsageRow.success u then 1 else 0) usages in
  let total_tokens := sum_of (fun u => Py.or_zero (AIUsageRow.total_tokens u)) usages in
  let total_cost := sum_of (fun u => Py.or_zero (AIUsageRow.estimated_cost_microdollars u)) usages in
  let response_time := sum_of (fun u => Py.or_zero (AIUsageRow.response_time_ms u)) usages in
  let by_endpoint := fold_left group_usage usages [] in
  UsageStats.mk total_requests successful_requests (total_requests - successful_requests)
    total_tokens total_cost response_time by_endpoint.

End RateLimiterService.

(** ** [routers/ai.py]: the routes over the cache and the usage report *)

Module AiRouter.

Definition UserRole_eqb (a b : UserRole) : bool :=
  match a, b with
  | FACULTY, FACULTY | CHAIR, CHAIR | DEAN, DEAN | ADMIN, ADMIN | PROC, PROC => true
  | _, _ => false
  end.

(** [timedelta(days=30)] *)
Definition thirty_days : Z := timedelta_days 30.

(** The route [get_usage_stats]: who is not an administrator is given the
    report of their own rows; a date that is missing is replaced by a
    reading of the clock ([now_start], [now_end]). *)
Definition get_usage_stats (ai_usage : list AIUsageRow.t) (current_user : User.t)
    (user_id : option string) (start_date end_date : option Z) (now_start now_end : Z)
    : RateLimiterService.UsageStats.t :=
  let user_id :=
    if negb (UserRole_eqb (User.role current_user) ADMIN)
    then Some (User.id current_user) else user_id in
  let start_date :=
    match start_date with Some d => d | None => now_start - thirty_days end in
  let end_date :=
    match end_date with Some d => d | None => now_end end in
  RateLimiterService.get_usage_stats ai_usage user_id (Some start_date) (Some end_date).

(** The route [clear_cache]: [if endpoint:] is false for [None] and for
    the empty string. *)
Definition clear_cache (cache : AICache.t) (endpoint : option string)
    : outcome Z * AICache.t :=
  match endpoint with
  | Some e =>
      if negb (String.eqb e "") then AICache.invalidate_by_endpoint cache e
      else let '(n, cache) := AICache.clear cache in (Returns n, cache)
  | None => let '(n, cache) := AICache.clear cache in (Returns n, cache)
  end.

End AiRouter.

(** ** Vocabulary of the properties *)

Module Spec.
Import RateLimiterService.

Definition AIEndpoint_eqb (a b : AIEndpoint) : bool :=
  match a, b with
  | ANALYZE, ANALYZE | EXPAND, EXPAND | EQUITY_CHECK, EQUITY_CHECK
  | CHAT, CHAT | CHAT_STREAM, CHAT_STREAM | SOCRATIC, SOCRATIC => true
  | _, _ => false
  end.

Definition all_endpoints : list AIEndpoint :=
  [ANALYZE; EXPAND; EQUITY_CHECK; CHAT; CHAT_STREAM; SOCRATIC].

(** The count of a caller scoped to one endpoint and one window, in the
    words of the specification: the events of that caller and that
    endpoint whose timestamps lie between the start of the window and
    now. *)
Definition count_caller_endpoint_window (session : Session.t) (user_id : string)
    (endpoint : AIEndpoint) (window_start now : Z) : Z :=
  Z.of_nat
    (List.length
       (filter (fun u => String.eqb (AIUsage.user_id u) user_id
                         && AIEndpoint_eqb (AIUsage.endpoint u) endpoint
                         && (window_start <=? AIUsage.request_timestamp u)
                         && (AIUsage.request_timestamp u <=? now))
               (Session.ai_usage session))).

(** The count of a caller scoped to one endpoint, from the start of a
    window on: the events of that caller and that endpoint whose
    timestamps are at or after the start of the window. *)
Definition count_caller_endpoint_since (session : Session.t) (user_id : string)
    (endpoint : AIEndpoint) (window_start : Z) : Z :=
  Z.of_nat
    (List.length
       (filter (fun u => String.eqb (AIUsage.user_id u) user_id
                         && AIEndpoint_eqb (AIUsage.endpoint u) endpoint
                         && (window_start <=? AIUsage.request_timestamp u))
               (Session.ai_usage session))).

(** The count of a caller on any endpoint: the counts of the caller on
    each endpoint, added up. *)
Definition count_caller_since (session : Session.t) (user_id : string)
    (window_start : Z) : Z :=
  fold_right Z.add 0
    (map (fun e => count_caller_endpoint_since session user_id e window_start)
         all_endpoints).
Definition count_caller_window (session : Session.t) (user_id : string)
    (window_start now : Z) : Z :=
  fold_right Z.add 0
    (map (fun e => count_caller_endpoint_window session user_id e window_start now)
         all_endpoints).

(** The three thresholds of a resolved policy *)
Definition per_minute (limits : list (string * Z)) : Z :=
  Py.dict_get limits "requests_per_minute" 100.
Definition per_hour (limits : list (string * Z)) : Z :=
  Py.dict_get limits "requests_per_hour" 100.
Definition per_day (limits : list (string * Z)) : Z :=
  Py.dict_get limits "requests_per_day" 100.

(** The fallback written in [_get_rate_limits] *)
Definition fallback_limits : list (string * Z) :=
  [ ("requests_per_minute", 10); ("requests_per_hour", 100);
    ("requests_per_day", 500) ].

(** [a] is at most [b] on each of the three thresholds. *)
Definition limits_le (a b : list (string * Z)) : Prop :=
  per_minute a <= per_minute b /\ per_hour a <= per_hour b /\ per_day a <= per_day b.

(** The timestamp of the oldest event a window counts, if it counts
    any. *)
Definition oldest_counted (session : Session.t) (user_id : string) (since : Z)
    : option Z :=
  match filter (counted user_id since) (Session.ai_usage session) with
  | [] => None
  | u :: us =>
      Some (fold_left Z.min (map AIUsage.request_timestamp us)
                      (AIUsage.request_timestamp u))
  end.

(** The exception a window raises *)
Definition exceeded (window_name : string) (count limit reset_time : Z) : check_result :=
  CheckRaises
    (RateLimitExceeded.mk
       ("Rate limit exceeded: " ++ Py.str_of_int count ++ "/" ++ Py.str_of_int limit
          ++ " requests per " ++ window_name)%string
       window_name count limit reset_time).

(** The duration of the window of a given name *)
Definition window_duration (window_name : string) : Z :=
  fst (Py.dict_get windows window_name (0, "")).

(** An active override keyed to a target: a row of [rate_limit_config]
    that is active, of the given target type and of the given target
    value. *)
Definition keyed_to (target_type target_value : string) (c : RateLimitConfig.t) : Prop :=
  RateLimitConfig.is_active c = true
  /\ RateLimitConfig.target_type c = target_type
  /\ RateLimitConfig.target_value c = target_value.

(** The active overrides of a caller in [rate_limit_config]: the rows
    keyed to the identity of the caller, and the rows keyed to the role of
    the caller. *)
Definition user_override (user : User.t) (c : RateLimitConfig.t) : Prop :=
  keyed_to "user" (User.id user) c.
Definition role_override (user : User.t) (c : RateLimitConfig.t) : Prop :=
  keyed_to "role" (UserRole_value (User.role user)) c.

(** The entry the table of defaults holds for a role, under the name the
    table gives the role: "Faculty", "Chair", "Dean", "Admin", "PROC". *)
Definition role_name (r : UserRole) : string :=
  match r with
  | FACULTY => "Faculty"
  | CHAIR => "Chair"
  | DEAN => "Dean"
  | ADMIN => "Admin"
  | PROC => "PROC"
  end.
Definition default_of_role (r : UserRole) : option (list (string * Z)) :=
  Py.dict_lookup (role_name r) DEFAULT_RATE_LIMITS.

(** [c] is the first row of [rows] that satisfies [P]. *)
Definition first_row (P : RateLimitConfig.t -> Prop) (rows : list RateLimitConfig.t)
    (c : RateLimitConfig.t) : Prop :=
  exists before after,
    rows = before ++ c :: after /\ P c /\ (forall c', In c' before -> ~ P c').

(** *** The cache *)

(** The entry [set] builds *)
Definition new_entry (endpoint : string) (value : Py.value) (ttl : option Z) (now : Z)
    : CacheEntry.t :=
  CacheEntry.mk value now (now + AICache.ttl_or_default endpoint ttl) 0 now.

(** The entry after a hit at the reading [t_access] *)
Definition touched (t_access : Z) (entry : CacheEntry.t) : CacheEntry.t :=
  CacheEntry.mk (CacheEntry.value entry) (CacheEntry.created_at entry)
    (CacheEntry.expires_at entry) (CacheEntry.hit_count entry + 1) t_access.

(** Two entries hold the same response with the same expiry. *)
Definition same_content (a b : CacheEntry.t) : Prop :=
  CacheEntry.value a = CacheEntry.value b
  /\ CacheEntry.created_at a = CacheEntry.created_at b
  /\ CacheEntry.expires_at a = CacheEntry.expires_at b.

(** The binding of a key after some calls, from its binding before: it
    is unbound, or it was bound and is bound to an entry with the same
    response and expiry. *)
Definition kept (before after : option CacheEntry.t) : Prop :=
  match before, after with
  | _, None => True
  | Some a, Some b => same_content a b
  | None, Some _ => False
  end.

(** The call is a [set] under the key [k]. *)
Definition op_stores {lib : PyLib} (k : string) (o : AICache.op) : bool :=
  match o with
  | AICache.OpSet e p _ _ u _ => String.eqb (AICache._generate_key e p u) k
  | _ => false
  end.

(** The representation of the cache is sound: the keys are distinct,
    there are at most [max_size] entries, and [current_size] is their
    number. *)
Definition wf (c : AICache.t) : Prop :=
  NoDup (OrderedDict.keys (AICache._cache c))
  /\ OrderedDict.len (AICache._cache c) <= AICache.max_size c
  /\ CacheStats.current_size (AICache._stats c) = OrderedDict.len (AICache._cache c).

(** [a] was last accessed no later than [b]. *)
Definition lru_le (a b : string * CacheEntry.t) : Prop :=
  CacheEntry.last_accessed (snd a) <= CacheEntry.last_accessed (snd b).

(** The order of the cache is the order of last access, and no access is
    later than [t]. *)
Definition lru_dict (t : Z) (d : OrderedDict.t CacheEntry.t) : Prop :=
  StronglySorted lru_le d
  /\ Forall (fun kv => CacheEntry.last_accessed (snd kv) <= t) d.

Definition lru_ordered (t : Z) (c : AICache.t) : Prop := lru_dict t (AICache._cache c).

End Spec.

(** ** Concrete inputs *)

Module Inputs.

(** One second, in the unit of [datetime] *)
Definition second : Z := 1000000.

(** A database without rows *)
Definition empty_session : Session.t := Session.mk [] [].

(** A user of role [UserRole.FACULTY] *)
Definition faculty_user : User.t := User.mk "7d9f3c1e-0000-4000-8000-000000000001" FACULTY.

(** A user of role [UserRole.CHAIR] *)
Definition chair_user : User.t := User.mk "7d9f3c1e-0000-4000-8000-000000000002" CHAIR.

(** Clock readings of [n] requests, one second apart, from second 1:
    the check at the full second, the record 100 ms later. *)
Definition every_second (n : nat) : list (Z * Z) :=
  map (fun i => (Z.of_nat i * second, Z.of_nat i * second + 100000)) (seq 1 n).

(** The events of [n] requests of [user] on [endpoint], one second apart
    from second 0 *)
Definition usage_every_second (user : User.t) (endpoint : AIEndpoint) (n : nat)
    : list AIUsage.t :=
  map (fun i => AIUsage.mk (User.id user) endpoint (Z.of_nat i * second) true) (seq 0 n).

(** A caller-specific override of 1000 per day for [faculty_user], behind
    an override of 500 per day for the role of that user. *)
Definition role_row : RateLimitConfig.t :=
  RateLimitConfig.mk "role" "faculty" 20 200 500 true.
Definition user_row : RateLimitConfig.t :=
  RateLimitConfig.mk "user" "7d9f3c1e-0000-4000-8000-000000000001" 20 200 1000 true.
Definition overrides_session : Session.t := Session.mk [] [role_row; user_row].

(** The override of the role alone *)
Definition role_only_session : Session.t := Session.mk [] [role_row].

(** One event of [faculty_user] on the chat endpoint, at second 10 *)
Definition chat_event_session : Session.t :=
  Session.mk [AIUsage.mk (User.id faculty_user) CHAT (10 * second) true] [].

(** One event of [faculty_user] on the analyze endpoint, stamped at second
    90 *)
Definition late_event_session : Session.t :=
  Session.mk [AIUsage.mk (User.id faculty_user) ANALYZE (90 * second) true] [].

(** Ten events of [chair_user] on the analyze endpoint, at seconds 0 to 9 *)
Definition ten_events_session : Session.t :=
  Session.mk (usage_every_second chair_user ANALYZE 10) [].

(** A stand-in for the two library functions, to run the cache on
    concrete requests: the digest is the text itself (so that distinct
    texts have distinct keys), and a string is put between apostrophes,
    without escapes. *)
Definition plain_lib : PyLib :=
  {| sha256_hexdigest := fun s => s;
     encode_basestring_ascii := fun s => ("'" ++ s ++ "'")%string |}.

(** Three requests of the analyze endpoint and their responses *)
Definition payload_A : Py.value := Py.VDict [("year", Py.VInt 2023); ("dept", Py.VStr "MATH")].
Definition payload_B : Py.value := Py.VDict [("year", Py.VInt 2024); ("dept", Py.VStr "MATH")].
Definition payload_C : Py.value := Py.VDict [("year", Py.VInt 2024); ("dept", Py.VStr "CHEM")].
Definition response (n : Z) : Py.value :=
  Py.VDict [("insights", Py.VList [Py.VInt n]); ("trends", Py.VList [])].

(** A payload with a nested [dict], and the same payload with the
    members of both [dict]s in another order *)
Definition payload_nested : Py.value :=
  Py.VDict [ ("program", Py.VStr "MATH");
             ("filters", Py.VDict [("year", Py.VInt 2024); ("term", Py.VStr "fall")]);
             ("focus", Py.VList [Py.VStr "equity"; Py.VStr "success"]) ].
Definition payload_nested_reordered : Py.value :=
  Py.VDict [ ("focus", Py.VList [Py.VStr "equity"; Py.VStr "success"]);
             ("filters", Py.VDict [("term", Py.VStr "fall"); ("year", Py.VInt 2024)]);
             ("program", Py.VStr "MATH") ].

(** The calls insert A, insert B, read A, insert C, at seconds 1 to 4 *)
Definition scenario_ops : list AICache.op :=
  [ AICache.OpSet "analyze" payload_A (response 1) None None 1;
    AICache.OpSet "analyze" payload_B (response 2) None None 2;
    AICache.OpGet "analyze" payload_A None 3 3;
    AICache.OpSet "analyze" payload_C (response 3) None None 4 ].

(** A cache of capacity one that is full: it holds the response to
    request A, stored at second 1. *)
Definition full_cache : AICache.t :=
  AICache.mk 1
    [ (AICache._generate_key (lib := plain_lib) "analyze" payload_A None,
       Spec.new_entry "analyze" (response 1) None 1) ]
    (CacheStats.mk 0 0 0 1 1).

End Inputs.

(** ** Further vocabulary *)

Module More.
Import RateLimiterService.

(** *** The cache *)

(** The entry is past its expiry at the reading [now], as
    [cleanup_expired] tests it. *)
Definition expired_at (now : Z) (kv : string * CacheEntry.t) : bool :=
  CacheEntry.expires_at (snd kv) <? now.

(** The value carries the tag [invalidate_by_endpoint] looks for. *)
Definition tagged (endpoint : string) (kv : string * CacheEntry.t) : bool :=
  match CacheEntry.value (snd kv) with
  | Py.VDict items =>
      match Py.dict_get items "_endpoint" Py.VNone with
      | Py.VStr s => String.eqb s endpoint
      | _ => false
      end
  | _ => false
  end.

Definition is_dict (v : Py.value) : bool :=
  match v with
  | Py.VDict _ => true
  | _ => false
  end.

Definition is_get (o : AICache.op) : bool :=
  match o with
  | AICache.OpGet _ _ _ _ _ => true
  | _ => false
  end.

Definition is_set (o : AICache.op) : bool :=
  match o with
  | AICache.OpSet _ _ _ _ _ _ => true
  | _ => false
  end.

Definition is_reset_stats (o : AICache.op) : bool :=
  match o with
  | AICache.OpResetStats => true
  | _ => false
  end.

(** The number of calls of a kind in a run *)
Definition count_ops (kind : AICache.op -> bool) (ops : list AICache.op) : Z :=
  Z.of_nat (List.length (filter kind ops)).

(** Two caches have the same capacity and the same entries; they may
    differ in their statistics. *)
Definition same_entries (c1 c2 : AICache.t) : Prop :=
  AICache.max_size c1 = AICache.max_size c2 /\ AICache._cache c1 = AICache._cache c2.

Definition same_entries_opt (r1 r2 : option AICache.t) : Prop :=
  match r1, r2 with
  | Some c1, Some c2 => same_entries c1 c2
  | None, None => True
  | _, _ => False
  end.

(** The key a call of the wrapper of [cached_ai_response] looks up and
    stores under *)
Definition wrapper_key {lib : PyLib} (endpoint : string) (include_user : bool)
    (args : list Py.value) (kw : AICache.kwargs) : string :=
  AICache._generate_key endpoint (AICache.wrapper_prompt_data args kw)
    (AICache.cached_ai_response_user_id include_user (AICache.kw_user_id kw)).

(** *** The rate limiter *)

(** The clock readings of a sequence of requests do not go back:
    each check is at or after the record before it, each record at or
    after its check. *)
Fixpoint times_ok (t : Z) (times : list (Z * Z)) : bool :=
  match times with
  | [] => true
  | (t_check, t_record) :: times' =>
      (t <=? t_check) && (t_check <=? t_record) && times_ok t_record times'
  end.

(** The last reading of the sequence, [t] if there is none *)
Definition last_time (t : Z) (times : list (Z * Z)) : Z :=
  fold_left (fun _ p => snd p) times t.

(** The count of the caller over the window of length [d] that ends at
    [t] *)
Definition window_count (session : Session.t) (user : User.t) (t d : Z) : Z :=
  _count_requests session (User.id user) None (t - d).

(** At the time [t] no event of the caller is stamped later than [t],
    and the count of each of the three windows is at most its
    threshold. *)
Definition within_limits (session : Session.t) (user : User.t) (t : Z) : Prop :=
  (forall u, In u (Session.ai_usage session) ->
             AIUsage.user_id u = User.id user -> AIUsage.request_timestamp u <= t)
  /\ window_count session user t (timedelta_minutes 1)
     <= Spec.per_minute (_get_rate_limits session user)
  /\ window_count session user t (timedelta_hours 1)
     <= Spec.per_hour (_get_rate_limits session user)
  /\ window_count session user t (timedelta_days 1)
     <= Spec.per_day (_get_rate_limits session user).

(** The row of [rate_limit_config] is an active override of the caller *)
Definition applies_to (user : User.t) (c : RateLimitConfig.t) : bool :=
  selects "user" (User.id user) c || selects "role" (UserRole_value (User.role user)) c.

(** *** The usage report *)

(** The sums over the entries of [by_endpoint] *)

Definition sum_by (f : EndpointStats.t -> Z) (d : list (string * EndpointStats.t)) : Z :=
  fold_right (fun kv acc => f (snd kv) + acc) 0 d.
Definition sum_counts : list (string * EndpointStats.t) -> Z := sum_by EndpointStats.count.
Definition sum_tokens : list (string * EndpointStats.t) -> Z := sum_by EndpointStats.tokens.
Definition sum_costs : list (string * EndpointStats.t) -> Z :=
  sum_by EndpointStats.cost_microdollars.

(** The rows of a user *)
Definition own_rows (user : User.t) (ai_usage : list AIUsageRow.t) : list AIUsageRow.t :=
  filter (fun u => String.eqb (AIUsageRow.user_id u) (User.id user)) ai_usage.

End More.

(** ** Further concrete inputs *)

Module MoreInputs.
Import Inputs.

Definition key_A : string := AICache._generate_key (lib := plain_lib) "analyze" payload_A None.
Definition key_B : string := AICache._generate_key (lib := plain_lib) "analyze" payload_B None.
Definition key_C : string := AICache._generate_key (lib := plain_lib) "chat" payload_C None.

(** A response that carries the tag of an endpoint *)
Definition tagged_response (endpoint : string) (n : Z) : Py.value :=
  Py.VDict [("_endpoint", Py.VStr endpoint); ("insights", Py.VList [Py.VInt n])].

(** A cache of capacity five with three entries: A expires at 50, B at
    200 and C at 100; B and C carry the tag of their endpoint. *)
Definition mixed_cache : AICache.t :=
  AICache.mk 5
    [ (key_A, CacheEntry.mk (response 1) 10 50 2 30);
      (key_B, CacheEntry.mk (tagged_response "analyze" 2) 20 200 0 20);
      (key_C, CacheEntry.mk (tagged_response "chat" 3) 40 100 1 45) ]
    (CacheStats.mk 3 2 1 3 5).

(** The same with a response that is a string *)
Definition text_cache : AICache.t :=
  AICache.mk 5
    [ (key_A, CacheEntry.mk (Py.VStr "hello") 10 50 0 10);
      (key_B, CacheEntry.mk (tagged_response "analyze" 2) 20 200 0 20) ]
    (CacheStats.mk 0 0 0 2 5).

(** Keyword arguments of two calls that differ in their data *)
Definition kwargs_A : AICache.kwargs :=
  AICache.mk_kwargs payload_A Py.VNone (Some "u-17") (Py.VBool false).
Definition kwargs_B : AICache.kwargs :=
  AICache.mk_kwargs payload_B Py.VNone (Some "u-17") (Py.VBool false).
Definition kwargs_bypass : AICache.kwargs :=
  AICache.mk_kwargs payload_A Py.VNone None (Py.VBool true).

(** A table of overrides with a row that is not active *)
Definition inactive_row : RateLimitConfig.t :=
  RateLimitConfig.mk "user" "7d9f3c1e-0000-4000-8000-000000000001" 1 1 1 false.
Definition blocking_row : RateLimitConfig.t :=
  RateLimitConfig.mk "user" "7d9f3c1e-0000-4000-8000-000000000001" 0 50 200 true.
Definition blocked_session : Session.t := Session.mk [] [blocking_row].

(** A user of role [UserRole.ADMIN] *)
Definition admin_user : User.t := User.mk "7d9f3c1e-0000-4000-8000-000000000009" ADMIN.

(** Rows of the usage table: two of [faculty_user], one of [chair_user] *)
Definition usage_rows : list AIUsageRow.t :=
  [ AIUsageRow.mk (User.id faculty_user) CHAT (10 * second) true (Some 120) (Some 800) (Some 30);
    AIUsageRow.mk (User.id chair_user) ANALYZE (11 * second) true (Some 400) None (Some 90);
    AIUsageRow.mk (User.id faculty_user) ANALYZE (12 * second) false None (Some 50) None ].

End MoreInputs.

(** * The models on concrete inputs *)

Section Examples.
Import OrderedDict AICache RateLimiterService Spec Inputs.

Example dumps_atoms :
  Py.dumps (lib := plain_lib)
    (Py.VList [Py.VNone; Py.VBool true; Py.VInt (-3); Py.VFloat "0.5"; Py.VDict []; Py.VList []])
  = "[null, true, -3, 0.5, {}, []]".
Proof. reflexivity. Qed.

Example dumps_sorts_keys :
  Py.dumps (lib := plain_lib) payload_nested
  = "{'filters': {'term': 'fall', 'year': 2024}, 'focus': ['equity', 'success'], 'program': 'MATH'}".
Proof. vm_compute. reflexivity. Qed.

Example generate_key_without_user :
  _generate_key (lib := plain_lib) "analyze" payload_A None
  = "{'data': {'dept': 'MATH', 'year': 2023}, 'endpoint': 'analyze'}".
Proof. vm_compute. reflexivity. Qed.

Example generate_key_with_user :
  _generate_key (lib := plain_lib) "analyze" payload_A (Some "u-17")
  = "{'data': {'dept': 'MATH', 'year': 2023}, 'endpoint': 'analyze', 'user_id': 'u-17'}".
Proof. vm_compute. reflexivity. Qed.

Example ttl_defaults :
  ttl_or_default "chat" None = 300
  /\ ttl_or_default "analyze" None = 3600
  /\ ttl_or_default "summary" None = 1800
  /\ ttl_or_default "chat" (Some 0) = 0.
Proof. repeat split. Qed.

Example scenario_run :
  option_map (fun c => (keys (_cache c), _stats c))
    (run (lib := plain_lib) scenario_ops (init 2))
  = Some ([ "{'data': {'dept': 'MATH', 'year': 2023}, 'endpoint': 'analyze'}";
            "{'data': {'dept': 'CHEM', 'year': 2024}, 'endpoint': 'analyze'}" ],
          CacheStats.mk 1 0 1 2 2).
Proof. vm_compute. reflexivity. Qed.

Example set_without_capacity :
  set (lib := plain_lib) (init 0) "analyze" payload_A (response 1) None None 1 = None.
Proof. vm_compute. reflexivity. Qed.

Example tenth_event_raises :
  check_rate_limit_traced ten_events_session chair_user ANALYZE (30 * second)
  = (["minute"],
     CheckRaises
       (RateLimitExceeded.mk "Rate limit exceeded: 10/10 requests per minute"
          "minute" 10 10 (30 * second))).
Proof. vm_compute. reflexivity. Qed.

Example event_on_the_boundary_counts :
  _count_requests ten_events_session (User.id chair_user) (Some ANALYZE)
    (60 * second - timedelta_minutes 1) = 10.
Proof. vm_compute. reflexivity. Qed.

Example nine_events_pass :
  check_rate_limit_traced ten_events_session chair_user ANALYZE (61 * second)
  = (["minute"; "hour"; "day"], CheckReturns true None).
Proof. vm_compute. reflexivity. Qed.

Example role_values_miss_the_table :
  map (fun r => Py.dict_lookup (UserRole_value r) DEFAULT_RATE_LIMITS)
      [FACULTY; CHAIR; DEAN; ADMIN; PROC]
  = [None; None; None; None; None].
Proof. reflexivity. Qed.

End Examples.

(** * Facts about the ordered dictionary *)

Section OrderedDictFacts.
Import OrderedDict.
Context {V : Type}.
Implicit Types (d : OrderedDict.t V) (k : string) (v : V).

Lemma lookup_In d k v : Py.dict_lookup k d = Some v -> In (k, v) d.
Proof.
  induction d as [|[k' v'] d IH]; cbn; [discriminate |].
  destruct (String.eqb_spec k' k) as [-> | Hne].
  - intros [= ->]. left; reflexivity.
  - intros H. right. apply IH, H.
Qed.

Lemma lookup_None_keys d k : Py.dict_lookup k d = None <-> ~ In k (keys d).
Proof.
  induction d as [|[k' v'] d IH]; cbn.
  - split; [intros _ [] | reflexivity].
  - destruct (String.eqb_spec k' k) as [-> | Hne].
    + split; [discriminate | intros H; exfalso; apply H; left; reflexivity].
    + rewrite IH. split; [intros H [E | Hin]; [congruence | auto] | auto].
Qed.

Lemma contains_false_keys d k : contains k d = false <-> ~ In k (keys d).
Proof.
  unfold contains. rewrite <- lookup_None_keys.
  destruct (Py.dict_lookup k d); split; congruence.
Qed.

Lemma contains_true_keys d k : contains k d = true <-> In k (keys d).
Proof.
  destruct (contains k d) eqn:E.
  - split; [intros _ | reflexivity].
    unfold contains in E. destruct (Py.dict_lookup k d) eqn:L; [| discriminate].
    apply lookup_In in L. apply (in_map fst) in L. exact L.
  - apply contains_false_keys in E. split; [discriminate | intros H; destruct (E H)].
Qed.

Lemma lookup_app_new d k v :
  ~ In k (keys d) -> Py.dict_lookup k (d ++ [(k, v)]) = Some v.
Proof.
  induction d as [|[k' v'] d IH]; cbn; intros H.
  - rewrite String.eqb_refl. reflexivity.
  - destruct (String.eqb_spec k' k) as [-> | Hne]; [exfalso; auto | apply IH; auto].
Qed.

Lemma lookup_app_other d k k' v :
  k' <> k -> Py.dict_lookup k' (d ++ [(k, v)]) = Py.dict_lookup k' d.
Proof.
  intros Hne. induction d as [|[k0 v0] d IH]; cbn.
  - destruct (String.eqb_spec k k'); [congruence | reflexivity].
  - destruct (String.eqb k0 k'); [reflexivity | exact IH].
Qed.

Lemma In_delitem d k x : In x (delitem k d) -> In x d.
Proof.
  induction d as [|[k' v'] d IH]; cbn; [auto |].
  destruct (String.eqb k' k); [auto |].
  intros [<- | H]; [left; reflexivity | right; auto].
Qed.

Lemma In_delitem_other d k x : In x d -> fst x <> k -> In x (delitem k d).
Proof.
  induction d as [|[k' v'] d IH]; cbn; [auto |].
  intros [<- | H] Hne.
  - cbn in Hne. destruct (String.eqb_spec k' k); [congruence | left; reflexivity].
  - destruct (String.eqb k' k); [exact H | right; auto].
Qed.

Lemma keys_delitem_incl d k k' : In k' (keys (delitem k d)) -> In k' (keys d).
Proof.
  unfold keys. rewrite !in_map_iff. intros (x & E & H).
  exists x. split; [exact E | eapply In_delitem; eassumption].
Qed.

Lemma NoDup_delitem d k : NoDup (keys d) -> NoDup (keys (delitem k d)).
Proof.
  induction d as [|[k' v'] d IH]; cbn; [auto |].
  intros H. inversion H as [|? ? Hn Hd]; subst.
  destruct (String.eqb k' k); [exact Hd |].
  cbn. constructor; [| auto].
  intros Hin. apply Hn. eapply keys_delitem_incl; eassumption.
Qed.

Lemma delitem_removes d k : NoDup (keys d) -> ~ In k (keys (delitem k d)).
Proof.
  induction d as [|[k' v'] d IH]; cbn; [auto |].
  intros H. inversion H as [|? ? Hn Hd]; subst.
  destruct (String.eqb_spec k' k) as [-> | Hne]; [exact Hn |].
  cbn. intros [E | Hin]; [congruence | exact (IH Hd Hin)].
Qed.

Lemma lookup_delitem_other d k k' :
  k' <> k -> Py.dict_lookup k' (delitem k d) = Py.dict_lookup k' d.
Proof.
  intros Hne. induction d as [|[k0 v0] d IH]; cbn; [reflexivity |].
  destruct (String.eqb_spec k0 k) as [-> | Hk].
  - destruct (String.eqb_spec k k'); [congruence | reflexivity].
  - cbn. destruct (String.eqb k0 k'); [reflexivity | exact IH].
Qed.

Lemma lookup_delitem_same d k : NoDup (keys d) -> Py.dict_lookup k (delitem k d) = None.
Proof. intros H. apply lookup_None_keys, delitem_removes, H. Qed.

Lemma lookup_delitem_None d k k' :
  Py.dict_lookup k d = None -> Py.dict_lookup k (delitem k' d) = None.
Proof.
  rewrite !lookup_None_keys. intros H Hin. apply H. eapply keys_delitem_incl; eassumption.
Qed.

Lemma lookup_tl d k x :
  NoDup (keys d) -> Py.dict_lookup k d = Some x ->
  Py.dict_lookup k (tl d) = Some x \/ Py.dict_lookup k (tl d) = None.
Proof.
  destruct d as [|[k' v'] d]; cbn; [discriminate |].
  intros Hnd. inversion Hnd as [|? ? Hn _]; subst.
  destruct (String.eqb_spec k' k) as [-> | Hne]; [| auto].
  intros _. right. apply lookup_None_keys, Hn.
Qed.

Lemma lookup_tl_None d k : Py.dict_lookup k d = None -> Py.dict_lookup k (tl d) = None.
Proof.
  destruct d as [|[k' v'] d]; cbn; [auto |].
  destruct (String.eqb k' k); [discriminate | auto].
Qed.

Lemma length_delitem d k :
  contains k d = true -> S (List.length (delitem k d)) = List.length d.
Proof.
  unfold contains.
  induction d as [|[k' v'] d IH]; cbn; [discriminate |].
  destruct (String.eqb k' k); [reflexivity |].
  intros H. cbn. f_equal. apply IH, H.
Qed.

Lemma length_delitem_le d k : (List.length (delitem k d) <= List.length d)%nat.
Proof.
  induction d as [|[k' v'] d IH]; cbn; [lia |].
  destruct (String.eqb k' k); cbn; lia.
Qed.

Lemma delitem_absent d k : contains k d = false -> delitem k d = d.
Proof.
  unfold contains.
  induction d as [|[k' v'] d IH]; cbn; [reflexivity |].
  destruct (String.eqb k' k); [discriminate |].
  intros H. f_equal. apply IH, H.
Qed.

Lemma keys_replace d k v : keys (replace k v d) = keys d.
Proof.
  induction d as [|[k' v'] d IH]; cbn; [reflexivity |].
  destruct (String.eqb k' k); cbn; [reflexivity | f_equal; exact IH].
Qed.

Lemma lookup_replace d k v :
  contains k d = true -> Py.dict_lookup k (replace k v d) = Some v.
Proof.
  unfold contains.
  induction d as [|[k' v'] d IH]; cbn; [discriminate |].
  destruct (String.eqb k' k) eqn:E; cbn; rewrite E; [reflexivity | exact IH].
Qed.

Lemma delitem_replace d k v : delitem k (replace k v d) = delitem k d.
Proof.
  induction d as [|[k' v'] d IH]; cbn; [reflexivity |].
  destruct (String.eqb k' k) eqn:E; cbn; rewrite E; [reflexivity | f_equal; exact IH].
Qed.

(** Storing under a key that is present and moving it to the back. *)
Lemma move_to_end_replace d k v :
  contains k d = true ->
  move_to_end k (replace k v d) = delitem k d ++ [(k, v)].
Proof.
  intros H. unfold move_to_end, getitem.
  rewrite (lookup_replace _ _ _ H), delitem_replace. reflexivity.
Qed.

Lemma setitem_absent d k v : contains k d = false -> setitem k v d = d ++ [(k, v)].
Proof. intros H. unfold setitem. rewrite H. reflexivity. Qed.

Lemma NoDup_keys_app_new d k v :
  NoDup (keys d) -> ~ In k (keys d) -> NoDup (keys (d ++ [(k, v)])).
Proof.
  intros Hd Hk. unfold keys. rewrite map_app. cbn.
  apply NoDup_app; [exact Hd | repeat constructor; intros [] |].
  intros x Hx [<- | []]. exact (Hk Hx).
Qed.

Section Order.
Variable R : string * V -> string * V -> Prop.

Lemma StronglySorted_delitem d k :
  StronglySorted R d -> StronglySorted R (delitem k d).
Proof.
  induction d as [|[k' v'] d IH]; cbn; [auto |].
  intros H. inversion H as [|? ? Hs Hf]; subst.
  destruct (String.eqb k' k); [exact Hs |].
  constructor; [auto |].
  rewrite Forall_forall in *. intros x Hx. apply Hf. eapply In_delitem; eassumption.
Qed.

Lemma StronglySorted_app_last (l : list (string * V)) (y : string * V) :
  StronglySorted R l -> Forall (fun x => R x y) l -> StronglySorted R (l ++ [y]).
Proof.
  induction l as [|x l IH]; cbn; intros Hs Hf.
  - repeat constructor.
  - inversion Hs as [|? ? Hs' Hx]; subst. inversion Hf as [|? ? Hxy Hf']; subst.
    constructor; [auto |].
    apply Forall_app. split; [exact Hx | repeat constructor; exact Hxy].
Qed.
End Order.

Lemma Forall_delitem (P : string * V -> Prop) d k : Forall P d -> Forall P (delitem k d).
Proof.
  rewrite !Forall_forall. intros H x Hx. apply H. eapply In_delitem; eassumption.
Qed.

End OrderedDictFacts.

(** * Facts about the serialization *)

Section KeyOrder.
Import Py.

Lemma key_le_total (a b : string) : key_le a b = false -> key_le b a = true.
Proof.
  unfold key_le.
  destruct (String_as_OT.compare_spec a b) as [E | L | G]; try discriminate.
  intros _. destruct (String_as_OT.compare_spec b a) as [E' | L' | G']; try reflexivity.
  exfalso. apply (StrictOrder_Irreflexive (R := String_as_OT.lt) a).
  exact (StrictOrder_Transitive _ _ _ G' G).
Qed.

Lemma key_le_antisym (a b : string) : key_le a b = true -> key_le b a = true -> a = b.
Proof.
  unfold key_le.
  destruct (String_as_OT.compare_spec a b) as [E | L | G]; try discriminate;
    [intros _ _; exact E |].
  intros _. destruct (String_as_OT.compare_spec b a) as [E' | L' | G'];
    try discriminate; intros _; [symmetry; exact E' |].
  exfalso. apply (StrictOrder_Irreflexive (R := String_as_OT.lt) a).
  exact (StrictOrder_Transitive _ _ _ L L').
Qed.

Lemma key_le_trans (a b c : string) :
  key_le a b = true -> key_le b c = true -> key_le a c = true.
Proof.
  unfold key_le.
  destruct (String_as_OT.compare_spec a b) as [E | L | G]; try discriminate; intros _.
  - change (a = b) in E. subst b. auto.
  - destruct (String_as_OT.compare_spec b c) as [E' | L' | G'];
      try discriminate; intros _.
    + change (b = c) in E'. subst c.
      destruct (String_as_OT.compare_spec a b) as [? | ? | G'']; try reflexivity.
      exfalso. apply (StrictOrder_Irreflexive (R := String_as_OT.lt) a).
      exact (StrictOrder_Transitive _ _ _ L G'').
    + destruct (String_as_OT.compare_spec a c) as [? | ? | G'']; try reflexivity.
      exfalso. apply (StrictOrder_Irreflexive (R := String_as_OT.lt) a).
      exact (StrictOrder_Transitive _ _ _ L (StrictOrder_Transitive _ _ _ L' G'')).
Qed.

Context {V : Type}.
Implicit Types (x y : string * V) (l : list (string * V)).

(** Two insertions of items with distinct keys commute. *)
Lemma insert_item_comm x y l :
  fst x <> fst y -> insert_item x (insert_item y l) = insert_item y (insert_item x l).
Proof.
  intros Hne. induction l as [|z l IH]; cbn [insert_item].
  - destruct (key_le (fst x) (fst y)) eqn:Hxy, (key_le (fst y) (fst x)) eqn:Hyx;
      try reflexivity.
    + destruct (Hne (key_le_antisym _ _ Hxy Hyx)).
    + apply key_le_total in Hxy. congruence.
  - destruct (key_le (fst y) (fst z)) eqn:Hyz, (key_le (fst x) (fst z)) eqn:Hxz;
      cbn [insert_item]; rewrite ?Hyz, ?Hxz.
    + destruct (key_le (fst x) (fst y)) eqn:Hxy, (key_le (fst y) (fst x)) eqn:Hyx;
        cbn [insert_item]; rewrite ?Hyz, ?Hxz; try reflexivity.
      * destruct (Hne (key_le_antisym _ _ Hxy Hyx)).
      * apply key_le_total in Hxy. congruence.
    + destruct (key_le (fst x) (fst y)) eqn:Hxy.
      * rewrite (key_le_trans _ _ _ Hxy Hyz) in Hxz. discriminate.
      * reflexivity.
    + destruct (key_le (fst y) (fst x)) eqn:Hyx.
      * rewrite (key_le_trans _ _ _ Hyx Hxz) in Hyz. discriminate.
      * reflexivity.
    + f_equal. exact IH.
Qed.

(** The sorted items of a [dict] do not depend on the order of its
    members. *)
Lemma sorted_items_Permutation l l' :
  Permutation l l' -> NoDup (map fst l) -> sorted_items l = sorted_items l'.
Proof.
  induction 1 as [| x l l' HP IH | x y l | l l' l'' HP1 IH1 HP2 IH2]; intros Hnd.
  - reflexivity.
  - cbn [sorted_items]. f_equal. apply IH. cbn in Hnd. inversion Hnd; assumption.
  - cbn [sorted_items]. apply insert_item_comm.
    cbn in Hnd. inversion Hnd as [|? ? Hn _]; subst.
    intros E. apply Hn. left. symmetry. exact E.
  - rewrite IH1 by exact Hnd. apply IH2.
    apply (Permutation_NoDup (Permutation_map fst HP1) Hnd).
Qed.

End KeyOrder.

Section DumpsFacts.
Import Py.
Context {lib : PyLib}.

(** The serialization of two values that are equal as unordered
    structures is the same text. *)
Lemma dumps_equiv (v1 : value) :
  wf_value v1 -> forall v2, value_equiv v1 v2 -> dumps v1 = dumps v2.
Proof.
  induction v1 as [| b | n | r | s | s | l IH | items IH] using value_rect';
    intros Hwf v2 Heq; inversion Heq as [v | l1 l2 HF | items1 items1' items2 HP HF];
    subst; try reflexivity.
  - (* list *)
    cbn [dumps]. do 3 f_equal.
    inversion Hwf as [| | | | | | l' Hwfl |]; subst. clear Heq Hwf.
    induction HF as [|x y l1 l2 Hxy HF IHF]; [reflexivity |].
    inversion IH; subst. inversion Hwfl; subst.
    cbn [map]. f_equal; auto.
  - (* dict *)
    cbn [dumps]. do 4 f_equal.
    inversion Hwf as [| | | | | | | items' Hnd Hwfi]; subst. clear Heq Hwf.
    rewrite (sorted_items_Permutation _ _
               (Permutation_map (fun kv => (fst kv, dumps (snd kv))) HP))
      by (rewrite map_map; exact Hnd).
    f_equal.
    apply (Permutation_Forall HP) in IH. apply (Permutation_Forall HP) in Hwfi.
    clear HP Hnd. induction HF as [|x y l1 l2 (Hk & Hxy) HF IHF]; [reflexivity |].
    inversion IH; subst. inversion Hwfi; subst.
    cbn [map]. f_equal; [| auto].
    rewrite Hk. f_equal. auto.
Qed.

End DumpsFacts.

(** * Facts about the cache *)

Section CacheFacts.
Import OrderedDict AICache Spec.
Context {lib : PyLib}.
Implicit Types (c : AICache.t).

(** ** The eviction loop *)

Lemma evict_oldest_length c :
  _cache c <> [] -> S (List.length (_cache (_evict_oldest c))) = List.length (_cache c).
Proof.
  unfold _evict_oldest. destruct (_cache c) as [|x d] eqn:E; [congruence |].
  intros _. reflexivity.
Qed.

Lemma evict_oldest_max_size c : max_size (_evict_oldest c) = max_size c.
Proof. unfold _evict_oldest. destruct (_cache c); reflexivity. Qed.

(** With a capacity of at least one the loop comes to its end within as
    many rounds as there are entries. *)
Lemma evict_while_full_ends (fuel : nat) c :
  1 <= max_size c -> (List.length (_cache c) <= fuel)%nat ->
  exists c', evict_while_full fuel c = Some c'.
Proof.
  revert c. induction fuel as [|fuel IH]; intros c Hmax Hlen; cbn [evict_while_full].
  - destruct (_cache c) eqn:E; [| cbn in Hlen; lia].
    unfold len. cbn.
    destruct (max_size c <=? 0) eqn:Hc; [apply Z.leb_le in Hc; lia | eauto].
  - destruct (max_size c <=? len (_cache c)) eqn:Hc; [| eauto].
    apply IH; [rewrite evict_oldest_max_size; exact Hmax |].
    destruct (_cache c) as [|x d] eqn:E.
    + unfold _evict_oldest. rewrite E. cbn. rewrite E. cbn. lia.
    + assert (Hne : _cache c <> []) by congruence.
      pose proof (evict_oldest_length c Hne) as Hl. rewrite E in Hl. cbn in Hl, Hlen. lia.
Qed.

(** With a capacity of zero or less the loop never comes to its end. *)
Lemma evict_while_full_never_ends (fuel : nat) c :
  max_size c <= 0 -> evict_while_full fuel c = None.
Proof.
  revert c. induction fuel as [|fuel IH]; intros c Hmax; cbn [evict_while_full];
    (destruct (max_size c <=? len (_cache c)) eqn:Hc;
     [| apply Z.leb_gt in Hc; unfold len in Hc; lia]).
  - reflexivity.
  - apply IH. rewrite evict_oldest_max_size. exact Hmax.
Qed.

(** More rounds than the loop needs change nothing. *)
Lemma evict_while_full_more_fuel (fuel fuel' : nat) c c' :
  (fuel <= fuel')%nat -> evict_while_full fuel c = Some c' ->
  evict_while_full fuel' c = Some c'.
Proof.
  revert fuel' c. induction fuel as [|fuel IH]; intros fuel' c Hle; cbn [evict_while_full].
  - destruct (max_size c <=? len (_cache c)) eqn:Hc; [discriminate |].
    intros H. destruct fuel'; cbn [evict_while_full]; rewrite Hc; exact H.
  - destruct fuel' as [|fuel']; [lia |]. cbn [evict_while_full].
    destruct (max_size c <=? len (_cache c)); [| auto].
    apply IH. lia.
Qed.

(** On a cache within its capacity the loop makes one round when the
    cache is full and none otherwise. *)
Lemma evict_while_full_wf (fuel : nat) c :
  1 <= max_size c -> len (_cache c) <= max_size c ->
  evict_while_full (S fuel) c
  = Some (if max_size c <=? len (_cache c) then _evict_oldest c else c).
Proof.
  intros Hmax Hlen. cbn [evict_while_full].
  destruct (max_size c <=? len (_cache c)) eqn:Hc; [| reflexivity].
  apply Z.leb_le in Hc.
  assert (Hne : _cache c <> []).
  { intros E. unfold len in Hc. rewrite E in Hc. cbn in Hc. lia. }
  pose proof (evict_oldest_length c Hne) as Hl.
  pose proof (evict_oldest_max_size c) as Hm.
  destruct fuel; cbn [evict_while_full];
    (destruct (max_size (_evict_oldest c) <=? len (_cache (_evict_oldest c))) eqn:Hc';
     [apply Z.leb_le in Hc'; unfold len in *; lia | reflexivity]).
Qed.

(** ** The methods, case by case *)

Lemma get_miss c e p u t1 t2 :
  contains (_generate_key e p u) (_cache c) = false ->
  get c e p u t1 t2
  = (None, with_stats (CacheStats.with_misses (CacheStats.misses (_stats c) + 1) (_stats c)) c).
Proof. intros H. unfold get. rewrite H. reflexivity. Qed.

Lemma get_expired c e p u t1 t2 entry :
  getitem (_generate_key e p u) (_cache c) = Some entry ->
  CacheEntry.expires_at entry < t1 ->
  get c e p u t1 t2
  = (None,
     mk (max_size c) (delitem (_generate_key e p u) (_cache c))
        (CacheStats.mk (CacheStats.hits (_stats c)) (CacheStats.misses (_stats c) + 1)
           (CacheStats.evictions (_stats c)) (CacheStats.current_size (_stats c) - 1)
           (CacheStats.max_size (_stats c)))).
Proof.
  intros H Hexp. unfold get, contains. unfold getitem in H. rewrite H. cbn [negb].
  unfold getitem. rewrite H. unfold CacheEntry.is_expired.
  apply Z.ltb_lt in Hexp. rewrite Hexp. reflexivity.
Qed.

Lemma get_hit c e p u t1 t2 entry :
  getitem (_generate_key e p u) (_cache c) = Some entry ->
  t1 <= CacheEntry.expires_at entry ->
  get c e p u t1 t2
  = (Some (CacheEntry.value entry),
     mk (max_size c)
        (delitem (_generate_key e p u) (_cache c)
           ++ [(_generate_key e p u, touched t2 entry)])
        (CacheStats.with_hits (CacheStats.hits (_stats c) + 1) (_stats c))).
Proof.
  intros H Hexp. unfold get.
  assert (Hc : contains (_generate_key e p u) (_cache c) = true)
    by (unfold contains; unfold getitem in H; rewrite H; reflexivity).
  rewrite Hc. cbn [negb]. rewrite H. unfold CacheEntry.is_expired.
  apply Z.ltb_ge in Hexp. rewrite Hexp.
  unfold with_cache, with_stats. cbn [_cache max_size _stats].
  rewrite (move_to_end_replace _ _ _ Hc). reflexivity.
Qed.

Lemma set_existing c e p v ttl u now :
  contains (_generate_key e p u) (_cache c) = true ->
  set c e p v ttl u now
  = Some (_generate_key e p u,
          mk (max_size c)
             (delitem (_generate_key e p u) (_cache c)
                ++ [(_generate_key e p u, new_entry e v ttl now)])
             (_stats c)).
Proof.
  intros Hc. unfold set. rewrite Hc.
  unfold with_cache. cbn [_cache max_size _stats].
  rewrite (move_to_end_replace _ _ _ Hc). reflexivity.
Qed.

Lemma tl_keys_incl {V : Type} (d : OrderedDict.t V) k : In k (keys (tl d)) -> In k (keys d).
Proof. destruct d; cbn; auto. Qed.

Lemma set_new c e p v ttl u now :
  contains (_generate_key e p u) (_cache c) = false ->
  1 <= max_size c -> len (_cache c) <= max_size c ->
  set c e p v ttl u now
  = Some (_generate_key e p u,
          if max_size c <=? len (_cache c) then
            mk (max_size c)
               (tl (_cache c) ++ [(_generate_key e p u, new_entry e v ttl now)])
               (CacheStats.mk (CacheStats.hits (_stats c)) (CacheStats.misses (_stats c))
                  (CacheStats.evictions (_stats c) + 1)
                  (len (tl (_cache c) ++ [(_generate_key e p u, new_entry e v ttl now)]))
                  (CacheStats.max_size (_stats c)))
          else
            mk (max_size c)
               (_cache c ++ [(_generate_key e p u, new_entry e v ttl now)])
               (CacheStats.with_current_size
                  (len (_cache c ++ [(_generate_key e p u, new_entry e v ttl now)]))
                  (_stats c))).
Proof.
  intros Hc Hmax Hlen. unfold set. rewrite Hc.
  rewrite (evict_while_full_wf _ c Hmax Hlen).
  destruct (max_size c <=? len (_cache c)) eqn:Hfull.
  - apply Z.leb_le in Hfull.
    unfold _evict_oldest. destruct (_cache c) as [|x d] eqn:E.
    { unfold len in Hfull. cbn in Hfull. lia. }
    unfold with_cache, with_stats, popitem_first. cbn [_cache max_size _stats tl].
    assert (Hd : contains (_generate_key e p u) d = false).
    { apply contains_false_keys. apply contains_false_keys in Hc.
      intros Hin. apply Hc. right. exact Hin. }
    rewrite (setitem_absent _ _ _ Hd). reflexivity.
  - unfold with_cache, with_stats. cbn [_cache max_size _stats].
    rewrite (setitem_absent _ _ _ Hc). reflexivity.
Qed.

(** With a capacity of zero or less a [set] of a new key does not
    return. *)
Lemma set_does_not_return c e p v ttl u now :
  max_size c <= 0 -> contains (_generate_key e p u) (_cache c) = false ->
  set c e p v ttl u now = None.
Proof.
  intros Hmax Hc. unfold set. rewrite Hc.
  rewrite (evict_while_full_never_ends _ c Hmax). reflexivity.
Qed.

(** ** Invariants of the representation *)

Lemma delete_keys_preserves (P : OrderedDict.t CacheEntry.t -> Prop) :
  (forall k d, P d -> P (delitem k d)) ->
  forall ks d n, P d -> P (fst (delete_keys ks d n)).
Proof.
  intros HP ks. induction ks as [|k ks IH]; intros d n Hd; cbn; [exact Hd |].
  apply IH, HP, Hd.
Qed.

Lemma wf_init (C : Z) : 0 <= C -> wf (init C).
Proof. intros HC. repeat split; cbn; [constructor | exact HC]. Qed.

Lemma wf_delitem c k s :
  wf c -> wf (mk (max_size c) (delitem k (_cache c))
                 (CacheStats.with_current_size (len (delitem k (_cache c))) s)).
Proof.
  intros (Hnd & Hlen & _). repeat split; cbn.
  - apply NoDup_delitem, Hnd.
  - pose proof (length_delitem_le (_cache c) k). unfold len in *. lia.
Qed.

Lemma wf_delete_keys c ks n s :
  wf c -> wf (mk (max_size c) (fst (delete_keys ks (_cache c) n))
                 (CacheStats.with_current_size (len (fst (delete_keys ks (_cache c) n))) s)).
Proof.
  intros (Hnd & Hlen & _). repeat split; cbn.
  - apply (delete_keys_preserves (fun d => NoDup (keys d))); [| exact Hnd].
    intros k d. apply NoDup_delitem.
  - apply (delete_keys_preserves (fun d => len d <= max_size c)); [| exact Hlen].
    intros k d Hd. pose proof (length_delitem_le d k). unfold len in *. lia.
Qed.

Lemma wf_to_back c k entry s :
  wf c -> contains k (_cache c) = true ->
  wf (mk (max_size c) (delitem k (_cache c) ++ [(k, entry)])
         (CacheStats.with_current_size (CacheStats.current_size (_stats c)) s)).
Proof.
  intros (Hnd & Hlen & Hsz) Hc.
  pose proof (length_delitem _ _ Hc) as Hl.
  repeat split; cbn.
  - apply NoDup_keys_app_new; [apply NoDup_delitem, Hnd | apply delitem_removes, Hnd].
  - unfold len in *. rewrite length_app. cbn. lia.
  - rewrite Hsz. unfold len. rewrite length_app. cbn. lia.
Qed.

(** Every call leaves a sound cache sound, and with a capacity of at
    least one every call returns. *)
Lemma step_wf (o : op) c :
  1 <= max_size c -> wf c ->
  exists c', step o c = Some c' /\ wf c' /\ max_size c' = max_size c.
Proof.
  intros Hmax Hwf. pose proof Hwf as (Hnd & Hlen & Hsz).
  destruct o as [e p u t1 t2 | e p v ttl u now | e p u | e | | now |]; cbn [step].
  - (* get *)
    eexists. split; [reflexivity |].
    destruct (contains (_generate_key e p u) (_cache c)) eqn:Hc.
    + pose proof Hc as Hg. unfold contains in Hg.
      destruct (Py.dict_lookup (_generate_key e p u) (_cache c)) as [entry|] eqn:L;
        [| discriminate].
      destruct (Z_lt_le_dec (CacheEntry.expires_at entry) t1) as [Hexp | Hlive].
      * rewrite (get_expired c e p u t1 t2 entry L Hexp). cbn [snd].
        pose proof (length_delitem _ _ Hc) as Hl.
        repeat split; cbn.
        -- apply NoDup_delitem, Hnd.
        -- unfold len in *. lia.
        -- unfold len in *. lia.
      * rewrite (get_hit c e p u t1 t2 entry L Hlive). cbn [snd].
        split; [| reflexivity].
        apply (wf_to_back c _ (touched t2 entry)
                 (CacheStats.with_hits (CacheStats.hits (_stats c) + 1) (_stats c)) Hwf Hc).
    + rewrite (get_miss c e p u t1 t2 Hc). cbn [snd]. split; [| reflexivity].
      repeat split; cbn; assumption.
  - (* set *)
    destruct (contains (_generate_key e p u) (_cache c)) eqn:Hc.
    + rewrite (set_existing c e p v ttl u now Hc). cbn [option_map snd].
      eexists. split; [reflexivity | split; [| reflexivity]].
      pose proof (wf_to_back c _ (new_entry e v ttl now) (_stats c) Hwf Hc) as H.
      destruct (_stats c); exact H.
    + rewrite (set_new c e p v ttl u now Hc Hmax Hlen). cbn [option_map snd].
      eexists. split; [reflexivity |].
      apply contains_false_keys in Hc.
      destruct (max_size c <=? len (_cache c)) eqn:Hfull.
      * split; [| reflexivity]. apply Z.leb_le in Hfull.
        destruct (_cache c) as [|x d] eqn:E; [unfold len in Hfull; cbn in Hfull; lia |].
        cbn [tl]. repeat split; cbn [_cache max_size _stats CacheStats.current_size].
        -- apply NoDup_keys_app_new.
           ++ cbn in Hnd. inversion Hnd; assumption.
           ++ intros Hin. apply Hc. right. exact Hin.
        -- unfold len in *. rewrite length_app. cbn in *. lia.
      * split; [| reflexivity]. apply Z.leb_gt in Hfull.
        repeat split; cbn [_cache max_size _stats CacheStats.current_size
                           CacheStats.with_current_size].
        -- apply NoDup_keys_app_new; assumption.
        -- unfold len in *. rewrite length_app. cbn. lia.
  - (* invalidate *)
    eexists. split; [reflexivity |]. unfold invalidate.
    destruct (contains (_generate_key e p u) (_cache c)); cbn [snd].
    + split; [| reflexivity]. apply (wf_delitem c _ _ Hwf).
    + split; [exact Hwf | reflexivity].
  - (* invalidate_by_endpoint *)
    eexists. split; [reflexivity |]. unfold invalidate_by_endpoint.
    destruct (keys_of_endpoint e (_cache c)) as [ks | exn]; cbn [snd].
    + destruct (delete_keys ks (_cache c) 0) as [d n] eqn:D. cbn [snd].
      split; [| reflexivity].
      pose proof (wf_delete_keys c ks 0 (_stats c) Hwf) as H. rewrite D in H. exact H.
    + split; [exact Hwf | reflexivity].
  - (* clear *)
    eexists. split; [reflexivity |]. cbn. split; [| reflexivity].
    repeat split; cbn; [constructor | lia].
  - (* cleanup_expired *)
    eexists. split; [reflexivity |]. unfold cleanup_expired.
    match goal with |- context [delete_keys ?ks _ 0] => set (ks0 := ks) end.
    destruct (delete_keys ks0 (_cache c) 0) as [d n] eqn:D. cbn [snd].
    split; [| reflexivity].
    pose proof (wf_delete_keys c ks0 0 (_stats c) Hwf) as H. rewrite D in H. exact H.
  - (* reset_stats *)
    eexists. split; [reflexivity |]. split; [| reflexivity].
    repeat split; cbn; assumption.
Qed.

(** ** The order of the cache is the order of last access *)

Lemma lru_dict_mono (t t' : Z) d : t <= t' -> lru_dict t d -> lru_dict t' d.
Proof.
  intros Ht (Hs & Hf). split; [exact Hs |].
  rewrite Forall_forall in *. intros x Hx. specialize (Hf x Hx). cbn in Hf. lia.
Qed.

Lemma lru_dict_delitem (t : Z) d k : lru_dict t d -> lru_dict t (delitem k d).
Proof.
  intros (Hs & Hf). split; [apply StronglySorted_delitem, Hs | apply Forall_delitem, Hf].
Qed.

Lemma lru_dict_tl (t : Z) d : lru_dict t d -> lru_dict t (tl d).
Proof.
  intros (Hs & Hf). destruct d as [|x d]; cbn; [split; assumption |].
  inversion Hs; subst. inversion Hf; subst. split; assumption.
Qed.

Lemma lru_dict_to_back (t : Z) d k entry :
  lru_dict t d -> t <= CacheEntry.last_accessed entry ->
  lru_dict (CacheEntry.last_accessed entry) (d ++ [(k, entry)]).
Proof.
  intros (Hs & Hf) Ht. split.
  - apply StronglySorted_app_last; [exact Hs |].
    rewrite Forall_forall in *. intros x Hx. specialize (Hf x Hx).
    unfold lru_le. cbn in *. lia.
  - apply Forall_app. split.
    + rewrite Forall_forall in *. intros x Hx. specialize (Hf x Hx). cbn in *. lia.
    + repeat constructor. cbn. lia.
Qed.

Lemma lru_dict_delete_keys (t : Z) ks d n :
  lru_dict t d -> lru_dict t (fst (delete_keys ks d n)).
Proof.
  apply (delete_keys_preserves (lru_dict t)). intros k d'. apply lru_dict_delitem.
Qed.

(** Under a clock that does not go back, every call keeps the cache in
    the order of last access. *)
Lemma step_lru (o : op) (t : Z) c c' :
  1 <= max_size c -> wf c -> lru_ordered t c -> op_clock_ok t o = true ->
  step o c = Some c' -> lru_ordered (op_clock_end t o) c'.
Proof.
  intros Hmax Hwf Hlru Hclk. pose proof Hwf as (Hnd & Hlen & Hsz).
  unfold lru_ordered in *.
  destruct o as [e p u t1 t2 | e p v ttl u now | e p u | e | | now |];
    cbn [step op_clock_end op_clock_ok] in *.
  - (* get *)
    apply andb_prop in Hclk as (H1 & H2). apply Z.leb_le in H1, H2.
    intros [= <-].
    destruct (contains (_generate_key e p u) (_cache c)) eqn:Hc.
    + pose proof Hc as Hg. unfold contains in Hg.
      destruct (Py.dict_lookup (_generate_key e p u) (_cache c)) as [entry|] eqn:L;
        [| discriminate].
      destruct (Z_lt_le_dec (CacheEntry.expires_at entry) t1) as [Hexp | Hlive].
      * rewrite (get_expired c e p u t1 t2 entry L Hexp). cbn [snd _cache].
        apply (lru_dict_mono t); [lia |]. apply lru_dict_delitem, Hlru.
      * rewrite (get_hit c e p u t1 t2 entry L Hlive). cbn [snd _cache].
        apply (lru_dict_to_back t _ _ (touched t2 entry)); [| cbn; lia].
        apply lru_dict_delitem, Hlru.
    + rewrite (get_miss c e p u t1 t2 Hc). cbn [snd].
      apply (lru_dict_mono t); [lia | exact Hlru].
  - (* set *)
    apply Z.leb_le in Hclk.
    destruct (contains (_generate_key e p u) (_cache c)) eqn:Hc.
    + rewrite (set_existing c e p v ttl u now Hc). cbn [option_map snd].
      intros [= <-]. cbn [_cache].
      apply (lru_dict_to_back t _ _ (new_entry e v ttl now)); [| cbn; lia].
      apply lru_dict_delitem, Hlru.
    + rewrite (set_new c e p v ttl u now Hc Hmax Hlen). cbn [option_map snd].
      intros [= <-].
      destruct (max_size c <=? len (_cache c)); cbn [_cache].
      * apply (lru_dict_to_back t _ _ (new_entry e v ttl now)); [| cbn; lia].
        apply lru_dict_tl, Hlru.
      * apply (lru_dict_to_back t _ _ (new_entry e v ttl now)); [| cbn; lia].
        exact Hlru.
  - (* invalidate *)
    intros [= <-]. unfold invalidate.
    destruct (contains (_generate_key e p u) (_cache c)); cbn [snd _cache];
      [apply lru_dict_delitem |]; exact Hlru.
  - (* invalidate_by_endpoint *)
    intros [= <-]. unfold invalidate_by_endpoint.
    destruct (keys_of_endpoint e (_cache c)) as [ks | exn]; cbn [snd]; [| exact Hlru].
    pose proof (lru_dict_delete_keys t ks (_cache c) 0 Hlru) as H.
    destruct (delete_keys ks (_cache c) 0) as [d n]. exact H.
  - (* clear *)
    intros [= <-]. cbn. split; constructor.
  - (* cleanup_expired *)
    apply Z.leb_le in Hclk. intros [= <-]. unfold cleanup_expired.
    match goal with |- context [delete_keys ?ks _ 0] => set (ks0 := ks) end.
    pose proof (lru_dict_delete_keys t ks0 (_cache c) 0 Hlru) as H.
    destruct (delete_keys ks0 (_cache c) 0) as [d n]. cbn [snd _cache].
    apply (lru_dict_mono t); [lia | exact H].
  - (* reset_stats *)
    intros [= <-]. exact Hlru.
Qed.

(** Every run from the empty cache returns and ends in a sound cache. *)
Lemma run_wf (ops : list op) c :
  1 <= max_size c -> wf c ->
  exists c', run ops c = Some c' /\ wf c' /\ max_size c' = max_size c.
Proof.
  revert c. induction ops as [|o ops IH]; intros c Hmax Hwf; cbn [run].
  - eauto.
  - destruct (step_wf o c Hmax Hwf) as (c1 & -> & Hwf1 & Hm1).
    destruct (IH c1) as (c' & Hrun & Hwf' & Hm'); [lia | exact Hwf1 |].
    exists c'. repeat split; [exact Hrun | apply Hwf' | apply Hwf' | apply Hwf' | lia].
Qed.

Lemma run_lru (ops : list op) (t : Z) c c' :
  1 <= max_size c -> wf c -> lru_ordered t c -> clock_ok t ops = true ->
  run ops c = Some c' -> exists t', lru_ordered t' c'.
Proof.
  revert t c. induction ops as [|o ops IH]; intros t c Hmax Hwf Hlru Hclk; cbn [run].
  - intros [= <-]. eauto.
  - cbn [clock_ok] in Hclk. apply andb_prop in Hclk as (Ho & Hops).
    destruct (step_wf o c Hmax Hwf) as (c1 & E & Hwf1 & Hm1). rewrite E.
    apply (IH (op_clock_end t o) c1); [lia | exact Hwf1 | | exact Hops].
    apply (step_lru o t c c1 Hmax Hwf Hlru Ho E).
Qed.

(** A [set] on a sound cache returns, and the entry it has built is the
    one bound to the key afterwards. *)
Lemma set_stores c e p v ttl u now :
  1 <= max_size c -> wf c ->
  exists c1,
    set c e p v ttl u now = Some (_generate_key e p u, c1)
    /\ getitem (_generate_key e p u) (_cache c1) = Some (new_entry e v ttl now).
Proof.
  intros Hmax (Hnd & Hlen & _).
  destruct (contains (_generate_key e p u) (_cache c)) eqn:Hc.
  - rewrite (set_existing c e p v ttl u now Hc). eexists. split; [reflexivity |].
    cbn [_cache]. apply lookup_app_new, delitem_removes, Hnd.
  - rewrite (set_new c e p v ttl u now Hc Hmax Hlen). eexists. split; [reflexivity |].
    apply contains_false_keys in Hc.
    destruct (max_size c <=? len (_cache c)); cbn [_cache]; apply lookup_app_new.
    + intros Hin. apply Hc. apply tl_keys_incl. exact Hin.
    + exact Hc.
Qed.

(** ** What happens to one entry *)

Lemma lookup_delete_keys ks d n k x :
  NoDup (keys d) -> Py.dict_lookup k d = Some x ->
  Py.dict_lookup k (fst (delete_keys ks d n)) = Some x
  \/ Py.dict_lookup k (fst (delete_keys ks d n)) = None.
Proof.
  revert d n. induction ks as [|k' ks IH]; intros d n Hnd L; cbn [delete_keys fst].
  - left. exact L.
  - destruct (String.eqb_spec k k') as [<- | Hne].
    + right.
      apply (delete_keys_preserves (fun d' => Py.dict_lookup k d' = None)).
      * intros k0 d0. apply lookup_delitem_None.
      * apply lookup_delitem_same, Hnd.
    + apply IH; [apply NoDup_delitem, Hnd |].
      rewrite lookup_delitem_other by exact Hne. exact L.
Qed.

Lemma lookup_delete_keys_None ks d n k :
  Py.dict_lookup k d = None -> Py.dict_lookup k (fst (delete_keys ks d n)) = None.
Proof.
  apply (delete_keys_preserves (fun d' => Py.dict_lookup k d' = None)).
  intros k0 d0. apply lookup_delitem_None.
Qed.

Lemma kept_refl x : kept x x.
Proof. destruct x; cbn; [repeat split | exact I]. Qed.

Lemma kept_trans x y z : kept x y -> kept y z -> kept x z.
Proof.
  destruct x as [a|], y as [b|], z as [c0|]; cbn; try tauto.
  intros (H1 & H2 & H3) (H4 & H5 & H6). repeat split; congruence.
Qed.

(** A call that is not a [set] under the key [k] leaves [k] bound to an
    entry with the same response and the same expiry, or unbound; an
    unbound key stays unbound. *)
Lemma step_keeps_entry (o : op) (k : string) c c' :
  1 <= max_size c -> wf c -> op_stores k o = false -> step o c = Some c' ->
  kept (getitem k (_cache c)) (getitem k (_cache c')).
Proof.
  intros Hmax Hwf Ho. pose proof Hwf as (Hnd & Hlen & _).
  assert (Hdel : forall k', kept (getitem k (_cache c)) (getitem k (delitem k' (_cache c)))).
  { intros k'. unfold getitem. destruct (String.eqb_spec k k') as [<- | Hne].
    - rewrite (lookup_delitem_same _ _ Hnd). destruct (Py.dict_lookup k (_cache c)); exact I.
    - rewrite lookup_delitem_other by exact Hne. apply kept_refl. }
  assert (Hdels : forall ks n,
             kept (getitem k (_cache c)) (getitem k (fst (delete_keys ks (_cache c) n)))).
  { intros ks n. unfold getitem.
    destruct (Py.dict_lookup k (_cache c)) as [x|] eqn:L.
    - destruct (lookup_delete_keys ks _ n k x Hnd L) as [-> | ->];
        [apply (kept_refl (Some x)) | exact I].
    - rewrite (lookup_delete_keys_None ks _ n k L). exact I. }
  destruct o as [e p u t1 t2 | e p v ttl u now | e p u | e | | now |];
    cbn [step op_stores] in *.
  - (* get *)
    intros [= <-].
    destruct (contains (_generate_key e p u) (_cache c)) eqn:Hc.
    + pose proof Hc as Hg. unfold contains in Hg.
      destruct (Py.dict_lookup (_generate_key e p u) (_cache c)) as [entry|] eqn:L;
        [| discriminate].
      destruct (Z_lt_le_dec (CacheEntry.expires_at entry) t1) as [Hexp | Hlive].
      * rewrite (get_expired c e p u t1 t2 entry L Hexp). cbn [snd _cache]. apply Hdel.
      * rewrite (get_hit c e p u t1 t2 entry L Hlive). cbn [snd _cache].
        unfold getitem. destruct (String.eqb_spec k (_generate_key e p u)) as [-> | Hne].
        -- rewrite lookup_app_new by (apply delitem_removes, Hnd).
           rewrite L. repeat split.
        -- rewrite lookup_app_other by exact Hne. apply Hdel.
    + rewrite (get_miss c e p u t1 t2 Hc). apply kept_refl.
  - (* set *)
    apply String.eqb_neq in Ho.
    assert (Hne : k <> _generate_key e p u) by congruence.
    destruct (contains (_generate_key e p u) (_cache c)) eqn:Hc.
    + rewrite (set_existing c e p v ttl u now Hc). cbn [option_map snd].
      intros [= <-]. cbn [_cache]. unfold getitem.
      rewrite lookup_app_other by exact Hne. apply Hdel.
    + rewrite (set_new c e p v ttl u now Hc Hmax Hlen). cbn [option_map snd].
      intros [= <-]. unfold getitem.
      destruct (max_size c <=? len (_cache c)); cbn [_cache];
        rewrite lookup_app_other by exact Hne; [| apply kept_refl].
      destruct (Py.dict_lookup k (_cache c)) as [x|] eqn:L.
      * destruct (lookup_tl _ _ _ Hnd L) as [-> | ->];
          [apply (kept_refl (Some x)) | exact I].
      * rewrite (lookup_tl_None _ _ L). exact I.
  - (* invalidate *)
    intros [= <-]. unfold invalidate.
    destruct (contains (_generate_key e p u) (_cache c)); cbn [snd _cache];
      [apply Hdel | apply kept_refl].
  - (* invalidate_by_endpoint *)
    intros [= <-]. unfold invalidate_by_endpoint.
    destruct (keys_of_endpoint e (_cache c)) as [ks | exn]; cbn [snd]; [| apply kept_refl].
    specialize (Hdels ks 0).
    destruct (delete_keys ks (_cache c) 0) as [d n]. exact Hdels.
  - (* clear *)
    intros [= <-]. cbn. destruct (getitem k (_cache c)); exact I.
  - (* cleanup_expired *)
    intros [= <-]. unfold cleanup_expired.
    match goal with |- context [delete_keys ?ks _ 0] => set (ks0 := ks) end.
    specialize (Hdels ks0 0).
    destruct (delete_keys ks0 (_cache c) 0) as [d n]. exact Hdels.
  - (* reset_stats *)
    intros [= <-]. apply kept_refl.
Qed.

Lemma run_keeps_entry (ops : list op) (k : string) c c' :
  1 <= max_size c -> wf c -> forallb (fun o => negb (op_stores k o)) ops = true ->
  run ops c = Some c' ->
  kept (getitem k (_cache c)) (getitem k (_cache c')).
Proof.
  revert c. induction ops as [|o ops IH]; intros c Hmax Hwf Hops; cbn [run].
  - intros [= <-]. apply kept_refl.
  - cbn [forallb] in Hops. apply andb_prop in Hops as (Ho & Hops).
    apply negb_true_iff in Ho.
    destruct (step_wf o c Hmax Hwf) as (c1 & E & Hwf1 & Hm1). rewrite E. intros Hrun.
    apply (kept_trans _ (getitem k (_cache c1))).
    + apply (step_keeps_entry o k c c1 Hmax Hwf Ho E).
    + apply (IH c1); [lia | exact Hwf1 | exact Hops | exact Hrun].
Qed.

Lemma run_app (ops1 ops2 : list op) c :
  run (ops1 ++ ops2) c
  = match run ops1 c with Some c1 => run ops2 c1 | None => None end.
Proof.
  revert c. induction ops1 as [|o ops1 IH]; intros c; cbn [run app]; [reflexivity |].
  destruct (step o c); [apply IH | reflexivity].
Qed.

Lemma clock_ok_app_l (t : Z) (ops1 ops2 : list op) :
  clock_ok t (ops1 ++ ops2) = true -> clock_ok t ops1 = true.
Proof.
  revert t. induction ops1 as [|o ops1 IH]; intros t; cbn [clock_ok app]; [reflexivity |].
  intros H. apply andb_prop in H as (Ho & Hops). rewrite Ho. cbn. apply (IH _ Hops).
Qed.

End CacheFacts.

(** * Properties of the rate limiter *)

Section RateLimiterFacts.
Import RateLimiterService Spec.

(** The loop of [check_rate_limit], unrolled over its three windows. *)
Lemma check_rate_limit_traced_unrolled
    (session : Session.t) (user : User.t) (endpoint : AIEndpoint) (now : Z) :
  check_rate_limit_traced session user endpoint now =
    let limits := _get_rate_limits session user in
    let count d := _count_requests session (User.id user) (Some endpoint) (now - d) in
    if per_minute limits <=? count (timedelta_minutes 1) then
      (["minute"], exceeded "minute" (count (timedelta_minutes 1)) (per_minute limits) now)
    else if per_hour limits <=? count (timedelta_hours 1) then
      (["minute"; "hour"], exceeded "hour" (count (timedelta_hours 1)) (per_hour limits) now)
    else if per_day limits <=? count (timedelta_days 1) then
      (["minute"; "hour"; "day"],
       exceeded "day" (count (timedelta_days 1)) (per_day limits) now)
    else (["minute"; "hour"; "day"], CheckReturns true None).
Proof.
  unfold check_rate_limit_traced, windows, exceeded; cbn [check_windows app].
  unfold per_minute, per_hour, per_day; cbv zeta.
  rewrite !Z.sub_add.
  reflexivity.
Qed.

(** What a raised [RateLimitExceeded] carries. *)
Lemma check_rate_limit_raises
    (session : Session.t) (user : User.t) (endpoint : AIEndpoint) (now : Z)
    (e : RateLimitExceeded.t) :
  check_rate_limit session user endpoint now = CheckRaises e ->
  In (RateLimitExceeded.limit_type e) ["minute"; "hour"; "day"]
  /\ RateLimitExceeded.limit e
     = Py.dict_get (_get_rate_limits session user)
         (snd (Py.dict_get windows (RateLimitExceeded.limit_type e) (0, ""))) 100
  /\ RateLimitExceeded.current_count e
     = _count_requests session (User.id user) None
         (now - window_duration (RateLimitExceeded.limit_type e))
  /\ RateLimitExceeded.limit e <= RateLimitExceeded.current_count e
  /\ RateLimitExceeded.reset_time e = now.
Proof.
  unfold check_rate_limit. rewrite check_rate_limit_traced_unrolled. cbv zeta.
  unfold exceeded, per_minute, per_hour, per_day.
  repeat match goal with
         | |- context [if ?c then _ else _] => destruct c eqn:?
         end;
    cbn [snd]; intros H; try discriminate H; injection H as <-; cbn;
    repeat split; try reflexivity; try (apply Z.leb_le; assumption); auto.
Qed.

(** The query of [_get_rate_limits] selects the active overrides keyed to
    its target. *)
Lemma selects_keyed_to (ty v : string) (c : RateLimitConfig.t) :
  selects ty v c = true <-> keyed_to ty v c.
Proof.
  unfold selects, keyed_to. rewrite !andb_true_iff, !String.eqb_eq.
  destruct (RateLimitConfig.is_active c); cbn; intuition congruence.
Qed.

(** [find] gives the first row that is selected. *)
Lemma find_first_row (ty v : string) (rows : list RateLimitConfig.t) :
  match find (selects ty v) rows with
  | Some c => first_row (keyed_to ty v) rows c
  | None => forall c, In c rows -> ~ keyed_to ty v c
  end.
Proof.
  induction rows as [|r rows IH]; cbn [find].
  - intros c [].
  - destruct (selects ty v r) eqn:Hr.
    + exists [], rows.
      split; [reflexivity | split; [apply selects_keyed_to, Hr | intros c' []]].
    + assert (Hn : ~ keyed_to ty v r).
      { intros H. apply selects_keyed_to in H. congruence. }
      destruct (find (selects ty v) rows) as [c|].
      * destruct IH as (before & after & -> & Hc & Hb).
        exists (r :: before), after. split; [reflexivity | split; [assumption |]].
        intros c' [<- | Hin]; [exact Hn | auto].
      * intros c [<- | Hin]; [exact Hn | auto].
Qed.

Lemma first_row_unique (P : RateLimitConfig.t -> Prop) (rows : list RateLimitConfig.t)
    (c1 c2 : RateLimitConfig.t) :
  first_row P rows c1 -> first_row P rows c2 -> c1 = c2.
Proof.
  intros (b1 & a1 & E1 & P1 & N1). revert rows E1.
  induction b1 as [|x b1 IH]; intros rows E1 (b2 & a2 & E2 & P2 & N2); subst rows.
  - destruct b2 as [|y b2]; cbn in E2.
    + congruence.
    + injection E2 as Hy _. subst y.
      exfalso. apply (N2 c1); [left; reflexivity | assumption].
  - destruct b2 as [|y b2]; cbn in E2.
    + injection E2 as Hx _. subst x.
      exfalso. apply (N1 c2); [left; reflexivity | assumption].
    + injection E2 as Hx E2. subst y.
      apply (IH (fun c' H => N1 c' (or_intror H)) _ eq_refl).
      exists b2, a2. repeat split; [assumption.. | ].
      intros c' H. apply N2. right. assumption.
Qed.

(** Without an active override the table of defaults decides. *)
Lemma get_rate_limits_no_override (session : Session.t) (user : User.t) :
  (forall c, In c (Session.rate_limit_config session) -> ~ user_override user c) ->
  (forall c, In c (Session.rate_limit_config session) -> ~ role_override user c) ->
  _get_rate_limits session user
  = Py.dict_get DEFAULT_RATE_LIMITS (UserRole_value (User.role user)) fallback_limits.
Proof.
  intros Hu Hr. unfold _get_rate_limits, first_active_config.
  pose proof (find_first_row "user" (User.id user) (Session.rate_limit_config session)) as Fu.
  pose proof (find_first_row "role" (UserRole_value (User.role user))
                (Session.rate_limit_config session)) as Fr.
  destruct (find (selects "user" (User.id user)) _) as [cu|].
  - destruct Fu as (b & a & E & Hc & _). exfalso.
    apply (Hu cu); [rewrite E; apply in_elt | exact Hc].
  - destruct (find (selects "role" (UserRole_value (User.role user))) _) as [cr|].
    + destruct Fr as (b & a & E & Hc & _). exfalso.
      apply (Hr cr); [rewrite E; apply in_elt | exact Hc].
    + reflexivity.
Qed.

End RateLimiterFacts.

(** * The rate limiter: evaluation order, policy resolution, counting *)

Section RateLimiterClaims.
Import RateLimiterService Spec Inputs.

(** C3.  [check_rate_limit] evaluates the windows in the order minute,
    hour, day; the first window whose count is at or over its threshold
    raises at once, and the later windows are not queried; within all
    three thresholds the caller is allowed.  The scenario of the Faculty
    defaults does not go through on this code: a user of role
    [UserRole.FACULTY] without override is resolved to 10/100/500, because
    [DEFAULT_RATE_LIMITS] is keyed by "Faculty" and looked up with the
    enum value "faculty"; the sixth request within the minute is allowed,
    and it is the eleventh that raises, for the minute, with count 10 and
    limit 10. *)
Theorem C3_window_order_and_faculty_scenario :
  (forall session user endpoint now,
     check_rate_limit_traced session user endpoint now =
       let limits := _get_rate_limits session user in
       let count d := _count_requests session (User.id user) (Some endpoint) (now - d) in
       if per_minute limits <=? count (timedelta_minutes 1) then
         (["minute"],
          exceeded "minute" (count (timedelta_minutes 1)) (per_minute limits) now)
       else if per_hour limits <=? count (timedelta_hours 1) then
         (["minute"; "hour"],
          exceeded "hour" (count (timedelta_hours 1)) (per_hour limits) now)
       else if per_day limits <=? count (timedelta_days 1) then
         (["minute"; "hour"; "day"],
          exceeded "day" (count (timedelta_days 1)) (per_day limits) now)
       else (["minute"; "hour"; "day"], CheckReturns true None))
  /\ Py.dict_lookup "Faculty" DEFAULT_RATE_LIMITS
     = Some [ ("requests_per_minute", 5); ("requests_per_hour", 50);
              ("requests_per_day", 200) ]
  /\ _get_rate_limits empty_session faculty_user = fallback_limits
  /\ fst (requests empty_session faculty_user CHAT (every_second 6))
     = repeat (CheckReturns true None) 6
  /\ fst (requests empty_session faculty_user CHAT (every_second 11))
     = repeat (CheckReturns true None) 10 ++ [exceeded "minute" 10 10 (11 * second)].
Proof.
  split; [exact check_rate_limit_traced_unrolled |].
  repeat split; vm_compute; reflexivity.
Qed.

(** C4.  Policy resolution is first match wins for its first two steps:
    the first active row keyed to the identity of the caller decides;
    failing that, the first active row keyed to the role of the caller.
    Whenever the caller-specific overrides of a caller set 1000 per day,
    the resolved limit per day is 1000 whatever the overrides of the role
    say, and a check that raises for the day carries the limit 1000.  The
    third step does not go through on this code: [DEFAULT_RATE_LIMITS]
    names the roles "Faculty", "Chair", "Dean", "Admin", "PROC" and is
    looked up with the enum value ("faculty", ...), which is none of its
    keys, so without an override every caller is resolved to the literal
    10/100/500 written in [_get_rate_limits], and a caller of role
    Faculty, Dean or Admin does not get the entry the table holds for the
    role. *)
Theorem C4_resolution_order_and_default_table :
  (forall session user c,
     first_row (user_override user) (Session.rate_limit_config session) c ->
     _get_rate_limits session user = limits_of_config c)
  /\ (forall session user c,
        (forall c', In c' (Session.rate_limit_config session) -> ~ user_override user c') ->
        first_row (role_override user) (Session.rate_limit_config session) c ->
        _get_rate_limits session user = limits_of_config c)
  /\ (forall session user,
        (exists c, In c (Session.rate_limit_config session) /\ user_override user c) ->
        (forall c, In c (Session.rate_limit_config session) -> user_override user c ->
                   RateLimitConfig.requests_per_day c = 1000) ->
        per_day (_get_rate_limits session user) = 1000
        /\ forall endpoint now e,
             check_rate_limit session user endpoint now = CheckRaises e ->
             RateLimitExceeded.limit_type e = "day" ->
             RateLimitExceeded.limit e = 1000)
  /\ (forall session user,
        (forall c, In c (Session.rate_limit_config session) -> ~ user_override user c) ->
        (forall c, In c (Session.rate_limit_config session) -> ~ role_override user c) ->
        Py.dict_lookup (UserRole_value (User.role user)) DEFAULT_RATE_LIMITS = None
        /\ _get_rate_limits session user = fallback_limits
        /\ (In (User.role user) [FACULTY; DEAN; ADMIN] ->
            exists limits,
              default_of_role (User.role user) = Some limits
              /\ _get_rate_limits session user <> limits))
  /\ default_of_role FACULTY
     = Some [ ("requests_per_minute", 5); ("requests_per_hour", 50);
              ("requests_per_day", 200) ]
  /\ _get_rate_limits empty_session faculty_user
     = [ ("requests_per_minute", 10); ("requests_per_hour", 100);
         ("requests_per_day", 500) ].
Proof.
  assert (H1 : forall session user c,
             first_row (user_override user) (Session.rate_limit_config session) c ->
             _get_rate_limits session user = limits_of_config c).
  { intros session user c Hc. unfold _get_rate_limits, first_active_config.
    pose proof (find_first_row "user" (User.id user) (Session.rate_limit_config session))
      as Hu.
    destruct (find (selects "user" (User.id user)) _) as [cu|].
    - f_equal. eapply first_row_unique; eassumption.
    - exfalso. destruct Hc as (b & a & E & Hc & _).
      apply (Hu c); [rewrite E; apply in_elt | exact Hc]. }
  assert (H0 : forall session user,
             (forall c, In c (Session.rate_limit_config session) -> ~ user_override user c) ->
             find (selects "user" (User.id user)) (Session.rate_limit_config session) = None).
  { intros session user Hno.
    pose proof (find_first_row "user" (User.id user) (Session.rate_limit_config session))
      as Hu.
    destruct (find (selects "user" (User.id user)) _) as [cu|]; [| reflexivity].
    exfalso. destruct Hu as (b & a & E & Hc & _).
    apply (Hno cu); [rewrite E; apply in_elt | exact Hc]. }
  split; [exact H1 | split; [| split; [| split]]].
  - intros session user c Hno Hc. unfold _get_rate_limits, first_active_config.
    rewrite (H0 session user Hno).
    pose proof (find_first_row "role" (UserRole_value (User.role user))
                  (Session.rate_limit_config session)) as Hr.
    destruct (find (selects "role" (UserRole_value (User.role user))) _) as [cr|].
    + f_equal. eapply first_row_unique; eassumption.
    + exfalso. destruct Hc as (b & a & E & Hc & _).
      apply (Hr c); [rewrite E; apply in_elt | exact Hc].
  - intros session user (c0 & Hin0 & Hc0) Hday.
    assert (Hfirst : exists c, first_row (user_override user)
                                 (Session.rate_limit_config session) c).
    { pose proof (find_first_row "user" (User.id user)
                    (Session.rate_limit_config session)) as Hu.
      destruct (find (selects "user" (User.id user)) _) as [cu|]; [eauto |].
      destruct (Hu c0 Hin0 Hc0). }
    destruct Hfirst as (c & Hc).
    assert (E : per_day (_get_rate_limits session user) = 1000).
    { rewrite (H1 session user c Hc). destruct Hc as (b & a & E & Hc & _).
      apply (Hday c); [rewrite E; apply in_elt | exact Hc]. }
    split; [exact E |].
    intros endpoint now e He Hty.
    destruct (check_rate_limit_raises _ _ _ _ _ He) as (_ & Hlim & _).
    rewrite Hlim, Hty. exact E.
  - intros session user Hu Hr.
    assert (Hkey : Py.dict_lookup (UserRole_value (User.role user)) DEFAULT_RATE_LIMITS = None)
      by (destruct (User.role user); reflexivity).
    assert (E : _get_rate_limits session user = fallback_limits).
    { rewrite (get_rate_limits_no_override session user Hu Hr).
      unfold Py.dict_get. rewrite Hkey. reflexivity. }
    split; [exact Hkey | split; [exact E |]].
    rewrite E. intros Hrole.
    destruct (User.role user); cbn in Hrole;
      try (exfalso; intuition discriminate);
      (eexists; split; [reflexivity | vm_compute; discriminate]).
  - split; reflexivity.
Qed.

Lemma C4_resolution_order_and_default_table_witness :
  (_get_rate_limits overrides_session faculty_user = limits_of_config user_row
   /\ per_day (_get_rate_limits overrides_session faculty_user) = 1000)
  /\ _get_rate_limits role_only_session faculty_user = limits_of_config role_row
  /\ _get_rate_limits empty_session faculty_user = fallback_limits
  /\ exists limits,
       default_of_role FACULTY = Some limits
       /\ _get_rate_limits empty_session faculty_user <> limits.
Proof.
  assert (Hrole : ~ user_override faculty_user role_row).
  { intros (_ & H & _). vm_compute in H. discriminate H. }
  assert (Huser : user_override faculty_user user_row) by (repeat split).
  destruct C4_resolution_order_and_default_table as (H1 & H2 & H3 & H4 & _).
  split; [split | split; [| split]].
  - apply (H1 overrides_session faculty_user).
    exists [role_row], []. repeat split.
    intros c' [<- | []]. exact Hrole.
  - apply (H3 overrides_session faculty_user).
    + exists user_row. split; [right; left; reflexivity | exact Huser].
    + intros c [<- | [<- | []]] Hc; [destruct (Hrole Hc) | reflexivity].
  - apply (H2 role_only_session faculty_user).
    + intros c [<- | []]. exact Hrole.
    + exists [], []. repeat split. intros c' [].
  - apply (H4 empty_session faculty_user); intros c [].
  - apply (H4 empty_session faculty_user); [intros c [] | intros c [] |].
    left. reflexivity.
Defined.

(** The query of [_count_requests] counts the events of the caller at or
    after [since] whatever their endpoint: the counts of the caller on each
    endpoint, added up. *)
Lemma count_requests_all_endpoints (session : Session.t) (user_id : string)
    (endpoint : option AIEndpoint) (since : Z) :
  _count_requests session user_id endpoint since
  = count_caller_since session user_id since.
Proof.
  unfold _count_requests, count_caller_since, count_caller_endpoint_since,
    all_endpoints, counted.
  cbn [map fold_right].
  induction (Session.ai_usage session) as [|u usage IH]; [reflexivity |].
  cbn [filter].
  destruct (String.eqb (AIUsage.user_id u) user_id); cbn [andb]; [| exact IH].
  destruct (since <=? AIUsage.request_timestamp u); [| rewrite !andb_false_r; exact IH].
  rewrite !andb_true_r.
  destruct (AIUsage.endpoint u); cbn [AIEndpoint_eqb List.length]; lia.
Qed.

(** When no event of the caller is stamped after [now], the events at or
    after the start of a window are the events within the window. *)
Lemma count_caller_window_since (session : Session.t) (user_id : string)
    (since now : Z) :
  (forall u, In u (Session.ai_usage session) -> AIUsage.user_id u = user_id ->
             AIUsage.request_timestamp u <= now) ->
  count_caller_window session user_id since now
  = count_caller_since session user_id since.
Proof.
  intros Hts.
  unfold count_caller_window, count_caller_since, count_caller_endpoint_window,
    count_caller_endpoint_since.
  assert (E : forall e,
             filter (fun u => String.eqb (AIUsage.user_id u) user_id
                              && AIEndpoint_eqb (AIUsage.endpoint u) e
                              && (since <=? AIUsage.request_timestamp u)
                              && (AIUsage.request_timestamp u <=? now))
                    (Session.ai_usage session)
             = filter (fun u => String.eqb (AIUsage.user_id u) user_id
                                && AIEndpoint_eqb (AIUsage.endpoint u) e
                                && (since <=? AIUsage.request_timestamp u))
                      (Session.ai_usage session)).
  { intros e. apply filter_ext_in. intros u Hin.
    destruct (String.eqb_spec (AIUsage.user_id u) user_id) as [Hid | _]; [| reflexivity].
    assert (Hu : (AIUsage.request_timestamp u <=? now) = true)
      by (apply Z.leb_le, Hts; assumption).
    rewrite Hu, andb_true_r. reflexivity. }
  unfold all_endpoints. cbn [map fold_right]. rewrite !E. reflexivity.
Qed.

(** C5, as the code has it.  The count compared against the threshold of
    a window is the number of events of the caller, on any endpoint,
    stamped at or after the start of the window: the check is the
    comparison of these counts with the thresholds, window after window,
    and the endpoint of the check takes no part in it.  The query has no
    upper end; when no event of the caller is stamped after [now], the
    count is the number of events of the caller within the trailing
    window, on all endpoints together. *)
Theorem C5_count_is_per_caller_over_all_endpoints
    (session : Session.t) (user : User.t) (endpoint : AIEndpoint) (now : Z) :
  (forall since,
     _count_requests session (User.id user) (Some endpoint) since
     = count_caller_since session (User.id user) since)
  /\ check_rate_limit session user endpoint now
     = (let limits := _get_rate_limits session user in
        let count d := count_caller_since session (User.id user) (now - d) in
        if per_minute limits <=? count (timedelta_minutes 1) then
          exceeded "minute" (count (timedelta_minutes 1)) (per_minute limits) now
        else if per_hour limits <=? count (timedelta_hours 1) then
          exceeded "hour" (count (timedelta_hours 1)) (per_hour limits) now
        else if per_day limits <=? count (timedelta_days 1) then
          exceeded "day" (count (timedelta_days 1)) (per_day limits) now
        else CheckReturns true None)
  /\ (forall endpoint',
        check_rate_limit session user endpoint' now
        = check_rate_limit session user endpoint now)
  /\ (forall e,
        check_rate_limit session user endpoint now = CheckRaises e ->
        RateLimitExceeded.current_count e
        = count_caller_since session (User.id user)
            (now - window_duration (RateLimitExceeded.limit_type e)))
  /\ ((forall u, In u (Session.ai_usage session) ->
                 AIUsage.user_id u = User.id user ->
                 AIUsage.request_timestamp u <= now) ->
      (forall since,
         _count_requests session (User.id user) (Some endpoint) since
         = count_caller_window session (User.id user) since now)
      /\ forall e,
           check_rate_limit session user endpoint now = CheckRaises e ->
           RateLimitExceeded.current_count e
           = count_caller_window session (User.id user)
               (now - window_duration (RateLimitExceeded.limit_type e)) now).
Proof.
  assert (Hcheck : forall ep,
             check_rate_limit session user ep now
             = (let limits := _get_rate_limits session user in
                let count d := count_caller_since session (User.id user) (now - d) in
                if per_minute limits <=? count (timedelta_minutes 1) then
                  exceeded "minute" (count (timedelta_minutes 1)) (per_minute limits) now
                else if per_hour limits <=? count (timedelta_hours 1) then
                  exceeded "hour" (count (timedelta_hours 1)) (per_hour limits) now
                else if per_day limits <=? count (timedelta_days 1) then
                  exceeded "day" (count (timedelta_days 1)) (per_day limits) now
                else CheckReturns true None)).
  { intros ep. unfold check_rate_limit. rewrite check_rate_limit_traced_unrolled.
    cbv beta zeta. rewrite !count_requests_all_endpoints.
    repeat match goal with
           | |- context [if ?c then _ else _] => destruct c
           end; reflexivity. }
  assert (Hraise : forall e,
             check_rate_limit session user endpoint now = CheckRaises e ->
             RateLimitExceeded.current_count e
             = count_caller_since session (User.id user)
                 (now - window_duration (RateLimitExceeded.limit_type e))).
  { intros e He.
    destruct (check_rate_limit_raises _ _ _ _ _ He) as (_ & _ & Hcount & _).
    rewrite Hcount. apply count_requests_all_endpoints. }
  split; [intros since; apply count_requests_all_endpoints |].
  split; [apply Hcheck |].
  split; [intros endpoint'; rewrite !Hcheck; reflexivity |].
  split; [exact Hraise |].
  intros Hts. split.
  - intros since. rewrite count_requests_all_endpoints.
    symmetry. apply count_caller_window_since, Hts.
  - intros e He. rewrite (Hraise e He).
    symmetry. apply count_caller_window_since, Hts.
Qed.

Lemma C5_count_is_per_caller_over_all_endpoints_witness :
  _count_requests chat_event_session (User.id faculty_user) (Some ANALYZE) 0
  = count_caller_window chat_event_session (User.id faculty_user) 0 (20 * second).
Proof.
  apply (proj1 (proj2 (proj2 (proj2 (proj2
           (C5_count_is_per_caller_over_all_endpoints
              chat_event_session faculty_user ANALYZE (20 * second)))))
           ltac:(intros u [<- | []] _; vm_compute; discriminate))).
Defined.

(** C5, as stated, fails, on both of its scopes.  An event of the caller
    on the chat endpoint is counted by a check of the analyze endpoint,
    where the count scoped to caller and endpoint is 0.  And an event of
    the caller stamped at second 90 is counted by a check at second 20,
    though it does not lie within the minute that ends at second 20. *)
Lemma C5_counterexample :
  (_count_requests chat_event_session (User.id faculty_user) (Some ANALYZE)
     (20 * second - timedelta_minutes 1) = 1
   /\ count_caller_endpoint_window chat_event_session (User.id faculty_user) ANALYZE
        (20 * second - timedelta_minutes 1) (20 * second) = 0
   /\ _count_requests chat_event_session (User.id faculty_user) (Some ANALYZE)
        (20 * second - timedelta_minutes 1)
      <> count_caller_endpoint_window chat_event_session (User.id faculty_user) ANALYZE
           (20 * second - timedelta_minutes 1) (20 * second))
  /\ (_count_requests late_event_session (User.id faculty_user) (Some ANALYZE)
        (20 * second - timedelta_minutes 1) = 1
      /\ count_caller_endpoint_window late_event_session (User.id faculty_user) ANALYZE
           (20 * second - timedelta_minutes 1) (20 * second) = 0
      /\ count_caller_window late_event_session (User.id faculty_user)
           (20 * second - timedelta_minutes 1) (20 * second) = 0).
Proof. split; repeat split. vm_compute. discriminate. Qed.

(** C6, as the code has it.  With no active override and a role value
    that is not a key of [DEFAULT_RATE_LIMITS], resolution returns the
    fallback 10/100/500.  The fallback is at most every entry of the table
    but the one of "Faculty", which is lower on each threshold. *)
Theorem C6_unrecognized_role_gets_fallback (session : Session.t) (user : User.t) :
  (forall c, In c (Session.rate_limit_config session) -> ~ user_override user c) ->
  (forall c, In c (Session.rate_limit_config session) -> ~ role_override user c) ->
  Py.dict_lookup (UserRole_value (User.role user)) DEFAULT_RATE_LIMITS = None ->
  _get_rate_limits session user = fallback_limits
  /\ (forall r limits, In (r, limits) DEFAULT_RATE_LIMITS -> r <> "Faculty" ->
        limits_le (_get_rate_limits session user) limits)
  /\ (forall limits, In ("Faculty", limits) DEFAULT_RATE_LIMITS ->
        per_minute limits < per_minute (_get_rate_limits session user)
        /\ per_hour limits < per_hour (_get_rate_limits session user)
        /\ per_day limits < per_day (_get_rate_limits session user)).
Proof.
  intros Hu Hr Hrole.
  assert (E : _get_rate_limits session user = fallback_limits).
  { rewrite (get_rate_limits_no_override session user Hu Hr).
    unfold Py.dict_get. rewrite Hrole. reflexivity. }
  rewrite E. split; [reflexivity | split].
  - intros r limits Hin Hne. cbn in Hin.
    repeat (destruct Hin as [Hin | Hin];
            [injection Hin as <- <-; try congruence; vm_compute; repeat split; discriminate |]).
    destruct Hin.
  - intros limits Hin. cbn in Hin.
    repeat (destruct Hin as [Hin | Hin];
            [try discriminate Hin; injection Hin as <-; vm_compute; repeat split |]).
    destruct Hin.
Qed.

Lemma C6_unrecognized_role_gets_fallback_witness :
  _get_rate_limits empty_session chair_user = fallback_limits
  /\ limits_le (_get_rate_limits empty_session chair_user)
       [ ("requests_per_minute", 15); ("requests_per_hour", 150);
         ("requests_per_day", 750) ].
Proof.
  pose proof (C6_unrecognized_role_gets_fallback empty_session chair_user
                ltac:(intros c []) ltac:(intros c []) eq_refl) as (E & Hle & _).
  split; [exact E |].
  apply (Hle "Dean").
  - right; right; left; reflexivity.
  - discriminate.
Defined.

(** C6, as stated, fails: the role value "chair" is not a key of the
    table, no override is configured, and the thresholds returned,
    10/100/500, are not at most those of the entry of "Faculty",
    5/50/200. *)
Lemma C6_counterexample :
  Py.dict_lookup (UserRole_value (User.role chair_user)) DEFAULT_RATE_LIMITS = None
  /\ In ("Faculty", [ ("requests_per_minute", 5); ("requests_per_hour", 50);
                      ("requests_per_day", 200) ]) DEFAULT_RATE_LIMITS
  /\ ~ limits_le (_get_rate_limits empty_session chair_user)
         [ ("requests_per_minute", 5); ("requests_per_hour", 50);
           ("requests_per_day", 200) ].
Proof.
  split; [reflexivity | split; [left; reflexivity |]].
  intros (Hm & _). vm_compute in Hm. apply Hm. reflexivity.
Qed.

(** C8.  A raised [RateLimitExceeded] carries the violated window, the
    count, the limit and a reset time, but the reset time is
    [window_start + duration], that is the time of the check itself, and
    not the time at which the oldest counted event leaves the window.
    With ten events of a caller at seconds 0 to 9 and a check at second
    30, the exception for the minute carries the reset time second 30; the
    oldest counted event leaves the window at second 60. *)
Theorem C8_reset_time_is_time_of_check :
  (forall session user endpoint now,
     match check_rate_limit session user endpoint now with
     | CheckRaises e => RateLimitExceeded.reset_time e = now
     | CheckReturns _ _ => True
     end)
  /\ check_rate_limit ten_events_session chair_user ANALYZE (30 * second)
     = exceeded "minute" 10 10 (30 * second)
  /\ match check_rate_limit ten_events_session chair_user ANALYZE (30 * second),
           oldest_counted ten_events_session (User.id chair_user)
             (30 * second - timedelta_minutes 1)
     with
     | CheckRaises e, Some oldest =>
         RateLimitExceeded.reset_time e = 30 * second
         /\ oldest + timedelta_minutes 1 = 60 * second
         /\ RateLimitExceeded.reset_time e <> oldest + timedelta_minutes 1
     | _, _ => False
     end.
Proof.
  split.
  - intros session user endpoint now.
    destruct (check_rate_limit session user endpoint now) as [a m | e] eqn:He; [exact I |].
    apply (check_rate_limit_raises _ _ _ _ _ He).
  - split; [vm_compute; reflexivity |].
    vm_compute. repeat split. discriminate.
Qed.

End RateLimiterClaims.

(** * The response cache: capacity, eviction, expiry, replacement *)

Section CacheClaims.
Import OrderedDict AICache Spec Inputs.

(** The scenario with a capacity of two, for any three requests with
    distinct keys. *)
Lemma lru_scenario {lib : PyLib}
    (eA eB eC : string) (pA pB pC vA vB vC : Py.value) (uA uB uC : option string)
    (ttlA ttlB ttlC : option Z) (tA tB tR tR' tC : Z) :
  _generate_key eA pA uA <> _generate_key eB pB uB ->
  _generate_key eA pA uA <> _generate_key eC pC uC ->
  _generate_key eB pB uB <> _generate_key eC pC uC ->
  tR <= tA + ttl_or_default eA ttlA ->
  exists c,
    run [ OpSet eA pA vA ttlA uA tA; OpSet eB pB vB ttlB uB tB;
          OpGet eA pA uA tR tR'; OpSet eC pC vC ttlC uC tC ] (init 2) = Some c
    /\ _cache c = [ (_generate_key eA pA uA, touched tR' (new_entry eA vA ttlA tA));
                    (_generate_key eC pC uC, new_entry eC vC ttlC tC) ]
    /\ CacheStats.evictions (_stats c) = 1.
Proof.
  intros HAB HAC HBC Hlive.
  apply String.eqb_neq in HAB, HAC, HBC.
  pose (kA := _generate_key eA pA uA). pose (kB := _generate_key eB pB uB).
  pose (kC := _generate_key eC pC uC).
  pose (nA := new_entry eA vA ttlA tA). pose (nB := new_entry eB vB ttlB tB).
  pose (nC := new_entry eC vC ttlC tC).
  pose (c1 := mk 2 [(kA, nA)] (CacheStats.mk 0 0 0 1 2)).
  pose (c2 := mk 2 [(kA, nA); (kB, nB)] (CacheStats.mk 0 0 0 2 2)).
  pose (c3 := mk 2 [(kB, nB); (kA, touched tR' nA)] (CacheStats.mk 1 0 0 2 2)).
  pose (c4 := mk 2 [(kA, touched tR' nA); (kC, nC)] (CacheStats.mk 1 0 1 2 2)).
  assert (S1 : set (init 2) eA pA vA ttlA uA tA = Some (kA, c1)).
  { rewrite set_new; [reflexivity | reflexivity | cbn; lia | cbn; lia]. }
  assert (S2 : set c1 eB pB vB ttlB uB tB = Some (kB, c2)).
  { rewrite set_new; [reflexivity | | cbn; lia | cbn; lia].
    unfold contains. cbn. fold kA kB. unfold kA, kB. rewrite HAB. reflexivity. }
  assert (S3 : get c2 eA pA uA tR tR' = (Some vA, c3)).
  { rewrite (get_hit c2 eA pA uA tR tR' nA); [| | exact Hlive].
    - cbn [_cache c2 delitem]. fold kA. rewrite String.eqb_refl. reflexivity.
    - unfold getitem. cbn. fold kA. rewrite String.eqb_refl. reflexivity. }
  assert (S4 : set c3 eC pC vC ttlC uC tC = Some (kC, c4)).
  { rewrite set_new; [reflexivity | | cbn; lia | cbn; lia].
    unfold contains. cbn. unfold kA, kB. rewrite HBC, HAC. reflexivity. }
  exists c4. cbn [run step]. rewrite S1. cbn [option_map snd]. rewrite S2.
  cbn [option_map snd]. rewrite S3. cbn [snd]. rewrite S4. cbn [option_map snd].
  repeat split.
Qed.

(** C1.  From the empty cache of capacity [C >= 1], every sequence of
    calls returns and leaves at most [C] entries.  A [set] of a new key on
    a full cache evicts exactly one entry, the one at the front: it leaves
    the cache, the eviction counter goes up by one, every other entry
    stays, and under a clock that does not go back no entry that stays was
    last accessed before the evicted one.  With capacity 2, insert A,
    insert B, read A, insert C leaves exactly A and C. *)
Theorem C1_capacity_and_lru_eviction {lib : PyLib} :
  (forall C, 1 <= C ->
     (forall ops, exists c, run ops (init C) = Some c /\ len (_cache c) <= C)
     /\ (forall ops t0 c e p v ttl u now,
           clock_ok t0 ops = true ->
           run ops (init C) = Some c ->
           len (_cache c) = C ->
           contains (_generate_key e p u) (_cache c) = false ->
           exists k0 e0 rest c',
             _cache c = (k0, e0) :: rest
             /\ set c e p v ttl u now = Some (_generate_key e p u, c')
             /\ _cache c' = rest ++ [(_generate_key e p u, new_entry e v ttl now)]
             /\ CacheStats.evictions (_stats c') = CacheStats.evictions (_stats c) + 1
             /\ len (_cache c') = C
             /\ contains k0 (_cache c') = false
             /\ (forall kv, In kv rest ->
                   In kv (_cache c')
                   /\ CacheEntry.last_accessed e0 <= CacheEntry.last_accessed (snd kv))))
  /\ (forall eA eB eC pA pB pC vA vB vC uA uB uC ttlA ttlB ttlC tA tB tR tR' tC,
        _generate_key eA pA uA <> _generate_key eB pB uB ->
        _generate_key eA pA uA <> _generate_key eC pC uC ->
        _generate_key eB pB uB <> _generate_key eC pC uC ->
        tR <= tA + ttl_or_default eA ttlA ->
        exists c,
          run [ OpSet eA pA vA ttlA uA tA; OpSet eB pB vB ttlB uB tB;
                OpGet eA pA uA tR tR'; OpSet eC pC vC ttlC uC tC ] (init 2) = Some c
          /\ keys (_cache c) = [_generate_key eA pA uA; _generate_key eC pC uC]).
Proof.
  split.
  - intros C HC.
    assert (Hinit : wf (init C)) by (apply wf_init; lia).
    split.
    + intros ops. destruct (run_wf ops (init C) HC Hinit) as (c & Hrun & Hwf & Hm).
      exists c. split; [exact Hrun |]. destruct Hwf as (_ & Hlen & _).
      rewrite Hm in Hlen. exact Hlen.
    + intros ops t0 c e p v ttl u now Hclk Hrun Hfull Hnew.
      destruct (run_wf ops (init C) HC Hinit) as (c1 & Hrun1 & Hwf & Hm).
      rewrite Hrun in Hrun1. injection Hrun1 as <-. cbn [max_size init] in Hm.
      assert (Hlru0 : lru_ordered t0 (init C)) by (split; constructor).
      destruct (run_lru ops t0 (init C) c HC Hinit Hlru0 Hclk Hrun) as (t' & Hs & _).
      pose proof Hwf as (Hnd & Hlen & _).
      destruct (_cache c) as [|[k0 e0] rest] eqn:E;
        [unfold len in Hfull; cbn in Hfull; lia |].
      assert (Hset := set_new c e p v ttl u now).
      rewrite E, Hm in Hset. specialize (Hset Hnew ltac:(lia) ltac:(lia)).
      rewrite Hfull, Z.leb_refl in Hset. cbn [tl] in Hset.
      eexists k0, e0, rest, _. split; [reflexivity |]. split; [exact Hset |].
      cbn [_cache _stats CacheStats.evictions].
      split; [reflexivity |]. split; [reflexivity |].
      split; [| split].
      * unfold len in *. rewrite length_app. cbn in *. lia.
      * apply contains_false_keys. apply contains_false_keys in Hnew.
        cbn in Hnd. inversion Hnd as [|? ? Hk0 _]; subst.
        unfold keys. rewrite map_app, in_app_iff. cbn.
        intros [Hin | [Heq | []]]; [exact (Hk0 Hin) |].
        apply Hnew. left. symmetry. exact Heq.
      * intros kv Hin. split; [apply in_or_app; left; exact Hin |].
        inversion Hs as [|? ? _ Hall]; subst.
        rewrite Forall_forall in Hall. apply (Hall kv Hin).
  - intros eA eB eC pA pB pC vA vB vC uA uB uC ttlA ttlB ttlC tA tB tR tR' tC
           HAB HAC HBC Hlive.
    destruct (lru_scenario eA eB eC pA pB pC vA vB vC uA uB uC ttlA ttlB ttlC
                tA tB tR tR' tC HAB HAC HBC Hlive) as (c & Hrun & Hc & _).
    exists c. split; [exact Hrun |]. rewrite Hc. reflexivity.
Qed.

(** C2.  [get] never returns an expired entry.  On an entry whose
    [expires_at] has passed it returns [None], counts a miss and no hit,
    and removes the entry; what it returns is the value of an entry that
    has not expired.  An entry stored with [ttl > 1] at [t0] is, after any
    calls that do not store under its key again and as long as it is in
    the cache, returned at [t0 + 1] and absent at [t0 + ttl + 1]. *)
Theorem C2_expired_entry_is_never_returned {lib : PyLib} :
  (forall c e p u t1 t2 entry,
     getitem (_generate_key e p u) (_cache c) = Some entry ->
     CacheEntry.expires_at entry < t1 ->
     exists c',
       get c e p u t1 t2 = (None, c')
       /\ CacheStats.misses (_stats c') = CacheStats.misses (_stats c) + 1
       /\ CacheStats.hits (_stats c') = CacheStats.hits (_stats c)
       /\ _cache c' = delitem (_generate_key e p u) (_cache c)
       /\ (NoDup (keys (_cache c)) -> contains (_generate_key e p u) (_cache c') = false))
  /\ (forall c e p u t1 t2 v,
        fst (get c e p u t1 t2) = Some v ->
        exists entry,
          getitem (_generate_key e p u) (_cache c) = Some entry
          /\ CacheEntry.value entry = v
          /\ t1 <= CacheEntry.expires_at entry)
  /\ (forall c e p v ttl u t0,
        1 <= max_size c -> wf c -> 1 < ttl ->
        exists c1,
          set c e p v (Some ttl) u t0 = Some (_generate_key e p u, c1)
          /\ (forall ops c2 t2 t2',
                forallb (fun o => negb (op_stores (_generate_key e p u) o)) ops = true ->
                run ops c1 = Some c2 ->
                contains (_generate_key e p u) (_cache c2) = true ->
                fst (get c2 e p u (t0 + 1) t2) = Some v
                /\ fst (get c2 e p u (t0 + ttl + 1) t2') = None)).
Proof.
  split; [| split].
  - intros c e p u t1 t2 entry L Hexp.
    rewrite (get_expired c e p u t1 t2 entry L Hexp).
    eexists. split; [reflexivity |]. cbn.
    repeat split. intros Hnd. apply contains_false_keys, delitem_removes, Hnd.
  - intros c e p u t1 t2 v.
    destruct (getitem (_generate_key e p u) (_cache c)) as [entry|] eqn:L.
    + destruct (Z_lt_le_dec (CacheEntry.expires_at entry) t1) as [Hexp | Hlive].
      * rewrite (get_expired c e p u t1 t2 entry L Hexp). discriminate.
      * rewrite (get_hit c e p u t1 t2 entry L Hlive). cbn [fst]. intros [= <-].
        exists entry. repeat split. exact Hlive.
    + rewrite get_miss; [discriminate |].
      unfold contains. unfold getitem in L. rewrite L. reflexivity.
  - intros c e p v ttl u t0 Hmax Hwf Httl.
    destruct (set_stores c e p v (Some ttl) u t0 Hmax Hwf) as (c1 & Hset & L).
    exists c1. split; [exact Hset |].
    destruct (step_wf (OpSet e p v (Some ttl) u t0) c Hmax Hwf) as (c1' & E & Hwf1 & Hm1).
    cbn [step] in E. rewrite Hset in E. injection E as <-.
    intros ops c2 t2 t2' Hops Hrun Hin.
    pose proof (run_keeps_entry ops _ c1 c2 ltac:(lia) Hwf1 Hops Hrun) as K.
    rewrite L in K. unfold contains in Hin. unfold getitem in K.
    destruct (Py.dict_lookup (_generate_key e p u) (_cache c2)) as [entry|] eqn:L2;
      [| discriminate].
    destruct K as (Kv & _ & Kx). cbn in Kv, Kx. split.
    + rewrite (get_hit c2 e p u (t0 + 1) t2 _ L2); [cbn; congruence | lia].
    + rewrite (get_expired c2 e p u (t0 + ttl + 1) t2' _ L2); [reflexivity | lia].
Qed.

(** C10.  A [set] under a key that is present replaces the entry and
    moves it to the back, and evicts nothing: the other entries keep their
    binding and their order, the number of entries and all the counters
    are unchanged, whatever the fill of the cache. *)
Theorem C10_set_of_present_key_replaces_in_place {lib : PyLib}
    (c : AICache.t) (e : string) (p v : Py.value) (ttl : option Z)
    (u : option string) (now : Z) :
  NoDup (keys (_cache c)) ->
  contains (_generate_key e p u) (_cache c) = true ->
  exists c',
    set c e p v ttl u now = Some (_generate_key e p u, c')
    /\ _cache c'
       = delitem (_generate_key e p u) (_cache c)
           ++ [(_generate_key e p u, new_entry e v ttl now)]
    /\ getitem (_generate_key e p u) (_cache c') = Some (new_entry e v ttl now)
    /\ (forall k', k' <> _generate_key e p u ->
          getitem k' (_cache c') = getitem k' (_cache c))
    /\ len (_cache c') = len (_cache c)
    /\ _stats c' = _stats c
    /\ max_size c' = max_size c.
Proof.
  intros Hnd Hc. rewrite (set_existing c e p v ttl u now Hc).
  eexists. split; [reflexivity |]. cbn [_cache _stats max_size].
  split; [reflexivity |]. split; [| split; [| split]].
  - apply lookup_app_new, delitem_removes, Hnd.
  - intros k' Hne. unfold getitem.
    rewrite lookup_app_other by exact Hne. apply lookup_delitem_other, Hne.
  - pose proof (length_delitem _ _ Hc) as Hl.
    unfold len. rewrite length_app. cbn. lia.
  - destruct (_stats c). split; reflexivity.
Qed.

(** C9.  [invalidate_by_endpoint] selects the entries whose value is a
    [dict] that binds "_endpoint" to the endpoint; [set] stores the value
    it is given and records the endpoint nowhere but in the digest.  An
    entry stored under the analyze endpoint is therefore not removed by
    [invalidate_by_endpoint("analyze")], which returns 0; and on a cache
    that holds a value that is not a [dict] the call raises. *)
Theorem C9_invalidate_by_endpoint_misses_stored_entries {lib : PyLib} :
  (exists c1,
     set (init 10) "analyze" payload_A (response 1) None None 1
     = Some (_generate_key "analyze" payload_A None, c1)
     /\ keys (_cache c1) = [_generate_key "analyze" payload_A None]
     /\ invalidate_by_endpoint c1 "analyze" = (Returns 0, c1))
  /\ (exists c2,
        set (init 10) "chat" payload_A (Py.VStr "hello") None None 1
        = Some (_generate_key "chat" payload_A None, c2)
        /\ invalidate_by_endpoint c2 "chat" = (Raises "AttributeError", c2)).
Proof.
  split.
  - eexists. split; [| split].
    + rewrite set_new; [reflexivity | reflexivity | cbn; lia | cbn; lia].
    + reflexivity.
    + reflexivity.
  - eexists. split.
    + rewrite set_new; [reflexivity | reflexivity | cbn; lia | cbn; lia].
    + reflexivity.
Qed.

End CacheClaims.

Section CacheWitnesses.
Import OrderedDict AICache Spec Inputs.

Lemma C1_capacity_and_lru_eviction_witness :
  (exists c, run (lib := plain_lib) scenario_ops (init 2) = Some c /\ len (_cache c) <= 2)
  /\ (exists c,
        run (lib := plain_lib) (firstn 2 scenario_ops) (init 2) = Some c
        /\ exists k0 e0 rest c',
             _cache c = (k0, e0) :: rest
             /\ set (lib := plain_lib) c "analyze" payload_C (response 3) None None 4
                = Some (_generate_key (lib := plain_lib) "analyze" payload_C None, c')
             /\ _cache c'
                = rest ++ [(_generate_key (lib := plain_lib) "analyze" payload_C None,
                            new_entry "analyze" (response 3) None 4)]
             /\ CacheStats.evictions (_stats c') = CacheStats.evictions (_stats c) + 1
             /\ len (_cache c') = 2
             /\ contains k0 (_cache c') = false
             /\ (forall kv, In kv rest ->
                   In kv (_cache c')
                   /\ CacheEntry.last_accessed e0 <= CacheEntry.last_accessed (snd kv)))
  /\ (exists c,
        run (lib := plain_lib) scenario_ops (init 2) = Some c
        /\ keys (_cache c)
           = [ _generate_key (lib := plain_lib) "analyze" payload_A None;
               _generate_key (lib := plain_lib) "analyze" payload_C None ]).
Proof.
  split; [| split].
  - apply (proj1 (proj1 (C1_capacity_and_lru_eviction (lib := plain_lib)) 2 ltac:(lia))).
  - eexists. split; [vm_compute; reflexivity |].
    apply (proj2 (proj1 (C1_capacity_and_lru_eviction (lib := plain_lib)) 2 ltac:(lia))
             (firstn 2 scenario_ops) 0); vm_compute; reflexivity.
  - apply (proj2 (C1_capacity_and_lru_eviction (lib := plain_lib))
             "analyze" "analyze" "analyze" payload_A payload_B payload_C
             (response 1) (response 2) (response 3) None None None None None None
             1 2 3 3 4);
      vm_compute; discriminate.
Defined.

Lemma C2_expired_entry_is_never_returned_witness :
  (exists c',
     get (lib := plain_lib) full_cache "analyze" payload_A None 3602 3602 = (None, c')
     /\ CacheStats.misses (_stats c') = CacheStats.misses (_stats full_cache) + 1
     /\ CacheStats.hits (_stats c') = CacheStats.hits (_stats full_cache)
     /\ _cache c'
        = delitem (_generate_key (lib := plain_lib) "analyze" payload_A None)
            (_cache full_cache)
     /\ (NoDup (keys (_cache full_cache)) ->
         contains (_generate_key (lib := plain_lib) "analyze" payload_A None) (_cache c')
         = false))
  /\ (exists entry,
        getitem (_generate_key (lib := plain_lib) "analyze" payload_A None)
          (_cache full_cache) = Some entry
        /\ CacheEntry.value entry = response 1
        /\ 3601 <= CacheEntry.expires_at entry)
  /\ (exists c1 c2,
        set (lib := plain_lib) (init 10) "chat" payload_B (response 2) (Some 5) None 100
        = Some (_generate_key (lib := plain_lib) "chat" payload_B None, c1)
        /\ run (lib := plain_lib) [OpSet "chat" payload_C (response 3) None None 100] c1
           = Some c2
        /\ fst (get (lib := plain_lib) c2 "chat" payload_B None (100 + 1) 101)
           = Some (response 2)
        /\ fst (get (lib := plain_lib) c2 "chat" payload_B None (100 + 5 + 1) 106) = None).
Proof.
  split; [| split].
  - apply (proj1 (C2_expired_entry_is_never_returned (lib := plain_lib))
             full_cache "analyze" payload_A None 3602 3602
             (new_entry "analyze" (response 1) None 1)).
    + vm_compute. reflexivity.
    + vm_compute. reflexivity.
  - apply (proj1 (proj2 (C2_expired_entry_is_never_returned (lib := plain_lib)))
             full_cache "analyze" payload_A None 3601 3601 (response 1)).
    vm_compute. reflexivity.
  - destruct (proj2 (proj2 (C2_expired_entry_is_never_returned (lib := plain_lib)))
                (init 10) "chat" payload_B (response 2) 5 None 100)
      as (c1 & Hset & Hlater).
    + vm_compute. discriminate.
    + repeat split; cbn; [constructor | lia].
    + lia.
    + assert (Hc1 : Some (_generate_key (lib := plain_lib) "chat" payload_B None, c1)
                    = set (lib := plain_lib) (init 10) "chat" payload_B (response 2)
                        (Some 5) None 100) by (symmetry; exact Hset).
      vm_compute in Hc1. injection Hc1 as ->.
      eexists _, _. split; [vm_compute; reflexivity |].
      split; [vm_compute; reflexivity |].
      apply (Hlater [OpSet "chat" payload_C (response 3) None None 100]);
        vm_compute; reflexivity.
Defined.

Lemma C10_set_of_present_key_replaces_in_place_witness :
  exists c',
    set (lib := plain_lib) full_cache "analyze" payload_A (response 7) (Some 60) None 9
    = Some (_generate_key (lib := plain_lib) "analyze" payload_A None, c')
    /\ _cache c'
       = [ (_generate_key (lib := plain_lib) "analyze" payload_A None,
            new_entry "analyze" (response 7) (Some 60) 9) ]
    /\ len (_cache c') = max_size full_cache
    /\ _stats c' = _stats full_cache.
Proof.
  destruct (C10_set_of_present_key_replaces_in_place (lib := plain_lib)
              full_cache "analyze" payload_A (response 7) (Some 60) None 9)
    as (c' & Hset & Hcache & _ & _ & Hlen & Hstats & _).
  - repeat constructor. intros [].
  - vm_compute. reflexivity.
  - exists c'. split; [exact Hset |]. split; [| split; [| exact Hstats]].
    + rewrite Hcache. cbn [full_cache _cache delitem]. rewrite String.eqb_refl. reflexivity.
    + rewrite Hlen. reflexivity.
Defined.

End CacheWitnesses.

(** * The fingerprint of a request *)

Section FingerprintClaims.
Import OrderedDict AICache Spec Inputs.

(** C7.  The key of a request is a function of the endpoint, the payload
    and the caller, and does not depend on the order of the fields of the
    payload: payloads that are equal as unordered structures, at any
    depth, get the same key.  The text that is digested lists the members
    in the order of their keys.  The caller is part of it only when a
    caller that is not empty is passed, and the wrapper of
    [cached_ai_response] passes none unless [include_user] is set. *)
Theorem C7_fingerprint_is_order_independent {lib : PyLib} :
  (forall endpoint user_id p1 p2,
     Py.wf_value p1 -> Py.value_equiv p1 p2 ->
     _generate_key endpoint p1 user_id = _generate_key endpoint p2 user_id)
  /\ (forall endpoint p,
        _generate_key endpoint p None
        = sha256_hexdigest
            ("{" ++ Py.join ", "
                      [ encode_basestring_ascii "data" ++ ": " ++ Py.dumps p;
                        encode_basestring_ascii "endpoint" ++ ": "
                          ++ encode_basestring_ascii endpoint ]
                 ++ "}")%string
        /\ _generate_key endpoint p (Some "") = _generate_key endpoint p None)
  /\ (forall endpoint p u,
        u <> "" ->
        _generate_key endpoint p (Some u)
        = sha256_hexdigest
            ("{" ++ Py.join ", "
                      [ encode_basestring_ascii "data" ++ ": " ++ Py.dumps p;
                        encode_basestring_ascii "endpoint" ++ ": "
                          ++ encode_basestring_ascii endpoint;
                        encode_basestring_ascii "user_id" ++ ": "
                          ++ encode_basestring_ascii u ]
                 ++ "}")%string)
  /\ (forall endpoint p u1 u2,
        _generate_key endpoint p (cached_ai_response_user_id false u1)
        = _generate_key endpoint p (cached_ai_response_user_id false u2)).
Proof.
  split; [| split; [| split]].
  - intros endpoint user_id p1 p2 Hwf Heq.
    pose proof (dumps_equiv p1 Hwf p2 Heq) as E.
    unfold _generate_key.
    destruct user_id as [u|]; [destruct (String.eqb u "") |];
      cbn [Py.dumps map fst snd setitem contains Py.dict_lookup String.eqb Ascii.eqb
             Bool.eqb replace app];
      rewrite E; reflexivity.
  - intros endpoint p. split; reflexivity.
  - intros endpoint p u Hu. unfold _generate_key.
    apply String.eqb_neq in Hu. rewrite Hu. reflexivity.
  - intros endpoint p u1 u2. reflexivity.
Qed.

End FingerprintClaims.

Section FingerprintWitness.
Import OrderedDict AICache Spec Inputs.

Lemma C7_fingerprint_is_order_independent_witness :
  _generate_key (lib := plain_lib) "analyze" payload_nested (Some "u-17")
  = _generate_key (lib := plain_lib) "analyze" payload_nested_reordered
      (Some "u-17")
  /\ _generate_key (lib := plain_lib) "analyze" payload_nested (Some "u-17")
     <> _generate_key (lib := plain_lib) "analyze" payload_nested None.
Proof.
  split.
  - apply (proj1 (C7_fingerprint_is_order_independent (lib := plain_lib))).
    + repeat first [ apply Py.wf_VDict | apply Py.wf_VList | apply Py.wf_VStr
                   | apply Py.wf_VInt | apply Forall_cons | apply Forall_nil
                   | apply NoDup_cons | apply NoDup_nil
                   | progress cbn [map fst snd]
                   | solve [cbn; intuition discriminate] ].
    + eapply Py.equiv_dict with
        (items1' := [ ("focus", Py.VList [Py.VStr "equity"; Py.VStr "success"]);
                      ("filters", Py.VDict [("year", Py.VInt 2024); ("term", Py.VStr "fall")]);
                      ("program", Py.VStr "MATH") ]).
      * apply Permutation_rev.
      * repeat constructor; cbn.
        eapply Py.equiv_dict; [apply perm_swap | repeat constructor].
  - rewrite (proj1 (proj2 (proj2 (C7_fingerprint_is_order_independent
                                    (lib := plain_lib))))
               "analyze" payload_nested "u-17" ltac:(discriminate)).
    vm_compute. discriminate.
Defined.

End FingerprintWitness.

(** * Further properties of the cache *)

Section MoreOrderedDictFacts.
Import OrderedDict.
Context {V : Type}.
Implicit Types (d : OrderedDict.t V) (k : string).

(** With distinct keys, deleting a key is filtering it out. *)
Lemma delitem_filter d k :
  NoDup (keys d) -> delitem k d = filter (fun kv => negb (String.eqb (fst kv) k)) d.
Proof.
  induction d as [|[k' v'] d IH]; cbn; [reflexivity |].
  intros Hnd. inversion Hnd as [|? ? Hn Hd]; subst.
  destruct (String.eqb_spec k' k) as [-> | Hne]; cbn.
  - symmetry. apply forallb_filter_id. apply forallb_forall.
    intros [k0 v0] Hin. cbn. apply negb_true_iff, String.eqb_neq.
    intros ->. apply Hn. apply (in_map fst) in Hin. exact Hin.
  - f_equal. apply IH, Hd.
Qed.

Lemma NoDup_keys_filter (P : string * V -> bool) d :
  NoDup (keys d) -> NoDup (keys (filter P d)).
Proof.
  induction d as [|x d IH]; cbn; [auto |].
  intros Hnd. inversion Hnd as [|? ? Hn Hd]; subst.
  destruct (P x); [| auto]. cbn. constructor; [| auto].
  intros Hin. apply Hn. unfold keys in *. rewrite in_map_iff in *.
  destruct Hin as (y & E & Hy). exists y. split; [exact E |].
  apply filter_In in Hy. apply Hy.
Qed.

Lemma lookup_filter (P : string * V -> bool) d k :
  NoDup (keys d) ->
  Py.dict_lookup k (filter P d)
  = match Py.dict_lookup k d with
    | Some v => if P (k, v) then Some v else None
    | None => None
    end.
Proof.
  induction d as [|[k' v'] d IH]; cbn; [reflexivity |].
  intros Hnd. inversion Hnd as [|? ? Hn Hd]; subst.
  destruct (String.eqb_spec k' k) as [-> | Hne].
  - destruct (P (k, v')) eqn:HP; cbn; [rewrite String.eqb_refl; reflexivity |].
    rewrite (IH Hd).
    assert (L : Py.dict_lookup k d = None) by (apply lookup_None_keys, Hn).
    rewrite L. reflexivity.
  - destruct (P (k', v')); cbn; [| apply IH, Hd].
    destruct (String.eqb_spec k' k); [congruence | apply IH, Hd].
Qed.

End MoreOrderedDictFacts.

Lemma filter_twice {A : Type} (f g : A -> bool) (l : list A) :
  filter f (filter g l) = filter (fun x => g x && f x) l.
Proof.
  induction l as [|x l IH]; cbn; [reflexivity |].
  destruct (g x); cbn; [| exact IH].
  destruct (f x); [rewrite IH; reflexivity | exact IH].
Qed.

Section MoreCacheFacts.
Import OrderedDict AICache Spec More.
Implicit Types (c : AICache.t) (d : OrderedDict.t CacheEntry.t).

(** Deleting a list of keys is filtering them out, and the count goes up
    by their number. *)
Lemma delete_keys_filter ks d n :
  NoDup (keys d) ->
  delete_keys ks d n
  = (filter (fun kv => negb (existsb (String.eqb (fst kv)) ks)) d,
     n + Z.of_nat (List.length ks)).
Proof.
  revert d n. induction ks as [|k ks IH]; intros d n Hnd; cbn [delete_keys].
  - cbn. rewrite Z.add_0_r. f_equal. symmetry. apply forallb_filter_id.
    apply forallb_forall. reflexivity.
  - rewrite IH by (apply NoDup_delitem, Hnd).
    rewrite (delitem_filter d k Hnd).
    f_equal.
    + rewrite filter_twice. apply filter_ext. intros [k0 v0]. cbn.
      destruct (String.eqb k0 k); reflexivity.
    + cbn [List.length]. lia.
Qed.

(** Deleting the keys of the entries that satisfy [P] leaves the
    entries that do not. *)
Lemma delete_selected (P : string * CacheEntry.t -> bool) d n :
  NoDup (keys d) ->
  delete_keys (map fst (filter P d)) d n
  = (filter (fun kv => negb (P kv)) d, n + Z.of_nat (List.length (filter P d))).
Proof.
  intros Hnd. rewrite (delete_keys_filter _ d n Hnd). rewrite length_map. f_equal.
  apply filter_ext_in. intros [k v] Hin. f_equal.
  destruct (P (k, v)) eqn:HP.
  - apply existsb_exists. exists k. split; [| apply String.eqb_refl].
    apply (in_map fst (filter P d) (k, v)). apply filter_In. split; assumption.
  - apply not_true_is_false. intros Hex. apply existsb_exists in Hex.
    destruct Hex as (k' & Hk' & E). cbn in E. apply String.eqb_eq in E. subst k'.
    apply in_map_iff in Hk'. destruct Hk' as ([k1 v1] & E1 & H1). cbn in E1. subst k1.
    apply filter_In in H1. destruct H1 as (H1 & HP1).
    assert (v1 = v).
    { clear - Hnd Hin H1. induction d as [|[k0 v0] d IH]; [destruct Hin |].
      cbn in Hnd. inversion Hnd as [|? ? Hn Hd]; subst.
      destruct Hin as [E | Hin], H1 as [E1 | H1].
      - congruence.
      - injection E as -> ->. exfalso. apply Hn. apply (in_map fst) in H1. exact H1.
      - injection E1 as -> ->. exfalso. apply Hn. apply (in_map fst) in Hin. exact Hin.
      - apply IH; assumption. }
    subst v1. congruence.
Qed.

Lemma cleanup_expired_eq c now :
  NoDup (keys (_cache c)) ->
  cleanup_expired c now
  = (Z.of_nat (List.length (filter (expired_at now) (_cache c))),
     mk (max_size c) (filter (fun kv => negb (expired_at now kv)) (_cache c))
        (CacheStats.with_current_size
           (len (filter (fun kv => negb (expired_at now kv)) (_cache c))) (_stats c))).
Proof.
  intros Hnd. unfold cleanup_expired.
  change (fun kv : string * CacheEntry.t => CacheEntry.expires_at (snd kv) <? now)
    with (expired_at now).
  rewrite (delete_selected (expired_at now) (_cache c) 0 Hnd). reflexivity.
Qed.

Lemma value_endpoint_is_dict (endpoint : string) (kv : string * CacheEntry.t) :
  is_dict (CacheEntry.value (snd kv)) = true ->
  value_endpoint_is endpoint (CacheEntry.value (snd kv)) = Returns (tagged endpoint kv).
Proof.
  unfold tagged, value_endpoint_is. destruct (CacheEntry.value (snd kv)); try discriminate.
  intros _. destruct (Py.dict_get items "_endpoint" Py.VNone); reflexivity.
Qed.

Lemma keys_of_endpoint_dicts (endpoint : string) d :
  forallb (fun kv => is_dict (CacheEntry.value (snd kv))) d = true ->
  keys_of_endpoint endpoint d = Returns (map fst (filter (tagged endpoint) d)).
Proof.
  induction d as [|[k entry] d IH]; cbn [forallb keys_of_endpoint]; [reflexivity |].
  intros H. apply andb_prop in H as (Hd & Hrest).
  pose proof (value_endpoint_is_dict endpoint (k, entry) Hd) as E. cbn [snd] in E.
  rewrite E, (IH Hrest).
  cbn [filter]. destruct (tagged endpoint (k, entry)); reflexivity.
Qed.

Lemma keys_of_endpoint_not_dict (endpoint : string) d :
  forallb (fun kv => is_dict (CacheEntry.value (snd kv))) d = false ->
  keys_of_endpoint endpoint d = Raises "AttributeError".
Proof.
  induction d as [|[k entry] d IH]; cbn [forallb keys_of_endpoint]; [discriminate |].
  cbn [snd].
  destruct (is_dict (CacheEntry.value entry)) eqn:Hd; cbn [andb].
  - intros H. pose proof (value_endpoint_is_dict endpoint (k, entry) Hd) as E.
    cbn [snd] in E. rewrite E, (IH H). reflexivity.
  - intros _. destruct (CacheEntry.value entry); try discriminate; reflexivity.
Qed.

End MoreCacheFacts.

Section MoreCacheRuns.
Import OrderedDict AICache Spec More.
Context {lib : PyLib}.
Implicit Types (c : AICache.t).

(** The counters after a call other than [reset_stats] *)
Lemma step_counters (o : op) c c' :
  1 <= max_size c -> wf c -> is_reset_stats o = false -> step o c = Some c' ->
  CacheStats.hits (_stats c') + CacheStats.misses (_stats c')
  = CacheStats.hits (_stats c) + CacheStats.misses (_stats c) + (if is_get o then 1 else 0)
  /\ CacheStats.hits (_stats c) <= CacheStats.hits (_stats c')
  /\ CacheStats.misses (_stats c) <= CacheStats.misses (_stats c')
  /\ CacheStats.evictions (_stats c) <= CacheStats.evictions (_stats c')
  /\ CacheStats.evictions (_stats c')
     <= CacheStats.evictions (_stats c) + (if is_set o then 1 else 0).
Proof.
  intros Hmax Hwf Ho. pose proof Hwf as (Hnd & Hlen & _).
  destruct o as [e p u t1 t2 | e p v ttl u now | e p u | e | | now |];
    cbn [step is_get is_set is_reset_stats] in *; try discriminate Ho.
  - intros [= <-].
    destruct (contains (_generate_key e p u) (_cache c)) eqn:Hc.
    + pose proof Hc as Hg. unfold contains in Hg.
      destruct (Py.dict_lookup (_generate_key e p u) (_cache c)) as [entry|] eqn:L;
        [| discriminate].
      destruct (Z_lt_le_dec (CacheEntry.expires_at entry) t1) as [Hexp | Hlive].
      * rewrite (get_expired c e p u t1 t2 entry L Hexp). cbn. lia.
      * rewrite (get_hit c e p u t1 t2 entry L Hlive). cbn. lia.
    + rewrite (get_miss c e p u t1 t2 Hc). cbn. lia.
  - destruct (contains (_generate_key e p u) (_cache c)) eqn:Hc.
    + rewrite (set_existing c e p v ttl u now Hc). cbn [option_map snd].
      intros [= <-]. cbn. lia.
    + rewrite (set_new c e p v ttl u now Hc Hmax Hlen). cbn [option_map snd].
      intros [= <-]. destruct (max_size c <=? len (_cache c)); cbn; lia.
  - intros [= <-]. unfold invalidate.
    destruct (contains (_generate_key e p u) (_cache c)); cbn; lia.
  - intros [= <-]. unfold invalidate_by_endpoint.
    destruct (keys_of_endpoint e (_cache c)) as [ks | exn]; cbn [snd]; [| lia].
    destruct (delete_keys ks (_cache c) 0) as [d n]. cbn. lia.
  - intros [= <-]. cbn. lia.
  - intros [= <-]. unfold cleanup_expired.
    match goal with |- context [delete_keys ?ks _ 0] => set (ks0 := ks) end.
    destruct (delete_keys ks0 (_cache c) 0) as [d n]. cbn. lia.
Qed.

(** [self._stats.max_size] stays equal to [self.max_size]. *)
Lemma step_stats_max_size (o : op) c c' :
  1 <= max_size c -> wf c -> step o c = Some c' ->
  CacheStats.max_size (_stats c) = max_size c ->
  CacheStats.max_size (_stats c') = max_size c'.
Proof.
  intros Hmax Hwf. pose proof Hwf as (Hnd & Hlen & _).
  destruct o as [e p u t1 t2 | e p v ttl u now | e p u | e | | now |]; cbn [step].
  - intros [= <-].
    destruct (contains (_generate_key e p u) (_cache c)) eqn:Hc.
    + pose proof Hc as Hg. unfold contains in Hg.
      destruct (Py.dict_lookup (_generate_key e p u) (_cache c)) as [entry|] eqn:L;
        [| discriminate].
      destruct (Z_lt_le_dec (CacheEntry.expires_at entry) t1) as [Hexp | Hlive].
      * rewrite (get_expired c e p u t1 t2 entry L Hexp). cbn. auto.
      * rewrite (get_hit c e p u t1 t2 entry L Hlive). cbn. auto.
    + rewrite (get_miss c e p u t1 t2 Hc). cbn. auto.
  - destruct (contains (_generate_key e p u) (_cache c)) eqn:Hc.
    + rewrite (set_existing c e p v ttl u now Hc). cbn [option_map snd].
      intros [= <-]. cbn. auto.
    + rewrite (set_new c e p v ttl u now Hc Hmax Hlen). cbn [option_map snd].
      intros [= <-]. destruct (max_size c <=? len (_cache c)); cbn; auto.
  - intros [= <-]. unfold invalidate.
    destruct (contains (_generate_key e p u) (_cache c)); cbn; auto.
  - intros [= <-]. unfold invalidate_by_endpoint.
    destruct (keys_of_endpoint e (_cache c)) as [ks | exn]; cbn [snd]; [| auto].
    destruct (delete_keys ks (_cache c) 0) as [d n]. cbn. auto.
  - intros [= <-]. cbn. auto.
  - intros [= <-]. unfold cleanup_expired.
    match goal with |- context [delete_keys ?ks _ 0] => set (ks0 := ks) end.
    destruct (delete_keys ks0 (_cache c) 0) as [d n]. cbn. auto.
  - intros [= <-]. cbn. auto.
Qed.

Lemma run_counters (ops : list op) c c' :
  1 <= max_size c -> wf c -> forallb (fun o => negb (is_reset_stats o)) ops = true ->
  run ops c = Some c' ->
  CacheStats.hits (_stats c') + CacheStats.misses (_stats c')
  = CacheStats.hits (_stats c) + CacheStats.misses (_stats c) + count_ops is_get ops
  /\ CacheStats.hits (_stats c) <= CacheStats.hits (_stats c')
  /\ CacheStats.misses (_stats c) <= CacheStats.misses (_stats c')
  /\ CacheStats.evictions (_stats c) <= CacheStats.evictions (_stats c')
  /\ CacheStats.evictions (_stats c')
     <= CacheStats.evictions (_stats c) + count_ops is_set ops.
Proof.
  revert c. induction ops as [|o ops IH]; intros c Hmax Hwf Hops; cbn [run].
  - intros [= <-]. unfold count_ops. cbn. lia.
  - cbn [forallb] in Hops. apply andb_prop in Hops as (Ho & Hops).
    apply negb_true_iff in Ho.
    destruct (step_wf o c Hmax Hwf) as (c1 & E & Hwf1 & Hm1). rewrite E. intros Hrun.
    pose proof (step_counters o c c1 Hmax Hwf Ho E) as S1.
    pose proof (IH c1 ltac:(lia) Hwf1 Hops Hrun) as S2.
    unfold count_ops in *. cbn [filter].
    destruct (is_get o), (is_set o); cbn [List.length]; lia.
Qed.

Lemma run_stats_max_size (ops : list op) c c' :
  1 <= max_size c -> wf c -> run ops c = Some c' ->
  CacheStats.max_size (_stats c) = max_size c ->
  CacheStats.max_size (_stats c') = max_size c'.
Proof.
  revert c. induction ops as [|o ops IH]; intros c Hmax Hwf; cbn [run].
  - intros [= <-]. auto.
  - destruct (step_wf o c Hmax Hwf) as (c1 & E & Hwf1 & Hm1). rewrite E. intros Hrun Hs.
    apply (IH c1 ltac:(lia) Hwf1 Hrun). apply (step_stats_max_size o c c1 Hmax Hwf E Hs).
Qed.

(** ** The statistics take no part in what the cache does *)

Lemma evict_while_full_same (fuel : nat) c1 c2 :
  same_entries c1 c2 ->
  same_entries_opt (evict_while_full fuel c1) (evict_while_full fuel c2).
Proof.
  revert c1 c2. induction fuel as [|fuel IH]; intros c1 c2 (Hm & Hc);
    cbn [evict_while_full]; rewrite Hm, Hc;
    (destruct (max_size c2 <=? len (_cache c2)); [| split; assumption]).
  - exact I.
  - apply IH. unfold _evict_oldest. rewrite Hc.
    destruct (_cache c2) as [|x d] eqn:E2.
    + split; [exact Hm | congruence].
    + split; cbn; [exact Hm | reflexivity].
Qed.

Lemma get_same c1 c2 e p u t1 t2 :
  same_entries c1 c2 ->
  fst (get c1 e p u t1 t2) = fst (get c2 e p u t1 t2)
  /\ same_entries (snd (get c1 e p u t1 t2)) (snd (get c2 e p u t1 t2)).
Proof.
  intros (Hm & Hc). unfold get. rewrite Hc.
  destruct (contains (_generate_key e p u) (_cache c2)); cbn [negb].
  - destruct (getitem (_generate_key e p u) (_cache c2)) as [entry|].
    + destruct (CacheEntry.is_expired t1 entry); cbn; rewrite ?Hc; repeat split; assumption.
    + repeat split; assumption.
  - cbn. repeat split; assumption.
Qed.

Lemma step_same (o : op) c1 c2 :
  same_entries c1 c2 -> same_entries_opt (step o c1) (step o c2).
Proof.
  intros H. pose proof H as (Hm & Hc).
  destruct o as [e p u t1 t2 | e p v ttl u now | e p u | e | | now |]; cbn [step].
  - apply (get_same c1 c2 e p u t1 t2 H).
  - unfold set. rewrite Hc.
    destruct (contains (_generate_key e p u) (_cache c2)).
    + cbn. rewrite ?Hc. split; [assumption | reflexivity].
    + pose proof (evict_while_full_same (S (List.length (_cache c2))) c1 c2 H) as E.
      destruct (evict_while_full _ c1) as [a|], (evict_while_full _ c2) as [b|];
        cbn in E |- *; try contradiction; [| exact I].
      destruct E as (Ham & Hac). rewrite Hac. split; [assumption | reflexivity].
  - unfold invalidate. rewrite Hc.
    destruct (contains (_generate_key e p u) (_cache c2)); cbn;
      rewrite ?Hc; split; assumption || reflexivity.
  - unfold invalidate_by_endpoint. rewrite Hc.
    destruct (keys_of_endpoint e (_cache c2)) as [ks | exn]; cbn [snd]; [| exact H].
    destruct (delete_keys ks (_cache c2) 0) as [d n]. cbn. split; [assumption | reflexivity].
  - cbn. split; [assumption | reflexivity].
  - unfold cleanup_expired. rewrite Hc.
    match goal with |- context [delete_keys ?ks _ 0] => set (ks0 := ks) end.
    destruct (delete_keys ks0 (_cache c2) 0) as [d n]. cbn.
    split; [assumption | reflexivity].
  - cbn. exact H.
Qed.

Lemma run_same (ops : list op) c1 c2 :
  same_entries c1 c2 -> same_entries_opt (run ops c1) (run ops c2).
Proof.
  revert c1 c2. induction ops as [|o ops IH]; intros c1 c2 H; cbn [run]; [exact H |].
  pose proof (step_same o c1 c2 H) as S.
  destruct (step o c1) as [a|], (step o c2) as [b|]; cbn in S; try contradiction;
    [apply IH, S | exact I].
Qed.

End MoreCacheRuns.

(** * Further properties: the administrative calls of the cache *)

Section ExtraCache.
Import OrderedDict AICache Spec More.
Context {lib : PyLib}.

(** X1.  [cleanup_expired] removes exactly the entries whose
    [expires_at] is before [now] and returns their number.  The entries
    that stay are untouched and keep their order; the counters of hits,
    misses and evictions do not move, and [current_size] is the number
    of entries left. *)
Theorem X1_cleanup_expired_removes_exactly_the_expired (c : AICache.t) (now : Z) :
  NoDup (keys (_cache c)) ->
  fst (cleanup_expired c now) = Z.of_nat (List.length (filter (expired_at now) (_cache c)))
  /\ fst (cleanup_expired c now) = len (_cache c) - len (_cache (snd (cleanup_expired c now)))
  /\ _cache (snd (cleanup_expired c now))
     = filter (fun kv => negb (expired_at now kv)) (_cache c)
  /\ CacheStats.current_size (_stats (snd (cleanup_expired c now)))
     = len (_cache (snd (cleanup_expired c now)))
  /\ CacheStats.hits (_stats (snd (cleanup_expired c now))) = CacheStats.hits (_stats c)
  /\ CacheStats.misses (_stats (snd (cleanup_expired c now))) = CacheStats.misses (_stats c)
  /\ CacheStats.evictions (_stats (snd (cleanup_expired c now)))
     = CacheStats.evictions (_stats c)
  /\ max_size (snd (cleanup_expired c now)) = max_size c.
Proof.
  intros Hnd. rewrite (cleanup_expired_eq c now Hnd). cbn.
  repeat split.
  pose proof (filter_length (expired_at now) (_cache c)) as H.
  unfold len. lia.
Qed.

(** X2.  A sweep is invisible to lookups: at any reading at or after the
    one of the sweep, [get] returns on the swept cache what it returns on
    the cache as it was. *)
Theorem X2_sweep_is_invisible_to_lookup (c : AICache.t) (now : Z)
    (e : string) (p : Py.value) (u : option string) (t1 t2 : Z) :
  NoDup (keys (_cache c)) -> now <= t1 ->
  fst (get (snd (cleanup_expired c now)) e p u t1 t2) = fst (get c e p u t1 t2).
Proof.
  intros Hnd Ht. rewrite (cleanup_expired_eq c now Hnd). cbn [snd].
  set (k := _generate_key e p u).
  set (c' := mk _ _ _).
  assert (L' : getitem k (_cache c')
               = match getitem k (_cache c) with
                 | Some x => if negb (expired_at now (k, x)) then Some x else None
                 | None => None
                 end).
  { unfold getitem. cbn [_cache c']. apply lookup_filter, Hnd. }
  destruct (getitem k (_cache c)) as [entry|] eqn:L.
  - destruct (Z_lt_le_dec (CacheEntry.expires_at entry) t1) as [Hexp | Hlive].
    + rewrite (get_expired c e p u t1 t2 entry L Hexp). cbn [fst].
      destruct (negb (expired_at now (k, entry))).
      * rewrite (get_expired c' e p u t1 t2 entry L' Hexp). reflexivity.
      * rewrite get_miss; [reflexivity |].
        unfold contains. unfold getitem in L'. fold k. rewrite L'. reflexivity.
    + rewrite (get_hit c e p u t1 t2 entry L Hlive). cbn [fst].
      assert (E : negb (expired_at now (k, entry)) = true).
      { apply negb_true_iff. unfold expired_at. cbn. apply Z.ltb_ge. lia. }
      rewrite E in L'. rewrite (get_hit c' e p u t1 t2 entry L' Hlive). reflexivity.
  - rewrite (get_miss c); [| unfold contains; unfold getitem in L; fold k; rewrite L; reflexivity].
    rewrite (get_miss c'); [reflexivity |].
    unfold contains. unfold getitem in L'. fold k. rewrite L'. reflexivity.
Qed.

(** X3.  [invalidate] returns whether the key was in the cache.
    Afterwards the key is absent, every other key is bound as before, the
    counters of hits, misses and evictions have not moved, a lookup of the
    request is a miss and a second [invalidate] returns [False]. *)
Theorem X3_invalidate_removes_one_entry (c : AICache.t)
    (e : string) (p : Py.value) (u : option string) (t1 t2 : Z) :
  NoDup (keys (_cache c)) ->
  fst (invalidate c e p u) = contains (_generate_key e p u) (_cache c)
  /\ _cache (snd (invalidate c e p u)) = delitem (_generate_key e p u) (_cache c)
  /\ contains (_generate_key e p u) (_cache (snd (invalidate c e p u))) = false
  /\ (forall k', k' <> _generate_key e p u ->
        getitem k' (_cache (snd (invalidate c e p u))) = getitem k' (_cache c))
  /\ CacheStats.hits (_stats (snd (invalidate c e p u))) = CacheStats.hits (_stats c)
  /\ CacheStats.misses (_stats (snd (invalidate c e p u))) = CacheStats.misses (_stats c)
  /\ CacheStats.evictions (_stats (snd (invalidate c e p u)))
     = CacheStats.evictions (_stats c)
  /\ fst (get (snd (invalidate c e p u)) e p u t1 t2) = None
  /\ fst (invalidate (snd (invalidate c e p u)) e p u) = false.
Proof.
  intros Hnd.
  assert (Hcache : _cache (snd (invalidate c e p u)) = delitem (_generate_key e p u) (_cache c)).
  { unfold invalidate.
    destruct (contains (_generate_key e p u) (_cache c)) eqn:Hc; cbn [snd _cache].
    - reflexivity.
    - symmetry. apply delitem_absent, Hc. }
  assert (Hgone : contains (_generate_key e p u) (_cache (snd (invalidate c e p u))) = false).
  { rewrite Hcache. apply contains_false_keys, delitem_removes, Hnd. }
  split; [| split; [exact Hcache | split; [exact Hgone |]]].
  { unfold invalidate. destruct (contains (_generate_key e p u) (_cache c)); reflexivity. }
  split; [| split; [| split; [| split; [| split]]]].
  - intros k' Hne. rewrite Hcache. unfold getitem. apply lookup_delitem_other, Hne.
  - unfold invalidate. destruct (contains (_generate_key e p u) (_cache c)); reflexivity.
  - unfold invalidate. destruct (contains (_generate_key e p u) (_cache c)); reflexivity.
  - unfold invalidate. destruct (contains (_generate_key e p u) (_cache c)); reflexivity.
  - rewrite get_miss by exact Hgone. reflexivity.
  - unfold invalidate at 1. rewrite Hgone. reflexivity.
Qed.

(** X4.  [clear] returns the number of entries and is a fresh start for
    the entries: whatever calls follow, the cache holds what a newly
    created cache of the same capacity would hold.  It does not reset the
    counters of hits, misses and evictions.  The route [clear_cache]
    clears the whole cache when no endpoint is given and when the endpoint
    is the empty string. *)
Theorem X4_clear_is_a_fresh_start (c : AICache.t) (ops : list op) :
  fst (clear c) = len (_cache c)
  /\ same_entries_opt (run ops (snd (clear c))) (run ops (init (max_size c)))
  /\ CacheStats.hits (_stats (snd (clear c))) = CacheStats.hits (_stats c)
  /\ CacheStats.misses (_stats (snd (clear c))) = CacheStats.misses (_stats c)
  /\ CacheStats.evictions (_stats (snd (clear c))) = CacheStats.evictions (_stats c)
  /\ AiRouter.clear_cache c None = (Returns (len (_cache c)), snd (clear c))
  /\ AiRouter.clear_cache c (Some "") = (Returns (len (_cache c)), snd (clear c)).
Proof.
  split; [reflexivity | split; [| repeat split]].
  apply run_same. split; reflexivity.
Qed.

(** X5.  The statistics take no part in what the cache does: two caches
    with the same capacity and the same entries answer every lookup alike
    and hold the same entries after every sequence of calls.  So
    [reset_stats], which sets the counters to zero and keeps the entries,
    changes no answer of the cache. *)
Theorem X5_statistics_take_no_part (c1 c2 : AICache.t) (ops : list op)
    (e : string) (p : Py.value) (u : option string) (t1 t2 : Z) :
  same_entries c1 c2 ->
  same_entries_opt (run ops c1) (run ops c2)
  /\ fst (get c1 e p u t1 t2) = fst (get c2 e p u t1 t2)
  /\ same_entries (reset_stats c1) c2
  /\ _stats (reset_stats c1) = CacheStats.mk 0 0 0 (len (_cache c1)) (max_size c1).
Proof.
  intros H. split; [apply run_same, H | split; [apply get_same, H | split]].
  - exact H.
  - reflexivity.
Qed.

(** X6.  Every lookup is counted once, as a hit or as a miss, and nothing
    else is: after a run without [reset_stats] from a new cache,
    [hits + misses] is the number of calls of [get]; the counters are not
    negative, and there are at most as many evictions as calls of
    [set]. *)
Theorem X6_every_lookup_is_a_hit_or_a_miss (C : Z) (ops : list op) (c : AICache.t) :
  1 <= C ->
  forallb (fun o => negb (is_reset_stats o)) ops = true ->
  run ops (init C) = Some c ->
  CacheStats.hits (_stats c) + CacheStats.misses (_stats c) = count_ops is_get ops
  /\ 0 <= CacheStats.hits (_stats c)
  /\ 0 <= CacheStats.misses (_stats c)
  /\ 0 <= CacheStats.evictions (_stats c) <= count_ops is_set ops.
Proof.
  intros HC Hops Hrun.
  pose proof (run_counters ops (init C) c HC (wf_init C ltac:(lia)) Hops Hrun) as H.
  cbn in H. lia.
Qed.

(** X7.  The size the statistics report is the number of entries: after
    every run from a new cache of capacity [C >= 1], [current_size] is
    [len(_cache)], between 0 and [C], the [max_size] of the statistics is
    [C], and [get_stats], which refreshes [current_size], changes
    nothing. *)
Theorem X7_reported_size_is_the_number_of_entries (C : Z) (ops : list op) (c : AICache.t) :
  1 <= C ->
  run ops (init C) = Some c ->
  CacheStats.current_size (_stats c) = len (_cache c)
  /\ 0 <= CacheStats.current_size (_stats c) <= C
  /\ CacheStats.max_size (_stats c) = C
  /\ max_size c = C
  /\ get_stats c = (_stats c, c).
Proof.
  intros HC Hrun.
  destruct (run_wf ops (init C) HC (wf_init C ltac:(lia))) as (c' & Hrun' & Hwf & Hm).
  rewrite Hrun in Hrun'. injection Hrun' as <-. cbn in Hm.
  pose proof (run_stats_max_size ops (init C) c HC (wf_init C ltac:(lia)) Hrun eq_refl) as Hs.
  destruct Hwf as (_ & Hlen & Hsz).
  split; [exact Hsz | split; [| split; [congruence | split; [exact Hm |]]]].
  - rewrite Hsz. unfold len in *. lia.
  - unfold get_stats. rewrite <- Hsz.
    destruct c as [m d s]. destruct s. reflexivity.
Qed.

(** X8.  Only a [set] under its key changes the response or the expiry of
    an entry.  After any calls that do not store under the key, the key is
    unbound or bound to an entry with the same response, creation time and
    expiry: reading an entry does not extend its life, and once its expiry
    has passed it is not served. *)
Theorem X8_only_a_set_changes_an_entry (c c' : AICache.t) (ops : list op)
    (e : string) (p : Py.value) (u : option string) :
  1 <= max_size c -> wf c ->
  forallb (fun o => negb (op_stores (_generate_key e p u) o)) ops = true ->
  run ops c = Some c' ->
  kept (getitem (_generate_key e p u) (_cache c)) (getitem (_generate_key e p u) (_cache c'))
  /\ (forall entry t1 t2,
        getitem (_generate_key e p u) (_cache c) = Some entry ->
        CacheEntry.expires_at entry < t1 ->
        fst (get c' e p u t1 t2) = None).
Proof.
  intros Hmax Hwf Hops Hrun.
  pose proof (run_keeps_entry ops (_generate_key e p u) c c' Hmax Hwf Hops Hrun) as K.
  split; [exact K |].
  intros entry t1 t2 L Hexp. rewrite L in K.
  destruct (getitem (_generate_key e p u) (_cache c')) as [entry'|] eqn:L'.
  - destruct K as (_ & _ & Kx).
    rewrite (get_expired c' e p u t1 t2 entry' L'); [reflexivity | lia].
  - rewrite get_miss; [reflexivity |].
    unfold contains. unfold getitem in L'. rewrite L'. reflexivity.
Qed.

Lemma dict_get_bounds (d : list (string * Z)) (k : string) (default lo hi : Z) :
  Forall (fun kv => lo <= snd kv <= hi) d -> lo <= default <= hi ->
  lo <= Py.dict_get d k default <= hi.
Proof.
  intros Hd Hdef. unfold Py.dict_get.
  destruct (Py.dict_lookup k d) as [x|] eqn:L; [| exact Hdef].
  apply lookup_In in L. rewrite Forall_forall in Hd. apply (Hd _ L).
Qed.

(** The default time-to-live of every endpoint is between five minutes
    and one hour. *)
Lemma ttl_default_bounds (endpoint : string) :
  300 <= ttl_or_default endpoint None <= 3600.
Proof.
  unfold ttl_or_default. apply dict_get_bounds.
  - unfold DEFAULT_TTLS. repeat constructor; cbn; lia.
  - vm_compute. split; discriminate.
Qed.

(** X9.  Store and look up: after [set] at the reading [now], a lookup of
    the same request at the reading [t] returns the stored response when
    [t <= now + ttl] and nothing when [t > now + ttl].  A [ttl] of 0 is
    taken as it is, so that the entry is served at the reading [now]
    alone; a [ttl] that is not given is the default of the endpoint,
    between 300 and 3600 seconds. *)
Theorem X9_lookup_after_store (c : AICache.t) (e : string) (p v : Py.value)
    (ttl : option Z) (u : option string) (now t1 t2 : Z) :
  1 <= max_size c -> wf c ->
  exists c1,
    set c e p v ttl u now = Some (_generate_key e p u, c1)
    /\ fst (get c1 e p u t1 t2)
       = (if t1 <=? now + ttl_or_default e ttl then Some v else None)
    /\ ttl_or_default e (Some 0) = 0
    /\ 300 <= ttl_or_default e None <= 3600.
Proof.
  intros Hmax Hwf.
  destruct (set_stores c e p v ttl u now Hmax Hwf) as (c1 & Hset & L).
  exists c1. split; [exact Hset | split; [| split; [reflexivity | apply ttl_default_bounds]]].
  destruct (t1 <=? now + ttl_or_default e ttl) eqn:Ht.
  - apply Z.leb_le in Ht. rewrite (get_hit c1 e p u t1 t2 _ L); [reflexivity | exact Ht].
  - apply Z.leb_gt in Ht.
    rewrite (get_expired c1 e p u t1 t2 _ L); [reflexivity | cbn; lia].
Qed.

(** X10.  A [set] of a new key on a cache that is not full evicts
    nothing: the new entry is added at the back, every entry stays in its
    place, and the counter of evictions does not move. *)
Theorem X10_set_below_capacity_evicts_nothing (c : AICache.t) (e : string)
    (p v : Py.value) (ttl : option Z) (u : option string) (now : Z) :
  wf c ->
  contains (_generate_key e p u) (_cache c) = false ->
  len (_cache c) < max_size c ->
  exists c',
    set c e p v ttl u now = Some (_generate_key e p u, c')
    /\ _cache c' = _cache c ++ [(_generate_key e p u, new_entry e v ttl now)]
    /\ CacheStats.evictions (_stats c') = CacheStats.evictions (_stats c)
    /\ CacheStats.hits (_stats c') = CacheStats.hits (_stats c)
    /\ CacheStats.misses (_stats c') = CacheStats.misses (_stats c)
    /\ CacheStats.current_size (_stats c') = len (_cache c) + 1
    /\ max_size c' = max_size c.
Proof.
  intros (Hnd & Hlen & _) Hnew Hroom.
  assert (Hmax : 1 <= max_size c) by (unfold len in Hroom; lia).
  rewrite (set_new c e p v ttl u now Hnew Hmax Hlen).
  assert (Hfull : (max_size c <=? len (_cache c)) = false) by (apply Z.leb_gt; exact Hroom).
  rewrite Hfull. eexists. split; [reflexivity |]. cbn.
  repeat split. unfold len. rewrite length_app. cbn. lia.
Qed.

(** X11.  [invalidate_by_endpoint] reads the tag of the responses, not
    the endpoint they were stored under.  When every response in the cache
    is a [dict], it removes exactly the entries whose response binds
    "_endpoint" to the endpoint, returns their number and leaves the
    others as they are.  When some response is not a [dict] it raises
    [AttributeError] and removes nothing. *)
Theorem X11_invalidate_by_endpoint_reads_the_tag (c : AICache.t) (endpoint : string) :
  NoDup (keys (_cache c)) ->
  (forallb (fun kv => is_dict (CacheEntry.value (snd kv))) (_cache c) = true ->
   invalidate_by_endpoint c endpoint
   = (Returns (Z.of_nat (List.length (filter (tagged endpoint) (_cache c)))),
      mk (max_size c) (filter (fun kv => negb (tagged endpoint kv)) (_cache c))
         (CacheStats.with_current_size
            (len (filter (fun kv => negb (tagged endpoint kv)) (_cache c))) (_stats c))))
  /\ (forallb (fun kv => is_dict (CacheEntry.value (snd kv))) (_cache c) = false ->
      invalidate_by_endpoint c endpoint = (Raises "AttributeError", c)).
Proof.
  intros Hnd. split; intros Hd; unfold invalidate_by_endpoint.
  - rewrite (keys_of_endpoint_dicts endpoint _ Hd).
    rewrite (delete_selected (tagged endpoint) (_cache c) 0 Hnd). reflexivity.
  - rewrite (keys_of_endpoint_not_dict endpoint _ Hd). reflexivity.
Qed.

(** X23.  A hit protects an entry from the next eviction: in a cache
    with at least two entries, an entry that has just been read is still
    there, with its hit recorded, after a [set] of a new key, full cache
    or not. *)
Theorem X23_a_hit_protects_from_the_next_eviction (c : AICache.t)
    (e : string) (p : Py.value) (u : option string) (t1 t2 : Z) (entry : CacheEntry.t)
    (e' : string) (p' v' : Py.value) (ttl' : option Z) (u' : option string) (now : Z) :
  wf c -> 2 <= len (_cache c) ->
  getitem (_generate_key e p u) (_cache c) = Some entry ->
  t1 <= CacheEntry.expires_at entry ->
  contains (_generate_key e' p' u') (_cache c) = false ->
  exists c2,
    set (snd (get c e p u t1 t2)) e' p' v' ttl' u' now = Some (_generate_key e' p' u', c2)
    /\ getitem (_generate_key e p u) (_cache c2) = Some (touched t2 entry)
    /\ len (_cache c2) <= max_size c.
Proof.
  intros Hwf Htwo L Hlive Hnew. pose proof Hwf as (Hnd & Hlen & Hsz).
  assert (Hc : contains (_generate_key e p u) (_cache c) = true)
    by (unfold contains; unfold getitem in L; rewrite L; reflexivity).
  assert (Hne : _generate_key e' p' u' <> _generate_key e p u).
  { intros E. rewrite E in Hnew. congruence. }
  rewrite (get_hit c e p u t1 t2 entry L Hlive). cbn [snd].
  set (c1 := mk _ _ _).
  pose proof (length_delitem _ _ Hc) as Hl.
  assert (Hwf1 : wf c1).
  { apply (wf_to_back c _ (touched t2 entry)
             (CacheStats.with_hits (CacheStats.hits (_stats c) + 1) (_stats c)) Hwf Hc). }
  assert (Hnew1 : contains (_generate_key e' p' u') (_cache c1) = false).
  { apply contains_false_keys. cbn [c1 _cache]. unfold keys. rewrite map_app, in_app_iff.
    apply contains_false_keys in Hnew. cbn.
    intros [Hin | [E | []]]; [| congruence].
    apply Hnew. eapply keys_delitem_incl. exact Hin. }
  assert (Hmax1 : 1 <= max_size c1) by (cbn; unfold len in *; lia).
  rewrite (set_new c1 e' p' v' ttl' u' now Hnew1 Hmax1 ltac:(apply Hwf1)).
  subst c1. cbn [_cache max_size _stats].
  destruct (delitem (_generate_key e p u) (_cache c)) as [|x d] eqn:D;
    [cbn in Hl; unfold len in Htwo; lia |].
  assert (Hk : ~ In (_generate_key e p u) (keys (x :: d))).
  { rewrite <- D. apply delitem_removes, Hnd. }
  eexists. split; [reflexivity |].
  destruct (max_size c <=? len ((x :: d) ++ [(_generate_key e p u, touched t2 entry)])) eqn:F;
    cbn [_cache app tl]; unfold getitem.
  - split.
    + rewrite lookup_app_other by congruence.
      apply lookup_app_new. intros Hin. apply Hk. right. exact Hin.
    + unfold len in *. rewrite !length_app. cbn [List.length] in *. lia.
  - split.
    + rewrite app_comm_cons, lookup_app_other by congruence.
      apply (lookup_app_new (x :: d)). exact Hk.
    + apply Z.leb_gt in F. unfold len in *.
      rewrite ?length_app in *. cbn [List.length app] in *.
      rewrite ?length_app in *. cbn [List.length] in *. lia.
Qed.

(** X24.  [set] needs a capacity of at least one.  With [max_size <= 0]
    the eviction loop of a [set] under a key that is not in the cache never
    comes to its end, whatever the number of rounds, and the call does not
    return; with [max_size >= 1] the loop ends within as many rounds as
    there are entries, and the call returns.  A [set] under a key that is
    in the cache returns whatever the capacity. *)
Theorem X24_set_needs_a_positive_capacity (c : AICache.t) (e : string) (p v : Py.value)
    (ttl : option Z) (u : option string) (now : Z) :
  (max_size c <= 0 -> contains (_generate_key e p u) (_cache c) = false ->
   (forall fuel, evict_while_full fuel c = None) /\ set c e p v ttl u now = None)
  /\ (1 <= max_size c ->
      (exists c', evict_while_full (List.length (_cache c)) c = Some c')
      /\ exists c', set c e p v ttl u now = Some (_generate_key e p u, c'))
  /\ (contains (_generate_key e p u) (_cache c) = true ->
      exists c', set c e p v ttl u now = Some (_generate_key e p u, c')).
Proof.
  split; [| split].
  - intros Hmax Hnew. split.
    + intros fuel. apply evict_while_full_never_ends, Hmax.
    + apply set_does_not_return; assumption.
  - intros Hmax. split.
    + apply evict_while_full_ends; [exact Hmax | lia].
    + unfold set. destruct (contains (_generate_key e p u) (_cache c)); [eauto |].
      destruct (evict_while_full_ends (S (List.length (_cache c))) c Hmax ltac:(lia))
        as (c' & E).
      rewrite E. eauto.
  - intros Hc. rewrite (set_existing c e p v ttl u now Hc). eauto.
Qed.

End ExtraCache.

(** * Further properties: the decorator [cached_ai_response] *)

Section ExtraWrapper.
Import OrderedDict AICache Spec More.
Context {lib : PyLib}.

(** A call whose key is not in the cache awaits the function and stores
    its result. *)
Lemma wrapper_first_call (endpoint : string) (ttl : option Z) (include_user : bool)
    (c : AICache.t) (args : list Py.value) (kw : kwargs) (result : Py.value)
    (t1 t2 now : Z) :
  1 <= max_size c -> wf c ->
  Py.truthy (kw_bypass_cache kw) = false ->
  contains (wrapper_key endpoint include_user args kw) (_cache c) = false ->
  exists c1,
    wrapper endpoint ttl include_user c args kw result t1 t2 now = Some (result, true, c1)
    /\ getitem (wrapper_key endpoint include_user args kw) (_cache c1)
       = Some (new_entry endpoint result ttl now)
    /\ wf c1 /\ max_size c1 = max_size c
    /\ CacheStats.hits (_stats c1) = CacheStats.hits (_stats c)
    /\ CacheStats.misses (_stats c1) = CacheStats.misses (_stats c) + 1.
Proof.
  intros Hmax Hwf Hby Hnew. unfold wrapper, wrapper_key in *. rewrite Hby. cbn [negb].
  rewrite (get_miss c _ _ _ t1 t2 Hnew).
  set (cm := with_stats _ c).
  assert (Hwfm : wf cm) by (destruct Hwf as (? & ? & ?); repeat split; assumption).
  assert (Hmaxm : 1 <= max_size cm) by exact Hmax.
  destruct (set_stores cm endpoint (wrapper_prompt_data args kw) result ttl
              (cached_ai_response_user_id include_user (kw_user_id kw)) now Hmaxm Hwfm)
    as (c1 & Hset & L).
  destruct (step_wf (OpSet endpoint (wrapper_prompt_data args kw) result ttl
                       (cached_ai_response_user_id include_user (kw_user_id kw)) now)
              cm Hmaxm Hwfm) as (c1' & E & Hwf1 & Hm1).
  pose proof (step_counters
                (OpSet endpoint (wrapper_prompt_data args kw) result ttl
                   (cached_ai_response_user_id include_user (kw_user_id kw)) now)
                cm c1' Hmaxm Hwfm eq_refl E) as (Hsum & Hh & Hmi & _).
  cbn [step] in E. rewrite Hset in E. injection E as <-.
  rewrite Hset. exists c1. cbn [is_get] in Hsum.
  repeat split; try assumption; try apply Hwf1; cbn in *; lia.
Qed.

(** A call whose key is bound to an entry that has not expired and whose
    response is not [None] returns that response and does not await the
    function. *)
Lemma wrapper_served (endpoint : string) (ttl : option Z) (include_user : bool)
    (c : AICache.t) (args : list Py.value) (kw : kwargs) (result : Py.value)
    (t1 t2 now : Z) (entry : CacheEntry.t) :
  Py.truthy (kw_bypass_cache kw) = false ->
  getitem (wrapper_key endpoint include_user args kw) (_cache c) = Some entry ->
  t1 <= CacheEntry.expires_at entry ->
  Py.is_none (CacheEntry.value entry) = false ->
  wrapper endpoint ttl include_user c args kw result t1 t2 now
  = Some (CacheEntry.value entry, false,
          snd (get c endpoint (wrapper_prompt_data args kw)
                 (cached_ai_response_user_id include_user (kw_user_id kw)) t1 t2)).
Proof.
  intros Hby L Hlive Hv. unfold wrapper, wrapper_key in *. rewrite Hby. cbn [negb].
  rewrite (get_hit c _ _ _ t1 t2 entry L Hlive). cbn [snd]. rewrite Hv. reflexivity.
Qed.

(** X12.  When the wrapped function is called with keyword arguments
    only, the data takes no part in the key: [prompt_data] is [None]
    whatever [data] and [prompt] are.  So after a first call has stored
    its result, a call with other data, for the same endpoint and caller,
    is served the result of the first call, without the function being
    awaited, until that entry expires. *)
Theorem X12_keyword_only_calls_share_one_entry
    (endpoint : string) (ttl : option Z) (include_user : bool) (c : AICache.t)
    (kw kw' : kwargs) (result result' : Py.value) (t1 t2 now t1' t2' now' : Z) :
  1 <= max_size c -> wf c ->
  Py.truthy (kw_bypass_cache kw) = false ->
  Py.truthy (kw_bypass_cache kw') = false ->
  cached_ai_response_user_id include_user (kw_user_id kw)
  = cached_ai_response_user_id include_user (kw_user_id kw') ->
  contains (wrapper_key endpoint include_user [] kw) (_cache c) = false ->
  Py.is_none result = false ->
  t1' <= now + ttl_or_default endpoint ttl ->
  wrapper_prompt_data [] kw = Py.VNone
  /\ exists c1 c2,
       wrapper endpoint ttl include_user c [] kw result t1 t2 now = Some (result, true, c1)
       /\ wrapper endpoint ttl include_user c1 [] kw' result' t1' t2' now'
          = Some (result, false, c2).
Proof.
  intros Hmax Hwf Hby Hby' Hu Hnew Hres Ht. split; [reflexivity |].
  destruct (wrapper_first_call endpoint ttl include_user c [] kw result t1 t2 now
              Hmax Hwf Hby Hnew) as (c1 & Hcall & L & _).
  exists c1. eexists. split; [exact Hcall |].
  assert (Hk : wrapper_key endpoint include_user [] kw'
               = wrapper_key endpoint include_user [] kw).
  { unfold wrapper_key. cbn [wrapper_prompt_data]. rewrite Hu. reflexivity. }
  rewrite <- Hk in L.
  rewrite (wrapper_served endpoint ttl include_user c1 [] kw' result' t1' t2' now'
             _ Hby' L); [reflexivity | exact Ht | exact Hres].
Qed.

(** X13.  A call whose request is not in the cache awaits the function,
    returns its result and stores it; a later call with the same request
    and caller, before the entry expires, returns that result without
    awaiting the function.  With [bypass_cache] set, the function is
    awaited and the cache is neither read nor written. *)
Theorem X13_second_call_is_served_from_the_cache
    (endpoint : string) (ttl : option Z) (include_user : bool) (c : AICache.t)
    (args args' : list Py.value) (kw kw' : kwargs) (result result' : Py.value)
    (t1 t2 now t1' t2' now' : Z) :
  1 <= max_size c -> wf c ->
  Py.truthy (kw_bypass_cache kw) = false ->
  Py.truthy (kw_bypass_cache kw') = false ->
  wrapper_key endpoint include_user args' kw' = wrapper_key endpoint include_user args kw ->
  contains (wrapper_key endpoint include_user args kw) (_cache c) = false ->
  Py.is_none result = false ->
  t1' <= now + ttl_or_default endpoint ttl ->
  (exists c1 c2,
     wrapper endpoint ttl include_user c args kw result t1 t2 now = Some (result, true, c1)
     /\ wrapper endpoint ttl include_user c1 args' kw' result' t1' t2' now'
        = Some (result, false, c2)
     /\ CacheStats.misses (_stats c2) = CacheStats.misses (_stats c) + 1
     /\ CacheStats.hits (_stats c2) = CacheStats.hits (_stats c) + 1)
  /\ (forall kwb, Py.truthy (kw_bypass_cache kwb) = true ->
        wrapper endpoint ttl include_user c args kwb result' t1 t2 now
        = Some (result', true, c)).
Proof.
  intros Hmax Hwf Hby Hby' Hk Hnew Hres Ht. split.
  - destruct (wrapper_first_call endpoint ttl include_user c args kw result t1 t2 now
                Hmax Hwf Hby Hnew) as (c1 & Hcall & L & _ & _ & Hh & Hm).
    exists c1. eexists. split; [exact Hcall |].
    rewrite <- Hk in L.
    rewrite (wrapper_served endpoint ttl include_user c1 args' kw' result' t1' t2' now'
               _ Hby' L Ht Hres).
    split; [reflexivity |].
    unfold wrapper_key in L. rewrite (get_hit c1 _ _ _ t1' t2' _ L Ht). cbn. lia.
  - intros kwb Hb. unfold wrapper. rewrite Hb. reflexivity.
Qed.

(** X14.  A result [None] is stored but never served: the next call with
    the same request finds the entry, which is counted as a hit, takes the
    [None] it holds for an absent entry, awaits the function again and
    stores the new result. *)
Theorem X14_a_result_none_is_never_served
    (endpoint : string) (ttl : option Z) (include_user : bool) (c : AICache.t)
    (args : list Py.value) (kw : kwargs) (result' : Py.value) (t1 t2 now t1' t2' now' : Z) :
  1 <= max_size c -> wf c ->
  Py.truthy (kw_bypass_cache kw) = false ->
  contains (wrapper_key endpoint include_user args kw) (_cache c) = false ->
  t1' <= now + ttl_or_default endpoint ttl ->
  exists c1 c2,
    wrapper endpoint ttl include_user c args kw Py.VNone t1 t2 now = Some (Py.VNone, true, c1)
    /\ contains (wrapper_key endpoint include_user args kw) (_cache c1) = true
    /\ wrapper endpoint ttl include_user c1 args kw result' t1' t2' now'
       = Some (result', true, c2)
    /\ CacheStats.hits (_stats c2) = CacheStats.hits (_stats c1) + 1
    /\ getitem (wrapper_key endpoint include_user args kw) (_cache c2)
       = Some (new_entry endpoint result' ttl now').
Proof.
  intros Hmax Hwf Hby Hnew Ht.
  destruct (wrapper_first_call endpoint ttl include_user c args kw Py.VNone t1 t2 now
              Hmax Hwf Hby Hnew) as (c1 & Hcall & L & Hwf1 & Hm1 & _).
  exists c1.
  pose proof L as L0. unfold wrapper_key in L0.
  pose proof (get_hit c1 _ _ _ t1' t2' _ L0 Ht) as Hget.
  set (ch := snd (get c1 endpoint (wrapper_prompt_data args kw)
                    (cached_ai_response_user_id include_user (kw_user_id kw)) t1' t2')).
  assert (Hch : contains (wrapper_key endpoint include_user args kw) (_cache ch) = true).
  { unfold ch, wrapper_key. rewrite Hget. cbn [snd _cache]. unfold contains.
    rewrite lookup_app_new; [reflexivity |]. apply delitem_removes, Hwf1. }
  pose proof (set_existing ch endpoint (wrapper_prompt_data args kw) result' ttl
                (cached_ai_response_user_id include_user (kw_user_id kw)) now' Hch) as Hset.
  eexists. split; [exact Hcall | split; [| split; [| split]]].
  - unfold contains. unfold getitem in L. rewrite L. reflexivity.
  - unfold wrapper. rewrite Hby. cbn [negb]. rewrite Hget.
    cbn [Py.is_none new_entry CacheEntry.value negb].
    unfold ch in Hset. rewrite Hget in Hset. cbn [snd] in Hset. rewrite Hset. reflexivity.
  - cbn. reflexivity.
  - cbn [_cache]. apply lookup_app_new.
    assert (Hnd : NoDup (keys (_cache ch))).
    { unfold ch. rewrite Hget. cbn [snd _cache].
      apply NoDup_keys_app_new; [apply NoDup_delitem, Hwf1 | apply delitem_removes, Hwf1]. }
    unfold ch in Hnd. rewrite Hget in Hnd. cbn [snd _cache] in Hnd.
    apply delitem_removes. exact Hnd.
Qed.

End ExtraWrapper.

(** * Further properties: quota, isolation and the sequential ceiling *)

Section MoreRateLimiterFacts.
Import RateLimiterService Spec More.

(** The resolved policy always has the three keys. *)
Lemma get_rate_limits_keys (session : Session.t) (user : User.t) :
  exists a b c,
    _get_rate_limits session user
    = [("requests_per_minute", a); ("requests_per_hour", b); ("requests_per_day", c)].
Proof.
  unfold _get_rate_limits.
  destruct (first_active_config session "user" (User.id user)) as [cu|];
    [unfold limits_of_config; eauto |].
  destruct (first_active_config session "role" (UserRole_value (User.role user))) as [cr|];
    [unfold limits_of_config; eauto |].
  destruct (User.role user); vm_compute; eauto.
Qed.

Lemma count_requests_nonneg (session : Session.t) (uid : string)
    (e : option AIEndpoint) (since : Z) :
  0 <= _count_requests session uid e since.
Proof. unfold _count_requests. lia. Qed.

(** A later start of the window counts no more events. *)
Lemma count_requests_antitone (session : Session.t) (uid : string)
    (e e' : option AIEndpoint) (since since' : Z) :
  since <= since' ->
  _count_requests session uid e' since' <= _count_requests session uid e since.
Proof.
  intros Hle. unfold _count_requests.
  induction (Session.ai_usage session) as [|u l IH]; cbn [filter]; [lia |].
  destruct (counted uid since' u) eqn:H1, (counted uid since u) eqn:H2;
    cbn [List.length]; try lia.
  exfalso. unfold counted in H1, H2.
  apply andb_prop in H1 as (Hu & Ht). rewrite Hu in H2. cbn in H2.
  apply Z.leb_le in Ht. apply Z.leb_gt in H2. lia.
Qed.

(** The count after an event has been recorded. *)
Lemma count_requests_record (session : Session.t) (user : User.t) (endpoint : AIEndpoint)
    (success : bool) (t : Z) (uid : string) (e : option AIEndpoint) (since : Z) :
  _count_requests (record_usage session user endpoint success t) uid e since
  = _count_requests session uid e since
    + (if String.eqb (User.id user) uid && (since <=? t) then 1 else 0).
Proof.
  unfold _count_requests, record_usage. cbn [Session.ai_usage].
  rewrite filter_app, length_app. cbn [filter]. unfold counted at 2. cbn.
  destruct (String.eqb (User.id user) uid && (since <=? t)); cbn [List.length]; lia.
Qed.

Lemma get_rate_limits_usage (usage usage' : list AIUsage.t) (rows : list RateLimitConfig.t)
    (user : User.t) :
  _get_rate_limits (Session.mk usage rows) user = _get_rate_limits (Session.mk usage' rows) user.
Proof. reflexivity. Qed.

Lemma get_rate_limits_record (session : Session.t) (a : User.t) (endpoint : AIEndpoint)
    (success : bool) (t : Z) (user : User.t) :
  _get_rate_limits (record_usage session a endpoint success t) user
  = _get_rate_limits session user.
Proof. reflexivity. Qed.

(** A check passes exactly when each count is below its threshold. *)
Lemma check_rate_limit_allows (session : Session.t) (user : User.t)
    (endpoint : AIEndpoint) (now : Z) :
  check_rate_limit session user endpoint now = CheckReturns true None
  <-> window_count session user now (timedelta_minutes 1)
      < per_minute (_get_rate_limits session user)
      /\ window_count session user now (timedelta_hours 1)
         < per_hour (_get_rate_limits session user)
      /\ window_count session user now (timedelta_days 1)
         < per_day (_get_rate_limits session user).
Proof.
  unfold check_rate_limit. rewrite check_rate_limit_traced_unrolled. cbv zeta.
  unfold window_count, exceeded.
  change (_count_requests session (User.id user) (Some endpoint))
    with (_count_requests session (User.id user) None).
  destruct (per_minute _ <=? _) eqn:Hm;
    [| destruct (per_hour _ <=? _) eqn:Hh; [| destruct (per_day _ <=? _) eqn:Hd]];
    cbn [snd];
    rewrite ?Z.leb_le, ?Z.leb_gt in *;
    (split; [intros H; try discriminate H | intros (H1 & H2 & H3)]); try lia.
  repeat split; lia || reflexivity.
Qed.

(** A check that does not pass raises. *)
Lemma check_rate_limit_cases (session : Session.t) (user : User.t)
    (endpoint : AIEndpoint) (now : Z) :
  check_rate_limit session user endpoint now = CheckReturns true None
  \/ exists e, check_rate_limit session user endpoint now = CheckRaises e.
Proof.
  unfold check_rate_limit. rewrite check_rate_limit_traced_unrolled. cbv zeta.
  unfold exceeded.
  repeat match goal with
         | |- context [if ?c then _ else _] => destruct c
         end; cbn [snd]; eauto.
Qed.

Lemma find_skip {A : Type} (f : A -> bool) (l1 l2 : list A) (x : A) :
  f x = false -> find f (l1 ++ x :: l2) = find f (l1 ++ l2).
Proof.
  intros Hx. induction l1 as [|y l1 IH]; cbn; [rewrite Hx; reflexivity |].
  destruct (f y); [reflexivity | exact IH].
Qed.

Lemma get_rate_limits_configs (s1 s2 : Session.t) (user : User.t) :
  Session.rate_limit_config s1 = Session.rate_limit_config s2 ->
  _get_rate_limits s1 user = _get_rate_limits s2 user.
Proof.
  intros E. unfold _get_rate_limits, first_active_config. rewrite E. reflexivity.
Qed.

(** A check is decided by the resolved policy and the three counts. *)
Lemma check_rate_limit_ext (s1 s2 : Session.t) (user : User.t)
    (endpoint endpoint' : AIEndpoint) (now : Z) :
  _get_rate_limits s1 user = _get_rate_limits s2 user ->
  (forall since, _count_requests s1 (User.id user) None since
                 = _count_requests s2 (User.id user) None since) ->
  check_rate_limit s1 user endpoint now = check_rate_limit s2 user endpoint' now.
Proof.
  intros El Ec. unfold check_rate_limit. rewrite !check_rate_limit_traced_unrolled.
  cbv zeta. rewrite El.
  change (_count_requests s1 (User.id user) (Some endpoint))
    with (_count_requests s1 (User.id user) None).
  change (_count_requests s2 (User.id user) (Some endpoint'))
    with (_count_requests s2 (User.id user) None).
  rewrite !Ec. reflexivity.
Qed.

Lemma request_session (session : Session.t) (user : User.t) (endpoint : AIEndpoint)
    (success : bool) (t_check t_record : Z) :
  snd (request session user endpoint success t_check t_record)
  = match check_rate_limit session user endpoint t_check with
    | CheckRaises _ => session
    | CheckReturns _ _ => record_usage session user endpoint success t_record
    end.
Proof.
  unfold request. destruct (check_rate_limit session user endpoint t_check); reflexivity.
Qed.

Lemma requests_cons (session : Session.t) (user : User.t) (endpoint : AIEndpoint)
    (t_check t_record : Z) (times : list (Z * Z)) :
  snd (requests session user endpoint ((t_check, t_record) :: times))
  = snd (requests (snd (request session user endpoint true t_check t_record))
           user endpoint times).
Proof.
  cbn [requests].
  destruct (request session user endpoint true t_check t_record) as [r s1]. cbn [snd].
  destruct (requests s1 user endpoint times) as [rs s2]. reflexivity.
Qed.

(** One request keeps the caller within the limits. *)
Lemma request_within_limits (session : Session.t) (user : User.t) (endpoint : AIEndpoint)
    (success : bool) (t t_check t_record : Z) :
  within_limits session user t -> t <= t_check -> t_check <= t_record ->
  within_limits (snd (request session user endpoint success t_check t_record)) user t_record.
Proof.
  intros (Hts & Hm & Hh & Hd) H1 H2. rewrite request_session.
  assert (Hanti : forall d, window_count session user t_record d
                            <= window_count session user t d).
  { intros d. apply count_requests_antitone. lia. }
  assert (Hanti' : forall d, window_count session user t_record d
                             <= window_count session user t_check d).
  { intros d. apply count_requests_antitone. lia. }
  destruct (check_rate_limit session user endpoint t_check) as [a m | e] eqn:Hc.
  - assert (Hok : check_rate_limit session user endpoint t_check = CheckReturns true None).
    { destruct (check_rate_limit_cases session user endpoint t_check) as [E | (e & E)];
        [exact E | congruence]. }
    apply check_rate_limit_allows in Hok. destruct Hok as (Cm & Ch & Cd).
    unfold within_limits. rewrite get_rate_limits_record.
    unfold window_count in *. rewrite !count_requests_record.
    split; [| repeat split].
    + intros u Hin Hu. unfold record_usage in Hin. cbn [Session.ai_usage] in Hin.
      apply in_app_or in Hin. destruct Hin as [Hin | [<- | []]].
      * specialize (Hts u Hin Hu). lia.
      * cbn. lia.
    + specialize (Hanti' (timedelta_minutes 1)).
      destruct (_ && _); lia.
    + specialize (Hanti' (timedelta_hours 1)).
      destruct (_ && _); lia.
    + specialize (Hanti' (timedelta_days 1)).
      destruct (_ && _); lia.
  - split; [| repeat split].
    + intros u Hin Hu. specialize (Hts u Hin Hu). lia.
    + specialize (Hanti (timedelta_minutes 1)). lia.
    + specialize (Hanti (timedelta_hours 1)). lia.
    + specialize (Hanti (timedelta_days 1)). lia.
Qed.

(** The requests of a caller leave the table of overrides and the counts
    of every other caller as they are. *)
Lemma requests_frame (session : Session.t) (a : User.t) (endpoint : AIEndpoint)
    (times : list (Z * Z)) :
  Session.rate_limit_config (snd (requests session a endpoint times))
  = Session.rate_limit_config session
  /\ forall uid e since,
       uid <> User.id a ->
       _count_requests (snd (requests session a endpoint times)) uid e since
       = _count_requests session uid e since.
Proof.
  revert session. induction times as [|[tc tr] times IH]; intros session.
  - split; reflexivity.
  - rewrite requests_cons.
    destruct (IH (snd (request session a endpoint true tc tr))) as (Hcfg & Hcnt).
    rewrite request_session in *.
    destruct (check_rate_limit session a endpoint tc).
    + split; [rewrite Hcfg; reflexivity |].
      intros uid e since Hne. rewrite (Hcnt uid e since Hne), count_requests_record.
      assert (E : String.eqb (User.id a) uid = false)
        by (apply String.eqb_neq; congruence).
      rewrite E. cbn. lia.
    + split; [exact Hcfg | exact Hcnt].
Qed.

End MoreRateLimiterFacts.

Section ExtraRateLimiter.
Import RateLimiterService Spec More.

(** The quota, written out *)
Lemma get_user_remaining_quota_eq (session : Session.t) (user : User.t) (now : Z) :
  get_user_remaining_quota session user now
  = Returns
      (Quota.mk
         (WindowQuota.mk (window_count session user now (timedelta_minutes 1))
            (per_minute (_get_rate_limits session user))
            (Z.max 0 (per_minute (_get_rate_limits session user)
                      - window_count session user now (timedelta_minutes 1)))
            (now + timedelta_minutes 1))
         (WindowQuota.mk (window_count session user now (timedelta_hours 1))
            (per_hour (_get_rate_limits session user))
            (Z.max 0 (per_hour (_get_rate_limits session user)
                      - window_count session user now (timedelta_hours 1)))
            (now + timedelta_hours 1))
         (WindowQuota.mk (window_count session user now (timedelta_days 1))
            (per_day (_get_rate_limits session user))
            (Z.max 0 (per_day (_get_rate_limits session user)
                      - window_count session user now (timedelta_days 1)))
            (now + timedelta_days 1))).
Proof.
  destruct (get_rate_limits_keys session user) as (a & b & c & E).
  unfold get_user_remaining_quota, per_minute, per_hour, per_day, window_count.
  rewrite E. reflexivity.
Qed.

(** X15.  [get_user_remaining_quota] never raises.  For each window it
    reports the count of the caller over all endpoints, the resolved
    threshold, [remaining = max(0, limit - used)], which is never negative
    and is 0 exactly when the count has reached the threshold, and a reset
    time one window length after [now].  The counts grow with the window:
    minute, hour, day. *)
Theorem X15_quota_is_total_and_consistent (session : Session.t) (user : User.t) (now : Z) :
  exists q,
    get_user_remaining_quota session user now = Returns q
    /\ WindowQuota.used (Quota.minute q) = window_count session user now (timedelta_minutes 1)
    /\ WindowQuota.used (Quota.hour q) = window_count session user now (timedelta_hours 1)
    /\ WindowQuota.used (Quota.day q) = window_count session user now (timedelta_days 1)
    /\ WindowQuota.limit (Quota.minute q) = per_minute (_get_rate_limits session user)
    /\ WindowQuota.limit (Quota.hour q) = per_hour (_get_rate_limits session user)
    /\ WindowQuota.limit (Quota.day q) = per_day (_get_rate_limits session user)
    /\ (forall w, In w [Quota.minute q; Quota.hour q; Quota.day q] ->
          0 <= WindowQuota.remaining w
          /\ WindowQuota.remaining w = Z.max 0 (WindowQuota.limit w - WindowQuota.used w)
          /\ (WindowQuota.remaining w = 0 <-> WindowQuota.limit w <= WindowQuota.used w))
    /\ 0 <= WindowQuota.used (Quota.minute q)
         <= WindowQuota.used (Quota.hour q)
    /\ WindowQuota.used (Quota.hour q) <= WindowQuota.used (Quota.day q)
    /\ WindowQuota.resets_at (Quota.minute q) = now + timedelta_minutes 1
    /\ WindowQuota.resets_at (Quota.hour q) = now + timedelta_hours 1
    /\ WindowQuota.resets_at (Quota.day q) = now + timedelta_days 1.
Proof.
  rewrite get_user_remaining_quota_eq.
  eexists. split; [reflexivity |].
  cbn [Quota.minute Quota.hour Quota.day WindowQuota.used WindowQuota.limit
         WindowQuota.remaining WindowQuota.resets_at].
  do 6 (split; [reflexivity |]).
  split; [| split; [split | split; [| repeat split]]].
  - intros w [<- | [<- | [<- | []]]]; cbn; lia.
  - apply count_requests_nonneg.
  - apply count_requests_antitone. unfold timedelta_minutes, timedelta_hours. lia.
  - apply count_requests_antitone. unfold timedelta_days, timedelta_hours. lia.
Qed.

(** X16.  The check and the quota agree: at the same reading of the
    clock, [check_rate_limit] lets the caller pass exactly when the quota
    reports something remaining in each of the three windows, and when it
    raises, the quota reports nothing remaining in the window it raises
    for. *)
Theorem X16_check_passes_iff_quota_remains (session : Session.t) (user : User.t)
    (endpoint : AIEndpoint) (now : Z) (q : Quota.t) :
  get_user_remaining_quota session user now = Returns q ->
  (check_rate_limit session user endpoint now = CheckReturns true None
   <-> 0 < WindowQuota.remaining (Quota.minute q)
       /\ 0 < WindowQuota.remaining (Quota.hour q)
       /\ 0 < WindowQuota.remaining (Quota.day q))
  /\ (forall e,
        check_rate_limit session user endpoint now = CheckRaises e ->
        (RateLimitExceeded.limit_type e = "minute"
         /\ WindowQuota.remaining (Quota.minute q) = 0)
        \/ (RateLimitExceeded.limit_type e = "hour"
            /\ WindowQuota.remaining (Quota.hour q) = 0)
        \/ (RateLimitExceeded.limit_type e = "day"
            /\ WindowQuota.remaining (Quota.day q) = 0)).
Proof.
  intros Hq. rewrite get_user_remaining_quota_eq in Hq. injection Hq as <-.
  cbn [Quota.minute Quota.hour Quota.day WindowQuota.remaining].
  split.
  - rewrite check_rate_limit_allows. lia.
  - intros e He.
    destruct (check_rate_limit_raises _ _ _ _ _ He) as (Hty & Hlim & Hcount & Hle & _).
    rewrite Hcount, Hlim in Hle.
    fold (window_count session user now
            (window_duration (RateLimitExceeded.limit_type e))) in Hle.
    destruct Hty as [E | [E | [E | []]]]; rewrite <- E in *.
    + left. split; [reflexivity |]. unfold per_minute.
      change (window_duration "minute") with (timedelta_minutes 1) in Hle.
      change (snd (Py.dict_get windows "minute" (0, ""))) with "requests_per_minute" in Hle.
      lia.
    + right. left. split; [reflexivity |]. unfold per_hour.
      change (window_duration "hour") with (timedelta_hours 1) in Hle.
      change (snd (Py.dict_get windows "hour" (0, ""))) with "requests_per_hour" in Hle.
      lia.
    + right. right. split; [reflexivity |]. unfold per_day.
      change (window_duration "day") with (timedelta_days 1) in Hle.
      change (snd (Py.dict_get windows "day" (0, ""))) with "requests_per_day" in Hle.
      lia.
Qed.

(** X17.  Requests that come one after the other never take a caller
    over a limit.  If at the start the count of each trailing window is at
    most its threshold, then after any sequence of requests (each one a
    check followed, when the check passes, by the record of the event)
    made with a clock that does not go back, the count of each trailing
    window is still at most its threshold. *)
Theorem X17_sequential_requests_stay_within_limits (session : Session.t) (user : User.t)
    (endpoint : AIEndpoint) (times : list (Z * Z)) (t : Z) :
  within_limits session user t ->
  times_ok t times = true ->
  within_limits (snd (requests session user endpoint times)) user (last_time t times).
Proof.
  revert session t. induction times as [|[tc tr] times IH]; intros session t Hin Hok.
  - exact Hin.
  - cbn [times_ok] in Hok. apply andb_prop in Hok as (Hok & Hrest).
    apply andb_prop in Hok as (H1 & H2). apply Z.leb_le in H1, H2.
    rewrite requests_cons. unfold last_time. cbn [fold_left snd].
    apply IH; [| exact Hrest].
    apply (request_within_limits session user endpoint true t tc tr Hin H1 H2).
Qed.

(** X18.  Callers do not share quota: the requests of one caller change
    neither the outcome of a check nor the quota of another caller. *)
Theorem X18_callers_do_not_share_quota (session : Session.t) (a b : User.t)
    (endpoint endpoint' : AIEndpoint) (times : list (Z * Z)) (now : Z) :
  User.id a <> User.id b ->
  check_rate_limit (snd (requests session a endpoint times)) b endpoint' now
  = check_rate_limit session b endpoint' now
  /\ get_user_remaining_quota (snd (requests session a endpoint times)) b now
     = get_user_remaining_quota session b now.
Proof.
  intros Hne. destruct (requests_frame session a endpoint times) as (Hcfg & Hcnt).
  assert (El : _get_rate_limits (snd (requests session a endpoint times)) b
               = _get_rate_limits session b) by (apply get_rate_limits_configs, Hcfg).
  assert (Ec : forall since,
             _count_requests (snd (requests session a endpoint times)) (User.id b) None since
             = _count_requests session (User.id b) None since).
  { intros since. apply Hcnt. congruence. }
  split.
  - apply check_rate_limit_ext; assumption.
  - rewrite !get_user_remaining_quota_eq. unfold window_count. rewrite El, !Ec. reflexivity.
Qed.

(** X19.  Only the active rows keyed to the caller or to the role of the
    caller take part in the resolution of a policy: a row that is not
    active, or keyed to another caller or role, or of another target type,
    can be added or removed anywhere in the table without changing the
    policy of the caller; and the policy does not depend on the usage
    table. *)
Theorem X19_only_active_rows_of_the_caller_count (usage usage' : list AIUsage.t)
    (rows1 rows2 : list RateLimitConfig.t) (r : RateLimitConfig.t) (user : User.t) :
  applies_to user r = false ->
  _get_rate_limits (Session.mk usage (rows1 ++ r :: rows2)) user
  = _get_rate_limits (Session.mk usage' (rows1 ++ rows2)) user.
Proof.
  intros Hr. unfold applies_to in Hr. apply orb_false_elim in Hr as (Hu & Hro).
  unfold _get_rate_limits, first_active_config. cbn [Session.rate_limit_config].
  rewrite !find_skip by assumption. reflexivity.
Qed.

(** A row that is not active applies to no caller. *)
Lemma inactive_row_applies_to_nobody (user : User.t) (r : RateLimitConfig.t) :
  RateLimitConfig.is_active r = false -> applies_to user r = false.
Proof.
  intros H. unfold applies_to, selects. rewrite H. cbn. rewrite !andb_false_r. reflexivity.
Qed.

(** X20.  The thresholds at their edges.  A threshold of zero or less
    for the minute blocks every request, even of a caller without any
    event.  A caller without any event in the last day is let through as
    soon as each of the three thresholds is at least 1: events that have
    left the windows do not count. *)
Theorem X20_thresholds_at_their_edges (session : Session.t) (user : User.t)
    (endpoint : AIEndpoint) (now : Z) :
  (per_minute (_get_rate_limits session user) <= 0 ->
   exists e,
     check_rate_limit session user endpoint now = CheckRaises e
     /\ RateLimitExceeded.limit_type e = "minute")
  /\ (window_count session user now (timedelta_days 1) = 0 ->
      1 <= per_minute (_get_rate_limits session user) ->
      1 <= per_hour (_get_rate_limits session user) ->
      1 <= per_day (_get_rate_limits session user) ->
      check_rate_limit session user endpoint now = CheckReturns true None).
Proof.
  split.
  - intros Hlim. unfold check_rate_limit. rewrite check_rate_limit_traced_unrolled.
    cbv beta zeta.
    pose proof (count_requests_nonneg session (User.id user) (Some endpoint)
                  (now - timedelta_minutes 1)) as Hn.
    assert (E : (per_minute (_get_rate_limits session user)
                 <=? _count_requests session (User.id user) (Some endpoint)
                       (now - timedelta_minutes 1)) = true) by (apply Z.leb_le; lia).
    rewrite E. cbn [snd]. eexists. split; reflexivity.
  - intros Hday Hm Hh Hd. apply check_rate_limit_allows.
    pose proof (count_requests_nonneg session (User.id user) None
                  (now - timedelta_minutes 1)) as N1.
    pose proof (count_requests_nonneg session (User.id user) None
                  (now - timedelta_hours 1)) as N2.
    pose proof (count_requests_antitone session (User.id user) None None
                  (now - timedelta_days 1) (now - timedelta_minutes 1)
                  ltac:(unfold timedelta_days, timedelta_minutes; lia)) as A1.
    pose proof (count_requests_antitone session (User.id user) None None
                  (now - timedelta_days 1) (now - timedelta_hours 1)
                  ltac:(unfold timedelta_days, timedelta_hours; lia)) as A2.
    unfold window_count in *. lia.
Qed.

End ExtraRateLimiter.

(** * Further properties: the usage report *)

Section MoreUsageFacts.
Import OrderedDict RateLimiterService More.

Lemma fold_left_add_shift {A : Type} (f : A -> Z) (l : list A) (a : Z) :
  fold_left (fun acc u => acc + f u) l a = a + fold_left (fun acc u => acc + f u) l 0.
Proof.
  revert a. induction l as [|x l IH]; intros a; cbn [fold_left]; [lia |].
  rewrite (IH (a + f x)), (IH (0 + f x)). lia.
Qed.

Lemma sum_of_cons {A : Type} (f : A -> Z) (x : A) (l : list A) :
  sum_of f (x :: l) = f x + sum_of f l.
Proof. unfold sum_of. cbn [fold_left]. rewrite fold_left_add_shift. lia. Qed.

Lemma sum_of_bounds {A : Type} (f : A -> Z) (l : list A) :
  (forall x, 0 <= f x <= 1) -> 0 <= sum_of f l <= Z.of_nat (List.length l).
Proof.
  intros Hf. induction l as [|x l IH]; [unfold sum_of; cbn; lia |].
  rewrite sum_of_cons. specialize (Hf x). cbn [List.length]. lia.
Qed.

Lemma sum_by_app (f : EndpointStats.t -> Z) (d1 d2 : list (string * EndpointStats.t)) :
  sum_by f (d1 ++ d2) = sum_by f d1 + sum_by f d2.
Proof.
  induction d1 as [|x d1 IH]; cbn; [reflexivity |].
  unfold sum_by in *. cbn. rewrite IH. lia.
Qed.

Lemma sum_by_replace (f : EndpointStats.t -> Z) (k : string) (st st' : EndpointStats.t)
    (d : list (string * EndpointStats.t)) :
  Py.dict_lookup k d = Some st ->
  sum_by f (replace k st' d) = sum_by f d - f st + f st'.
Proof.
  induction d as [|[k' v'] d IH]; cbn; [discriminate |].
  destruct (String.eqb k' k).
  - intros [= ->]. unfold sum_by. cbn. lia.
  - intros L. unfold sum_by in *. cbn. rewrite (IH L). lia.
Qed.

Lemma Forall_replace {V : Type} (P : string * V -> Prop) (k : string) (v : V)
    (d : OrderedDict.t V) :
  Forall P d -> P (k, v) -> Forall P (replace k v d).
Proof.
  intros Hd Hv. induction d as [|[k' v'] d IH]; cbn; [constructor |].
  inversion Hd; subst.
  destruct (String.eqb_spec k' k) as [-> | Hne]; constructor; auto.
Qed.

Lemma replace_app_new {V : Type} (d : OrderedDict.t V) (k : string) (z v : V) :
  ~ In k (keys d) -> replace k v (d ++ [(k, z)]) = d ++ [(k, v)].
Proof.
  induction d as [|[k' v'] d IH]; cbn; intros H.
  - rewrite String.eqb_refl. reflexivity.
  - destruct (String.eqb_spec k' k) as [-> | Hne]; [exfalso; auto |].
    f_equal. apply IH. auto.
Qed.

(** One round of the grouping: the entry of the endpoint, created if
    need be, gets one request more. *)
Lemma group_usage_spec (d : list (string * EndpointStats.t)) (u : AIUsageRow.t) :
  NoDup (keys d) ->
  Forall (fun kv => 1 <= EndpointStats.count (snd kv)) d ->
  NoDup (keys (group_usage d u))
  /\ Forall (fun kv => 1 <= EndpointStats.count (snd kv)) (group_usage d u)
  /\ sum_counts (group_usage d u) = sum_counts d + 1
  /\ sum_tokens (group_usage d u) = sum_tokens d + Py.or_zero (AIUsageRow.total_tokens u)
  /\ sum_costs (group_usage d u)
     = sum_costs d + Py.or_zero (AIUsageRow.estimated_cost_microdollars u).
Proof.
  intros Hnd Hpos. unfold group_usage.
  set (e := AIEndpoint_value (AIUsageRow.endpoint u)).
  destruct (contains e d) eqn:Hc; cbn [negb].
  - assert (Hl : exists st, Py.dict_lookup e d = Some st).
    { unfold contains in Hc. destruct (Py.dict_lookup e d); [eauto | discriminate]. }
    destruct Hl as (st & L). unfold getitem. rewrite L.
    assert (Hst : 1 <= EndpointStats.count st).
    { apply lookup_In in L. rewrite Forall_forall in Hpos. apply (Hpos _ L). }
    split; [rewrite keys_replace; exact Hnd |].
    split; [apply Forall_replace; [exact Hpos | cbn; lia] |].
    unfold sum_counts, sum_tokens, sum_costs.
    rewrite !(sum_by_replace _ e st _ d L). cbn. repeat split; lia.
  - rewrite (setitem_absent d e _ Hc). unfold getitem.
    apply contains_false_keys in Hc.
    rewrite (lookup_app_new d e _ Hc), (replace_app_new d e _ _ Hc).
    split; [apply NoDup_keys_app_new; assumption |].
    split; [apply Forall_app; split; [exact Hpos | repeat constructor; cbn; lia] |].
    unfold sum_counts, sum_tokens, sum_costs. rewrite !sum_by_app. unfold sum_by. cbn.
    repeat split; lia.
Qed.

Lemma group_all (l : list AIUsageRow.t) (d : list (string * EndpointStats.t)) :
  NoDup (keys d) ->
  Forall (fun kv => 1 <= EndpointStats.count (snd kv)) d ->
  NoDup (keys (fold_left group_usage l d))
  /\ Forall (fun kv => 1 <= EndpointStats.count (snd kv)) (fold_left group_usage l d)
  /\ sum_counts (fold_left group_usage l d) = sum_counts d + Z.of_nat (List.length l)
  /\ sum_tokens (fold_left group_usage l d)
     = sum_tokens d + sum_of (fun u => Py.or_zero (AIUsageRow.total_tokens u)) l
  /\ sum_costs (fold_left group_usage l d)
     = sum_costs d + sum_of (fun u => Py.or_zero (AIUsageRow.estimated_cost_microdollars u)) l.
Proof.
  revert d. induction l as [|u l IH]; intros d Hnd Hpos; cbn [fold_left].
  - unfold sum_of. cbn. repeat split; try assumption; lia.
  - destruct (group_usage_spec d u Hnd Hpos) as (Hnd1 & Hpos1 & Hc & Ht & Hx).
    destruct (IH (group_usage d u) Hnd1 Hpos1) as (Hnd2 & Hpos2 & Hc2 & Ht2 & Hx2).
    rewrite !sum_of_cons. cbn [List.length].
    repeat split; try assumption; lia.
Qed.

(** The selection of the rows of one user is the selection among the
    rows of that user. *)
Lemma usage_selected_own (user : User.t) (start_date end_date : option Z)
    (ai_usage : list AIUsageRow.t) :
  filter (usage_selected (Some (User.id user)) start_date end_date) ai_usage
  = filter (usage_selected None start_date end_date) (own_rows user ai_usage).
Proof.
  unfold own_rows. rewrite filter_twice. apply filter_ext. intros u.
  unfold usage_selected. cbn. rewrite andb_assoc. reflexivity.
Qed.

End MoreUsageFacts.

Section ExtraUsage.
Import OrderedDict RateLimiterService More.

(** X21.  The usage report adds up.  The requests are the successful
    plus the failed ones, none of them negative; the endpoints of
    [by_endpoint] are distinct, each with at least one request; and the
    counts, the tokens and the costs of the endpoints sum to the totals of
    the report.  With no row selected every number is 0 and [by_endpoint]
    is empty. *)
Theorem X21_usage_report_adds_up (ai_usage : list AIUsageRow.t) (user_id : option string)
    (start_date end_date : option Z) :
  UsageStats.total_requests (get_usage_stats ai_usage user_id start_date end_date)
  = UsageStats.successful_requests (get_usage_stats ai_usage user_id start_date end_date)
    + UsageStats.failed_requests (get_usage_stats ai_usage user_id start_date end_date)
  /\ 0 <= UsageStats.successful_requests (get_usage_stats ai_usage user_id start_date end_date)
  /\ 0 <= UsageStats.failed_requests (get_usage_stats ai_usage user_id start_date end_date)
  /\ NoDup (keys (UsageStats.by_endpoint
                    (get_usage_stats ai_usage user_id start_date end_date)))
  /\ Forall (fun kv => 1 <= EndpointStats.count (snd kv))
       (UsageStats.by_endpoint (get_usage_stats ai_usage user_id start_date end_date))
  /\ sum_counts (UsageStats.by_endpoint
                   (get_usage_stats ai_usage user_id start_date end_date))
     = UsageStats.total_requests (get_usage_stats ai_usage user_id start_date end_date)
  /\ sum_tokens (UsageStats.by_endpoint
                   (get_usage_stats ai_usage user_id start_date end_date))
     = UsageStats.total_tokens (get_usage_stats ai_usage user_id start_date end_date)
  /\ sum_costs (UsageStats.by_endpoint
                  (get_usage_stats ai_usage user_id start_date end_date))
     = UsageStats.total_cost_microdollars
         (get_usage_stats ai_usage user_id start_date end_date)
  /\ (filter (usage_selected user_id start_date end_date) ai_usage = [] ->
      get_usage_stats ai_usage user_id start_date end_date = UsageStats.mk 0 0 0 0 0 0 []).
Proof.
  unfold get_usage_stats.
  set (usages := filter (usage_selected user_id start_date end_date) ai_usage).
  cbn [UsageStats.total_requests UsageStats.successful_requests UsageStats.failed_requests
         UsageStats.by_endpoint UsageStats.total_tokens UsageStats.total_cost_microdollars].
  pose proof (sum_of_bounds (fun u : AIUsageRow.t => if AIUsageRow.success u then 1 else 0)
                usages ltac:(intros x; cbv beta; destruct (AIUsageRow.success x); lia)) as Hs.
  destruct (group_all usages [] (NoDup_nil _) (Forall_nil _))
    as (Hnd & Hpos & Hc & Ht & Hx).
  unfold sum_counts, sum_tokens, sum_costs in *. cbn [sum_by fold_right] in Hc, Ht, Hx.
  repeat split; try assumption; try lia.
  intros E. rewrite E. reflexivity.
Qed.

(** X22.  Through the route, who is not an administrator gets the report
    of their own rows: the user asked for takes no part, and the rows of
    the other users change nothing.  A date that is missing is replaced by
    thirty days before the clock, for the start, and by the clock, for the
    end. *)
Theorem X22_report_of_a_non_administrator_is_their_own
    (ai_usage : list AIUsageRow.t) (current_user : User.t) (user_id : option string)
    (start_date end_date : option Z) (now_start now_end : Z) :
  User.role current_user <> ADMIN ->
  AiRouter.get_usage_stats ai_usage current_user user_id start_date end_date
    now_start now_end
  = get_usage_stats (own_rows current_user ai_usage) None
      (Some (match start_date with
             | Some d => d
             | None => now_start - timedelta_days 30
             end))
      (Some (match end_date with
             | Some d => d
             | None => now_end
             end)).
Proof.
  intros Hrole. unfold AiRouter.get_usage_stats.
  assert (E : AiRouter.UserRole_eqb (User.role current_user) ADMIN = false)
    by (destruct (User.role current_user); try reflexivity; congruence).
  rewrite E. cbn [negb]. unfold get_usage_stats.
  rewrite usage_selected_own. reflexivity.
Qed.

End ExtraUsage.

(** * The further properties on concrete inputs *)

Section ExtraWitnesses.
Import OrderedDict AICache RateLimiterService Spec More Inputs MoreInputs.

Lemma mixed_cache_keys : NoDup (keys (_cache mixed_cache)).
Proof.
  vm_compute. repeat constructor; cbn; intuition discriminate.
Defined.

Lemma mixed_cache_wf : wf mixed_cache.
Proof.
  split; [exact mixed_cache_keys | split; vm_compute; [discriminate | reflexivity]].
Defined.

Lemma X1_cleanup_expired_removes_exactly_the_expired_witness :
  fst (cleanup_expired mixed_cache 75) = 1
  /\ keys (_cache (snd (cleanup_expired mixed_cache 75))) = [key_B; key_C].
Proof.
  destruct (X1_cleanup_expired_removes_exactly_the_expired mixed_cache 75 mixed_cache_keys)
    as (Hn & _ & Hc & _).
  split; [rewrite Hn | rewrite Hc]; reflexivity.
Defined.

Lemma X2_sweep_is_invisible_to_lookup_witness :
  fst (get (lib := plain_lib) (snd (cleanup_expired mixed_cache 75))
         "analyze" payload_A None 80 80)
  = fst (get (lib := plain_lib) mixed_cache "analyze" payload_A None 80 80)
  /\ fst (get (lib := plain_lib) (snd (cleanup_expired mixed_cache 75))
            "analyze" payload_B None 80 80)
     = Some (tagged_response "analyze" 2).
Proof.
  split.
  - apply (X2_sweep_is_invisible_to_lookup (lib := plain_lib) mixed_cache 75
             "analyze" payload_A None 80 80 mixed_cache_keys). lia.
  - rewrite (X2_sweep_is_invisible_to_lookup (lib := plain_lib) mixed_cache 75
               "analyze" payload_B None 80 80 mixed_cache_keys ltac:(lia)).
    vm_compute. reflexivity.
Defined.

Lemma X3_invalidate_removes_one_entry_witness :
  fst (invalidate (lib := plain_lib) mixed_cache "analyze" payload_B None) = true
  /\ keys (_cache (snd (invalidate (lib := plain_lib) mixed_cache "analyze" payload_B None)))
     = [key_A; key_C]
  /\ fst (get (lib := plain_lib)
            (snd (invalidate (lib := plain_lib) mixed_cache "analyze" payload_B None))
            "analyze" payload_B None 30 30) = None.
Proof.
  destruct (X3_invalidate_removes_one_entry (lib := plain_lib) mixed_cache
              "analyze" payload_B None 30 30 mixed_cache_keys)
    as (Hb & Hc & _ & _ & _ & _ & _ & Hg & _).
  split; [rewrite Hb; vm_compute; reflexivity | split; [| exact Hg]].
  rewrite Hc. vm_compute. reflexivity.
Defined.

Lemma X5_statistics_take_no_part_witness :
  fst (get (lib := plain_lib) (reset_stats mixed_cache) "analyze" payload_B None 30 30)
  = fst (get (lib := plain_lib) mixed_cache "analyze" payload_B None 30 30)
  /\ same_entries_opt (run (lib := plain_lib) scenario_ops (reset_stats mixed_cache))
       (run (lib := plain_lib) scenario_ops mixed_cache).
Proof.
  destruct (X5_statistics_take_no_part (lib := plain_lib) (reset_stats mixed_cache)
              mixed_cache scenario_ops "analyze" payload_B None 30 30
              (conj eq_refl eq_refl)) as (Hrun & Hget & _).
  split; [exact Hget | exact Hrun].
Defined.

Lemma X6_every_lookup_is_a_hit_or_a_miss_witness :
  exists c,
    run (lib := plain_lib) scenario_ops (init 2) = Some c
    /\ CacheStats.hits (_stats c) + CacheStats.misses (_stats c) = 1
    /\ 0 <= CacheStats.evictions (_stats c) <= 3.
Proof.
  eexists. split; [vm_compute; reflexivity |].
  match goal with
  | |- context [CacheStats.hits (_stats ?c)] =>
      destruct (X6_every_lookup_is_a_hit_or_a_miss (lib := plain_lib) 2 scenario_ops c
                  ltac:(lia) eq_refl ltac:(vm_compute; reflexivity))
        as (Hsum & _ & _ & Hev)
  end.
  split; [exact Hsum | exact Hev].
Defined.

Lemma X7_reported_size_is_the_number_of_entries_witness :
  exists c,
    run (lib := plain_lib) scenario_ops (init 2) = Some c
    /\ CacheStats.current_size (_stats c) = len (_cache c)
    /\ get_stats c = (_stats c, c).
Proof.
  eexists. split; [vm_compute; reflexivity |].
  match goal with
  | |- context [get_stats ?c] =>
      destruct (X7_reported_size_is_the_number_of_entries (lib := plain_lib) 2
                  scenario_ops c ltac:(lia) ltac:(vm_compute; reflexivity))
        as (Hsz & _ & _ & _ & Hgs)
  end.
  split; [exact Hsz | exact Hgs].
Defined.

Lemma X8_only_a_set_changes_an_entry_witness :
  exists c',
    run (lib := plain_lib)
      [ OpGet "analyze" payload_A None 30 31; OpGet "analyze" payload_A None 40 41;
        OpSet "analyze" payload_C (response 3) None None 42 ] mixed_cache = Some c'
    /\ fst (get (lib := plain_lib) c' "analyze" payload_A None 51 51) = None.
Proof.
  eexists. split; [vm_compute; reflexivity |].
  match goal with
  | |- fst (get ?c' _ _ _ _ _) = None =>
      apply (proj2 (X8_only_a_set_changes_an_entry (lib := plain_lib) mixed_cache c'
                      [ OpGet "analyze" payload_A None 30 31;
                        OpGet "analyze" payload_A None 40 41;
                        OpSet "analyze" payload_C (response 3) None None 42 ]
                      "analyze" payload_A None ltac:(vm_compute; discriminate)
                      mixed_cache_wf ltac:(vm_compute; reflexivity)
                      ltac:(vm_compute; reflexivity))
               (CacheEntry.mk (response 1) 10 50 2 30) 51 51)
  end.
  - vm_compute. reflexivity.
  - vm_compute. reflexivity.
Defined.

Lemma X9_lookup_after_store_witness :
  exists c1,
    set (lib := plain_lib) mixed_cache "chat" payload_A (response 9) (Some 0) None 60
    = Some (_generate_key (lib := plain_lib) "chat" payload_A None, c1)
    /\ fst (get (lib := plain_lib) c1 "chat" payload_A None 60 60) = Some (response 9)
    /\ fst (get (lib := plain_lib) c1 "chat" payload_A None 61 61) = None.
Proof.
  destruct (X9_lookup_after_store (lib := plain_lib) mixed_cache "chat" payload_A
              (response 9) (Some 0) None 60 60 60 ltac:(vm_compute; discriminate)
              mixed_cache_wf) as (c1 & Hset & Hget & _).
  exists c1. split; [exact Hset | split; [exact Hget |]].
  destruct (X9_lookup_after_store (lib := plain_lib) mixed_cache "chat" payload_A
              (response 9) (Some 0) None 60 61 61 ltac:(vm_compute; discriminate)
              mixed_cache_wf) as (c1' & Hset' & Hget' & _).
  rewrite Hset in Hset'. injection Hset' as <-. exact Hget'.
Defined.

Lemma X10_set_below_capacity_evicts_nothing_witness :
  exists c',
    set (lib := plain_lib) mixed_cache "chat" payload_A (response 9) None None 60
    = Some (_generate_key (lib := plain_lib) "chat" payload_A None, c')
    /\ keys (_cache c')
       = [key_A; key_B; key_C; _generate_key (lib := plain_lib) "chat" payload_A None]
    /\ CacheStats.evictions (_stats c') = 1.
Proof.
  destruct (X10_set_below_capacity_evicts_nothing (lib := plain_lib) mixed_cache
              "chat" payload_A (response 9) None None 60 mixed_cache_wf
              ltac:(vm_compute; reflexivity) ltac:(vm_compute; reflexivity))
    as (c' & Hset & Hc & Hev & _).
  exists c'. split; [exact Hset | split; [rewrite Hc | rewrite Hev]]; reflexivity.
Defined.

Lemma X11_invalidate_by_endpoint_reads_the_tag_witness :
  (fst (invalidate_by_endpoint mixed_cache "analyze") = Returns 1
   /\ keys (_cache (snd (invalidate_by_endpoint mixed_cache "analyze"))) = [key_A; key_C])
  /\ invalidate_by_endpoint text_cache "analyze" = (Raises "AttributeError", text_cache).
Proof.
  split.
  - rewrite (proj1 (X11_invalidate_by_endpoint_reads_the_tag mixed_cache "analyze"
                      mixed_cache_keys) eq_refl).
    split; reflexivity.
  - apply (proj2 (X11_invalidate_by_endpoint_reads_the_tag text_cache "analyze"
                    ltac:(vm_compute; repeat constructor; cbn; intuition discriminate))).
    reflexivity.
Defined.

Lemma X23_a_hit_protects_from_the_next_eviction_witness :
  exists c2,
    set (lib := plain_lib)
      (snd (get (lib := plain_lib) mixed_cache "analyze" payload_A None 40 41))
      "chat" payload_A (response 9) None None 42
    = Some (_generate_key (lib := plain_lib) "chat" payload_A None, c2)
    /\ getitem key_A (_cache c2)
       = Some (touched 41 (CacheEntry.mk (response 1) 10 50 2 30)).
Proof.
  destruct (X23_a_hit_protects_from_the_next_eviction (lib := plain_lib) mixed_cache
              "analyze" payload_A None 40 41 (CacheEntry.mk (response 1) 10 50 2 30)
              "chat" payload_A (response 9) None None 42 mixed_cache_wf
              ltac:(vm_compute; discriminate) ltac:(vm_compute; reflexivity)
              ltac:(vm_compute; discriminate) ltac:(vm_compute; reflexivity))
    as (c2 & Hset & Hget & _).
  exists c2. split; [exact Hset | exact Hget].
Defined.

Lemma X24_set_needs_a_positive_capacity_witness :
  set (lib := plain_lib) (init 0) "analyze" payload_A (response 1) None None 1 = None
  /\ (exists c', set (lib := plain_lib) (init 1) "analyze" payload_A (response 1) None None 1
                 = Some (key_A, c'))
  /\ (exists c', set (lib := plain_lib) mixed_cache "analyze" payload_A (response 1) None None 1
                 = Some (key_A, c')).
Proof.
  split; [| split].
  - apply (proj1 (X24_set_needs_a_positive_capacity (lib := plain_lib) (init 0)
                    "analyze" payload_A (response 1) None None 1));
      [vm_compute; discriminate | reflexivity].
  - apply (proj1 (proj2 (X24_set_needs_a_positive_capacity (lib := plain_lib) (init 1)
                           "analyze" payload_A (response 1) None None 1))).
    vm_compute. discriminate.
  - apply (proj2 (proj2 (X24_set_needs_a_positive_capacity (lib := plain_lib) mixed_cache
                           "analyze" payload_A (response 1) None None 1))).
    vm_compute. reflexivity.
Defined.

Lemma X12_keyword_only_calls_share_one_entry_witness :
  exists c1 c2,
    wrapper (lib := plain_lib) "analyze" None true (init 10) [] kwargs_A
      (response 1) 1 1 1 = Some (response 1, true, c1)
    /\ wrapper (lib := plain_lib) "analyze" None true c1 [] kwargs_B
         (response 2) 5 5 5 = Some (response 1, false, c2).
Proof.
  apply (proj2 (X12_keyword_only_calls_share_one_entry (lib := plain_lib)
                  "analyze" None true (init 10) kwargs_A kwargs_B
                  (response 1) (response 2) 1 1 1 5 5 5
                  ltac:(vm_compute; discriminate) (wf_init 10 ltac:(lia))
                  eq_refl eq_refl eq_refl eq_refl eq_refl ltac:(vm_compute; discriminate))).
Defined.

Lemma X13_second_call_is_served_from_the_cache_witness :
  exists c1 c2,
    wrapper (lib := plain_lib) "analyze" (Some 60) false (init 10) [payload_A] kwargs_A
      (response 1) 1 1 1 = Some (response 1, true, c1)
    /\ wrapper (lib := plain_lib) "analyze" (Some 60) false c1 [payload_C] kwargs_A
         (response 2) 61 61 61 = Some (response 1, false, c2)
    /\ CacheStats.misses (_stats c2) = 1
    /\ CacheStats.hits (_stats c2) = 1.
Proof.
  apply (proj1 (X13_second_call_is_served_from_the_cache (lib := plain_lib)
                  "analyze" (Some 60) false (init 10) [payload_A] [payload_C]
                  kwargs_A kwargs_A (response 1) (response 2) 1 1 1 61 61 61
                  ltac:(vm_compute; discriminate) (wf_init 10 ltac:(lia))
                  eq_refl eq_refl eq_refl eq_refl eq_refl ltac:(vm_compute; discriminate))).
Defined.

Lemma X14_a_result_none_is_never_served_witness :
  exists c1 c2,
    wrapper (lib := plain_lib) "chat" None false (init 10) [payload_A] kwargs_A
      Py.VNone 1 1 1 = Some (Py.VNone, true, c1)
    /\ wrapper (lib := plain_lib) "chat" None false c1 [payload_A] kwargs_A
         (response 2) 2 2 2 = Some (response 2, true, c2)
    /\ CacheStats.hits (_stats c2) = CacheStats.hits (_stats c1) + 1.
Proof.
  destruct (X14_a_result_none_is_never_served (lib := plain_lib)
              "chat" None false (init 10) [payload_A] kwargs_A (response 2) 1 1 1 2 2 2
              ltac:(vm_compute; discriminate) (wf_init 10 ltac:(lia))
              eq_refl eq_refl ltac:(vm_compute; discriminate))
    as (c1 & c2 & H1 & _ & H2 & H3 & _).
  exists c1, c2. split; [exact H1 | split; [exact H2 | exact H3]].
Defined.

Lemma X16_check_passes_iff_quota_remains_witness :
  exists q,
    get_user_remaining_quota ten_events_session chair_user (30 * second) = Returns q
    /\ WindowQuota.remaining (Quota.minute q) = 0
    /\ WindowQuota.remaining (Quota.hour q) = 90
    /\ ~ check_rate_limit ten_events_session chair_user CHAT (30 * second)
         = CheckReturns true None.
Proof.
  eexists. split; [vm_compute; reflexivity |].
  split; [reflexivity | split; [reflexivity |]].
  intros Hpass.
  match goal with
  | _ : _ |- _ =>
      pose proof (proj1 (proj1 (X16_check_passes_iff_quota_remains ten_events_session
                                  chair_user CHAT (30 * second) _
                                  ltac:(vm_compute; reflexivity))) Hpass) as (Hm & _)
  end.
  vm_compute in Hm. discriminate Hm.
Defined.

Lemma X17_sequential_requests_stay_within_limits_witness :
  window_count (snd (requests empty_session faculty_user CHAT (every_second 12)))
    faculty_user (last_time 0 (every_second 12)) (timedelta_minutes 1) <= 10.
Proof.
  destruct (X17_sequential_requests_stay_within_limits empty_session faculty_user CHAT
              (every_second 12) 0) as (_ & Hm & _).
  - split; [intros u [] | vm_compute; repeat split; discriminate].
  - vm_compute. reflexivity.
  - exact Hm.
Defined.

Lemma X18_callers_do_not_share_quota_witness :
  check_rate_limit (snd (requests empty_session faculty_user CHAT (every_second 12)))
    chair_user ANALYZE (13 * second)
  = CheckReturns true None.
Proof.
  rewrite (proj1 (X18_callers_do_not_share_quota empty_session faculty_user chair_user
                    CHAT ANALYZE (every_second 12) (13 * second)
                    ltac:(vm_compute; discriminate))).
  vm_compute. reflexivity.
Defined.

Lemma X19_only_active_rows_of_the_caller_count_witness :
  _get_rate_limits (Session.mk [] [role_row; inactive_row; user_row]) faculty_user
  = _get_rate_limits overrides_session faculty_user.
Proof.
  apply (X19_only_active_rows_of_the_caller_count [] [] [role_row] [user_row]
           inactive_row faculty_user).
  vm_compute. reflexivity.
Defined.

Lemma X20_thresholds_at_their_edges_witness :
  (exists e,
     check_rate_limit blocked_session faculty_user CHAT 0 = CheckRaises e
     /\ RateLimitExceeded.limit_type e = "minute")
  /\ check_rate_limit ten_events_session chair_user CHAT (2 * timedelta_days 1)
     = CheckReturns true None.
Proof.
  split.
  - apply (proj1 (X20_thresholds_at_their_edges blocked_session faculty_user CHAT 0)).
    vm_compute. discriminate.
  - apply (proj2 (X20_thresholds_at_their_edges ten_events_session chair_user CHAT
                    (2 * timedelta_days 1)));
      vm_compute; reflexivity || discriminate.
Defined.

Lemma X21_usage_report_adds_up_witness :
  get_usage_stats usage_rows (Some (User.id admin_user)) None None
  = UsageStats.mk 0 0 0 0 0 0 [].
Proof.
  apply (X21_usage_report_adds_up usage_rows (Some (User.id admin_user)) None None).
  vm_compute. reflexivity.
Defined.

Lemma X22_report_of_a_non_administrator_is_their_own_witness :
  UsageStats.total_requests
    (AiRouter.get_usage_stats usage_rows faculty_user (Some (User.id chair_user))
       None None (20 * second) (20 * second)) = 2.
Proof.
  rewrite (X22_report_of_a_non_administrator_is_their_own usage_rows faculty_user
             (Some (User.id chair_user)) None None (20 * second) (20 * second)
             ltac:(vm_compute; discriminate)).
  vm_compute. reflexivity.
Defined.

End ExtraWitnesses.
